(** * register_registries.py: provisioning and deprovisioning of Google
      Artifact Registry registrations in CrowdStrike Falcon

    A shallow embedding of [src/register_registries.py].  The script is a
    sequence of calls to outside collaborators (the Falcon container API,
    the Google client libraries, the [gcloud] command line, the terminal,
    the local file system) glued together by Python control flow.  The
    embedding keeps that control flow and makes the collaborators explicit:

    - Python values that travel through the script untyped (Falcon
      responses, the service account key) are values of [pyval], and the
      dynamic operations on them ([x[k]], [x.get(k, d)], [x[0]], [len],
      truthiness, iteration) are fallible functions that raise the Python
      exception the interpreter would raise;
    - every function of the script is a computation in the monad [M]:
      it reads and changes the outside world, emits the chronological list
      of the calls it made ([event]s), and either returns or raises;
    - the collaborators are a record of functions over an arbitrary world
      type, so every theorem holds for whatever they answer.

    What is left out: the constructors of the clients ([FalconContainer],
    [ArtifactRegistryClient], [ProjectsClient]) make no call of their own
    here; floating point numbers are not among the values; a string is
    the string of the bytes of its UTF-8 encoding: [str.lower] treats the
    ASCII range, and [str.splitlines] knows every line boundary of Python,
    the three outside ASCII (U+0085, U+2028, U+2029) by their encoding; a
    dict is an association list in insertion order, read at the first
    binding of a key; a paged result is fetched by the call that returns
    it, so that the calls of its later pages are not separate events.
    Every exception of the model derives from [Exception]: the
    [BaseException]s that no [except Exception] catches ([SystemExit] of
    [parse_args], [KeyboardInterrupt]) are not among them, so [main] is
    modelled from the parsed flag on and the [__main__] block, which is a
    handler for [Exception] around [main], is not modelled. *)

From Stdlib Require Import List String Ascii ZArith Bool Arith Lia.
Import ListNotations.
Open Scope list_scope.
Open Scope string_scope.

(** ** Python values and exceptions *)

#[local] Set Warnings "-register-all".

Inductive pyval : Type :=
| PNone
| PBool (b : bool)
| PInt (z : Z)
| PStr (s : string)
| PList (l : list pyval)
| PDict (d : list (string * pyval)).

(** The exception classes the script can meet.  All of them derive from
    [Exception]; [ApiError] stands for whatever the client libraries raise. *)
Inductive exn_class : Type :=
| CalledProcessError
| KeyError
| IndexError
| TypeError
| AttributeError
| ValueError
| OSError
| EOFError
| JSONDecodeError
| ApiError.

(** [exn_str] is what [str(e)] gives and [exn_stderr] the attribute
    [e.stderr] of a [CalledProcessError] (empty for the other classes).
    The texts of the exceptions the interpreter raises follow CPython 3; the
    script only ever prints them. *)
Record exn : Type := mkExn { exn_cls : exn_class; exn_str : string; exn_stderr : string }.

Inductive result (A : Type) : Type :=
| Ok (a : A)
| Raise (e : exn).
Arguments Ok {A} a.
Arguments Raise {A} e.

Definition exn_class_eqb (a b : exn_class) : bool :=
  match a, b with
  | CalledProcessError, CalledProcessError
  | KeyError, KeyError
  | IndexError, IndexError
  | TypeError, TypeError
  | AttributeError, AttributeError
  | ValueError, ValueError
  | OSError, OSError
  | EOFError, EOFError
  | JSONDecodeError, JSONDecodeError
  | ApiError, ApiError => true
  | _, _ => false
  end.

Module Py.

Definition type_name (v : pyval) : string :=
  match v with
  | PNone => "NoneType"
  | PBool _ => "bool"
  | PInt _ => "int"
  | PStr _ => "str"
  | PList _ => "list"
  | PDict _ => "dict"
  end.

Definition error (cls : exn_class) (msg : string) : exn := mkExn cls msg "".

(** The line feed character, written [\n] in the source. *)
Definition LF : string := String (ascii_of_nat 10) "".

Fixpoint dict_lookup (k : string) (d : list (string * pyval)) : option pyval :=
  match d with
  | [] => None
  | (k', v) :: d' => if String.eqb k k' then Some v else dict_lookup k d'
  end.

Definition dict_keys (d : list (string * pyval)) : list string := map fst d.

(** [v[k]] for a string key [k]. *)
Definition getitem (v : pyval) (k : string) : result pyval :=
  match v with
  | PDict d =>
      match dict_lookup k d with
      | Some x => Ok x
      | None => Raise (error KeyError ("'" ++ k ++ "'"))
      end
  | PStr _ => Raise (error TypeError "string indices must be integers, not 'str'")
  | PList _ => Raise (error TypeError "list indices must be integers or slices, not str")
  | _ => Raise (error TypeError ("'" ++ type_name v ++ "' object is not subscriptable"))
  end.

(** [v.get(k, default)]: only a dict has the method. *)
Definition get (v : pyval) (k : string) (default : pyval) : result pyval :=
  match v with
  | PDict d =>
      match dict_lookup k d with
      | Some x => Ok x
      | None => Ok default
      end
  | _ => Raise (error AttributeError ("'" ++ type_name v ++ "' object has no attribute 'get'"))
  end.

(** [v[0]]. *)
Definition index0 (v : pyval) : result pyval :=
  match v with
  | PList (x :: _) => Ok x
  | PList [] => Raise (error IndexError "list index out of range")
  | PStr (String c _) => Ok (PStr (String c ""))
  | PStr EmptyString => Raise (error IndexError "string index out of range")
  | PDict _ => Raise (error KeyError "0")
  | _ => Raise (error TypeError ("'" ++ type_name v ++ "' object is not subscriptable"))
  end.

(** Truth value of [v], as [if v] and [not v] test it. *)
Definition truthy (v : pyval) : bool :=
  match v with
  | PNone => false
  | PBool b => b
  | PInt z => negb (Z.eqb z 0)
  | PStr s => negb (String.eqb s "")
  | PList l => match l with [] => false | _ => true end
  | PDict d => match d with [] => false | _ => true end
  end.

Definition len (v : pyval) : result nat :=
  match v with
  | PStr s => Ok (String.length s)
  | PList l => Ok (List.length l)
  | PDict d => Ok (List.length d)
  | _ => Raise (error TypeError ("object of type '" ++ type_name v ++ "' has no len()"))
  end.

Fixpoint chars (s : string) : list pyval :=
  match s with
  | EmptyString => []
  | String c s' => PStr (String c "") :: chars s'
  end.

(** The items a [for] loop over [v] visits. *)
Definition iter (v : pyval) : result (list pyval) :=
  match v with
  | PList l => Ok l
  | PStr s => Ok (chars s)
  | PDict d => Ok (map (fun kv => PStr (fst kv)) d)
  | _ => Raise (error TypeError ("'" ++ type_name v ++ "' object is not iterable"))
  end.

(** [v == n] for an integer literal [n] ([True == 1] and [False == 0]). *)
Definition eq_int (v : pyval) (n : Z) : bool :=
  match v with
  | PInt z => Z.eqb z n
  | PBool b => Z.eqb (if b then 1 else 0) n
  | _ => false
  end.

(** [v == s] for a string literal [s]. *)
Definition eq_str (v : pyval) (s : string) : bool :=
  match v with
  | PStr t => String.eqb t s
  | _ => false
  end.

(** [str.lower()] on the ASCII letters; other bytes are kept. *)
Definition lower_ascii (c : ascii) : ascii :=
  let n := nat_of_ascii c in
  if andb (Nat.leb 65 n) (Nat.leb n 90) then ascii_of_nat (n + 32) else c.

Fixpoint lower (s : string) : string :=
  match s with
  | EmptyString => EmptyString
  | String c s' => String (lower_ascii c) (lower s')
  end.

(** [s.split(sep)] for a one character separator. *)
Fixpoint split_aux (sep : ascii) (s : string) (cur : string) : list string :=
  match s with
  | EmptyString => [cur]
  | String c s' =>
      if Ascii.eqb c sep then cur :: split_aux sep s' ""
      else split_aux sep s' (cur ++ String c "")
  end.

Definition split (sep : ascii) (s : string) : list string := split_aux sep s "".

(** [l[-1]] on the never empty list a [split] returns. *)
Definition last_item (l : list string) : string := List.last l "".

(** [str.splitlines()]: a line ends at LF, CR, CRLF, VT, FF, FS, GS, RS,
    NEL (U+0085), LS (U+2028) or PS (U+2029); a last line that is not
    terminated is kept when it is not empty.  The first eight are one byte
    (CRLF two); NEL is the bytes C2 85, LS is E2 80 A8 and PS is E2 80 A9,
    and in the encoding of a text these bytes occur nowhere else. *)
Definition is_linebreak (c : ascii) : bool :=
  let n := nat_of_ascii c in
  orb (andb (Nat.leb 10 n) (Nat.leb n 13)) (andb (Nat.leb 28 n) (Nat.leb n 30)).

Definition is_byte (n : nat) (c : ascii) : bool := Nat.eqb (nat_of_ascii c) n.

(** The two bytes of NEL. *)
Definition is_nel (c1 c2 : ascii) : bool := andb (is_byte 194 c1) (is_byte 133 c2).

(** The three bytes of LS or of PS. *)
Definition is_ls_or_ps (c1 c2 c3 : ascii) : bool :=
  andb (is_byte 226 c1) (andb (is_byte 128 c2) (orb (is_byte 168 c3) (is_byte 169 c3))).

Fixpoint splitlines_aux (s : string) (cur : string) (after_cr : bool) : list string :=
  match s with
  | EmptyString => if String.eqb cur "" then [] else [cur]
  | String c s' =>
      if andb after_cr (is_byte 10 c) then splitlines_aux s' cur false
      else if is_linebreak c then cur :: splitlines_aux s' "" (is_byte 13 c)
      else
        match s' with
        | String c2 s2 =>
            if is_nel c c2 then cur :: splitlines_aux s2 "" false
            else
              match s2 with
              | String c3 s3 =>
                  if is_ls_or_ps c c2 c3 then cur :: splitlines_aux s3 "" false
                  else splitlines_aux s' (cur ++ String c "") false
              | EmptyString => splitlines_aux s' (cur ++ String c "") false
              end
        | EmptyString => splitlines_aux s' (cur ++ String c "") false
        end
  end.

Definition splitlines (s : string) : list string := splitlines_aux s "" false.

(** [x in l] for a list of strings. *)
Definition mem (x : string) (l : list string) : bool := existsb (String.eqb x) l.

(** [needle in haystack] for two strings. *)
Fixpoint is_prefix (p s : string) : bool :=
  match p, s with
  | EmptyString, _ => true
  | String a p', String b s' => andb (Ascii.eqb a b) (is_prefix p' s')
  | String _ _, EmptyString => false
  end.

Fixpoint contains (needle haystack : string) : bool :=
  orb (is_prefix needle haystack)
      match haystack with
      | EmptyString => false
      | String _ h' => contains needle h'
      end.

End Py.

(** ** The outside world *)

(** A command given to [subprocess.run]: a string run by the shell
    ([shell=True]) or an argument vector. *)
Inductive command : Type :=
| Shell (line : string)
| Argv (args : list string).

Record completed_process : Type := mkCompleted {
  returncode : Z;
  stdout : string;
  stderr : string
}.

(** What iterating a paged result of the Google client libraries gives: the
    items it yields and, when fetching a later page fails, the exception that
    ends the iteration. *)
Definition pager (A : Type) : Type := (list A * option exn)%type.

(** The object [FalconContainer(client_id=..., client_secret=...)] builds. *)
Record falcon_client : Type := FalconContainer {
  client_id : string;
  client_secret : string
}.

(** The local directory: file name and content. *)
Definition fs : Type := list (string * string).

Fixpoint fs_read (path : string) (files : fs) : option string :=
  match files with
  | [] => None
  | (p, c) :: rest => if String.eqb path p then Some c else fs_read path rest
  end.

Definition fs_exists (path : string) (files : fs) : bool :=
  match fs_read path files with Some _ => true | None => false end.

Definition fs_remove (path : string) (files : fs) : fs :=
  filter (fun pc => negb (String.eqb path (fst pc))) files.

Definition fs_write (path content : string) (files : fs) : fs :=
  (path, content) :: fs_remove path files.

(** The collaborators, over a world [W] of their own.  A project is
    represented by its [project_id] and a repository by its [name], the only
    attributes the script reads.  [run_process] is the child process of
    [subprocess.run] before [check] is applied; it may touch the directory
    ([gcloud ... keys create] writes the key file there), and
    [called_process_error_str] is the text [str(e)] of the
    [CalledProcessError] that [check=True] raises for a command and its exit
    status. *)
Record Collaborators (W : Type) : Type := {
  read_registry_entities : falcon_client -> W -> W * result pyval;
  read_registry_entities_by_uuid : falcon_client -> pyval -> W -> W * result pyval;
  delete_registry_entities : falcon_client -> pyval -> W -> W * result pyval;
  create_registry_entities : falcon_client -> pyval -> W -> W * result pyval;
  search_projects : W -> W * result (pager string);
  list_repositories : string -> W -> W * result (pager string);
  input : string -> W -> W * result string;
  run_process : command -> W -> fs -> W * fs * result completed_process;
  called_process_error_str : command -> Z -> string;
  json_loads : string -> option pyval
}.
Arguments read_registry_entities {W} _ _ _.
Arguments read_registry_entities_by_uuid {W} _ _ _ _.
Arguments delete_registry_entities {W} _ _ _ _.
Arguments create_registry_entities {W} _ _ _ _.
Arguments search_projects {W} _ _.
Arguments list_repositories {W} _ _ _.
Arguments input {W} _ _ _.
Arguments run_process {W} _ _ _ _.
Arguments called_process_error_str {W} _ _ _.
Arguments json_loads {W} _ _.

(** The calls a run makes, in the order it makes them, each with what the
    collaborator answered.  [EPrint] carries the pieces of the printed line:
    the literal text and the interpolated values of an f-string.
    [ESubprocess] carries the outcome of the child process, before [check]
    is applied. *)
Inductive event : Type :=
| EPrint (parts : list pyval)
| EInput (prompt : string) (answer : result string)
| EFalconList (response : result pyval)
| EFalconDetail (ids : pyval) (response : result pyval)
| EFalconDelete (ids : pyval) (response : result pyval)
| EFalconCreate (body : pyval) (response : result pyval)
| ESearchProjects (found : result (pager string))
| EListRepositories (parent : string) (found : result (pager string))
| ESubprocess (cmd : command) (outcome : result completed_process)
| EOpen (path : string)
| ERemove (path : string).

Record state (W : Type) : Type := mkState {
  world : W;
  files : fs
}.
Arguments mkState {W} _ _.
Arguments world {W} _.
Arguments files {W} _.

(** ** The monad of the script: state, trace, exceptions *)

Definition M (W A : Type) : Type := state W -> state W * list event * result A.

Definition ret {W A} (a : A) : M W A := fun s => (s, [], Ok a).

Definition raise {W A} (e : exn) : M W A := fun s => (s, [], Raise e).

Definition lift {W A} (r : result A) : M W A := fun s => (s, [], r).

Definition bind {W A B} (m : M W A) (f : A -> M W B) : M W B :=
  fun s =>
    match m s with
    | (s1, t1, Ok a) =>
        match f a s1 with
        | (s2, t2, r) => (s2, (t1 ++ t2)%list, r)
        end
    | (s1, t1, Raise e) => (s1, t1, Raise e)
    end.

Declare Scope py_scope.
Delimit Scope py_scope with py.
Notation "x <- c1 ;; c2" := (bind c1 (fun x => c2))
  (at level 61, c1 at next level, right associativity) : py_scope.
Notation "c1 ;; c2" := (bind c1 (fun _ => c2))
  (at level 61, right associativity) : py_scope.
Open Scope py_scope.

(** [try: m  except Exception as e: h e]. *)
Definition try_except {W A} (m : M W A) (h : exn -> M W A) : M W A :=
  fun s =>
    match m s with
    | (s1, t1, Raise e) =>
        match h e s1 with
        | (s2, t2, r) => (s2, (t1 ++ t2)%list, r)
        end
    | done => done
    end.

(** [try: m  except cls as e: h e]: another class of exception goes on. *)
Definition try_except_class {W A} (cls : exn_class) (m : M W A) (h : exn -> M W A) : M W A :=
  try_except m (fun e => if exn_class_eqb (exn_cls e) cls then h e else raise e).

(** Runs [m] and hands its outcome over as a value: the body of a [try]
    whose handler needs the variables the body had changed. *)
Definition attempt {W A} (m : M W A) : M W (result A) :=
  fun s => match m s with (s1, t1, r) => (s1, t1, Ok r) end.

Definition emit {W} (e : event) : M W unit := fun s => (s, [e], Ok tt).

Definition print {W} (parts : list pyval) : M W unit := emit (EPrint parts).

(** A call to a collaborator that only sees the world. *)
Definition call {W A} (e : result A -> event) (f : W -> W * result A) : M W A :=
  fun s =>
    match f (world s) with
    | (w', r) => (mkState w' (files s), [e r], r)
    end.

(** ** The script *)

Import Py.

(** An element of [gar_registries]: the dict with keys ['id'], ['alias'],
    ['url'] built at lines 42-46. *)
Record gar_entry : Type := mkGar {
  gar_id : pyval;
  gar_alias : pyval;
  gar_url : pyval
}.

(** An element of [registries]: the dict [registry_info] of lines 204-209. *)
Record registry_info : Type := mkRegistry {
  name : string;
  project_id : string;
  location : string;
  repository_id : string
}.

(** An element of [results]: the dict appended at lines 259-263. *)
Record registration_result : Type := mkResult {
  res_registry : string;
  res_status : pyval;
  res_response : pyval
}.

Definition default_sa_name : string := "crowdstrike-registry-scanner".

Definition key_file : string := "service_account_key.json".

Definition required_roles : list string :=
  ["roles/artifactregistry.reader"; "roles/storage.objectViewer"].

Definition locations : list string :=
  ["us-central1"; "us-east1"; "us-west1"; "europe-west1"; "asia-east1"].

Section Script.

Context {W : Type} (C : Collaborators W).

(** [subprocess.run(cmd, check=check, ...)]: with [check=True] a non zero
    exit status raises [CalledProcessError]. *)
Definition subprocess_run (cmd : command) (check : bool) : M W completed_process :=
  fun s =>
    match run_process C cmd (world s) (files s) with
    | (w', files', outcome) =>
        (mkState w' files', [ESubprocess cmd outcome],
         match outcome with
         | Ok p =>
             if andb check (negb (Z.eqb (returncode p) 0))
             then Raise (mkExn CalledProcessError
                               (called_process_error_str C cmd (returncode p)) (stderr p))
             else Ok p
         | Raise e => Raise e
         end)
    end.

(** [with open(path, 'r') as f: json.load(f)]. *)
Definition open_json_load (path : string) : M W pyval :=
  fun s =>
    match fs_read path (files s) with
    | None => (s, [EOpen path], Raise (error OSError ("No such file or directory: '" ++ path ++ "'")))
    | Some content =>
        match json_loads C content with
        | Some v => (s, [EOpen path], Ok v)
        | None => (s, [EOpen path], Raise (error JSONDecodeError "invalid JSON document"))
        end
    end.

(** [os.remove(path)]. *)
Definition os_remove (path : string) : M W unit :=
  fun s =>
    if fs_exists path (files s)
    then (mkState (world s) (fs_remove path (files s)), [ERemove path], Ok tt)
    else (s, [ERemove path], Raise (error OSError ("No such file or directory: '" ++ path ++ "'"))).

(** *** cleanup_falcon_registries *)

(** One turn of the loop of lines 33-51: the [try] statement.  The entry is
    appended before the last [print] of the body, which cannot raise. *)
Definition fetch_gar (falcon : falcon_client) (registry_id : pyval)
    (gar_registries : list gar_entry) : M W (list gar_entry) :=
  try_except
    (details <- call (EFalconDetail registry_id)
                     (read_registry_entities_by_uuid C falcon registry_id) ;;
     print [PStr (LF ++ "Debug: Details for registry "); registry_id; PStr ":"] ;;
     print [details] ;;
     status_code <- lift (getitem details "status_code") ;;
     if eq_int status_code 200 then
       body <- lift (getitem details "body") ;;
       resources <- lift (get body "resources" (PList [PDict []])) ;;
       registry <- lift (index0 resources) ;;
       type <- lift (get registry "type" PNone) ;;
       if eq_str type "gar" then
         alias <- lift (get registry "user_defined_alias" (PStr "Unknown")) ;;
         url <- lift (get registry "url" (PStr "Unknown")) ;;
         print [PStr "Found GAR registry: "; alias] ;;
         ret (gar_registries ++ [mkGar registry_id alias url])%list
       else ret gar_registries
     else ret gar_registries)
    (fun e =>
       print [PStr "Error processing registry "; registry_id; PStr ": ";
              PStr (exn_str e)] ;;
       ret gar_registries).

(** The loop of lines 33-51. *)
Fixpoint collect_gar (falcon : falcon_client) (registry_ids : list pyval)
    (gar_registries : list gar_entry) : M W (list gar_entry) :=
  match registry_ids with
  | [] => ret gar_registries
  | registry_id :: rest =>
      gar_registries' <- fetch_gar falcon registry_id gar_registries ;;
      collect_gar falcon rest gar_registries'
  end.

(** The loop of lines 58-59. *)
Fixpoint print_candidates (gar_registries : list gar_entry) : M W unit :=
  match gar_registries with
  | [] => ret tt
  | reg :: rest =>
      print [PStr "- "; gar_alias reg; PStr " ("; gar_url reg; PStr ")"] ;;
      print_candidates rest
  end.

(** One turn of the loop of lines 68-78: the [try] statement. *)
Definition remove_one (falcon : falcon_client) (reg : gar_entry) : M W unit :=
  try_except
    (print [PStr (LF ++ "Removing "); gar_alias reg; PStr "..."] ;;
     response <- call (EFalconDelete (PList [gar_id reg]))
                      (delete_registry_entities C falcon (PList [gar_id reg])) ;;
     status_code <- lift (getitem response "status_code") ;;
     if eq_int status_code 200 then
       print [PStr "Successfully removed "; gar_alias reg]
     else
       body <- lift (get response "body" (PDict [])) ;;
       errors <- lift (get body "errors" (PList [])) ;;
       print [PStr "Failed to remove "; gar_alias reg; PStr ": "; errors])
    (fun e =>
       print [PStr "Error removing "; gar_alias reg; PStr ": "; PStr (exn_str e)]).

(** The loop of lines 68-78. *)
Fixpoint remove_each (falcon : falcon_client) (gar_registries : list gar_entry) : M W unit :=
  match gar_registries with
  | [] => ret tt
  | reg :: rest =>
      remove_one falcon reg ;;
      remove_each falcon rest
  end.

Definition confirm_prompt : string :=
  LF ++ "Do you want to proceed with removal? (y/N): ".

Definition removal_banner (count : nat) : list pyval :=
  [PStr (LF ++ "Found "); PInt (Z.of_nat count);
   PStr " Google Artifact Registry registrations to remove:"].

(** Lines 57-80: what the function does once [gar_registries] is known not
    to be empty. *)
Definition confirm_and_remove (falcon : falcon_client) (gar_registries : list gar_entry)
    : M W unit :=
  print (removal_banner (List.length gar_registries)) ;;
  print_candidates gar_registries ;;
  confirm <- call (EInput confirm_prompt) (input C confirm_prompt) ;;
  if negb (String.eqb (lower confirm) "y") then
    print [PStr "Aborted registry removal"]
  else
    print [PStr (LF ++ "Removing registries...")] ;;
    remove_each falcon gar_registries ;;
    print [PStr (LF ++ "Cleanup complete. Note: Records will be hard deleted after 48 hours.")].

Definition cleanup_falcon_registries (falcon_client_id falcon_client_secret : string)
    : M W unit :=
  let falcon := FalconContainer falcon_client_id falcon_client_secret in
  print [PStr (LF ++ "Listing existing registry registrations in Falcon...")] ;;
  response <- call EFalconList (read_registry_entities C falcon) ;;
  status_code <- lift (getitem response "status_code") ;;
  if negb (eq_int status_code 200) then
    print [PStr "Failed to list registries"]
  else
    body <- lift (getitem response "body") ;;
    registry_ids <- lift (getitem body "resources") ;;
    if negb (truthy registry_ids) then
      print [PStr "No registries found in Falcon"]
    else
      total <- lift (len registry_ids) ;;
      print [PStr (LF ++ "Found "); PInt (Z.of_nat total); PStr " total registries"] ;;
      ids <- lift (iter registry_ids) ;;
      gar_registries <- collect_gar falcon ids [] ;;
      match gar_registries with
      | [] =>
          print [PStr (LF ++ "No Google Artifact Registry registrations found in Falcon")]
      | _ :: _ => confirm_and_remove falcon gar_registries
      end.

(** *** cleanup_service_account *)

Definition sa_email_of (sa_name project : string) : string :=
  sa_name ++ "@" ++ project ++ ".iam.gserviceaccount.com".

Definition list_cmd (project : string) : string :=
  "gcloud iam service-accounts list --project=" ++ project ++ " --format='value(email)'".

Definition delete_cmd (sa_email project : string) : string :=
  "gcloud iam service-accounts delete " ++ sa_email ++ " --project=" ++ project ++ " --quiet".

Definition cleanup_service_account (project sa_name : string) : M W unit :=
  let sa_email := sa_email_of sa_name project in
  print [PStr (LF ++ "Checking for service account "); PStr sa_email; PStr "..."] ;;
  try_except
    (result <- subprocess_run (Shell (list_cmd project)) false ;;
     if negb (Z.eqb (returncode result) 0) then
       print [PStr "Error listing service accounts: "; PStr (stderr result)]
     else
       let service_accounts := splitlines (stdout result) in
       if negb (mem sa_email service_accounts) then
         print [PStr "Service account "; PStr sa_email;
                PStr " does not exist - no cleanup needed"]
       else
         print [PStr "Service account found - attempting to delete..."] ;;
         delete_result <- subprocess_run (Shell (delete_cmd sa_email project)) false ;;
         if Z.eqb (returncode delete_result) 0 then
           print [PStr "Successfully removed service account "; PStr sa_email]
         else
           print [PStr "Failed to remove service account: "; PStr (stderr delete_result)])
    (fun e =>
       print [PStr "Error during service account cleanup: "; PStr (exn_str e)]).

(** *** get_service_account_key *)

Definition describe_cmd (sa_email project : string) : string :=
  "gcloud iam service-accounts describe " ++ sa_email ++ " --project=" ++ project.

Definition create_cmd (sa_name project : string) : list string :=
  ["gcloud"; "iam"; "service-accounts"; "create";
   sa_name;
   "--project=" ++ project;
   "--display-name=CrowdStrike Registry Scanner";
   "--description=Service account for CrowdStrike container registry scanning"].

Definition key_cmd (sa_email project : string) : list string :=
  ["gcloud"; "iam"; "service-accounts"; "keys"; "create";
   key_file;
   "--iam-account=" ++ sa_email;
   "--project=" ++ project].

(** Lines 120-135: the existence check and the creation it falls back to. *)
Definition ensure_service_account (project sa_name : string) : M W unit :=
  let sa_email := sa_email_of sa_name project in
  try_except_class CalledProcessError
    (subprocess_run (Shell (describe_cmd sa_email project)) true ;;
     print [PStr "Found existing service account: "; PStr sa_email])
    (fun _ =>
       print [PStr "Creating new service account: "; PStr sa_email] ;;
       subprocess_run (Argv (create_cmd sa_name project)) true ;;
       ret tt).

Definition get_service_account_key (project sa_name : string) : M W (pyval * string) :=
  print [PStr (LF ++ "Managing service account in project "); PStr project; PStr "..."] ;;
  let sa_email := sa_email_of sa_name project in
  ensure_service_account project sa_name ;;
  subprocess_run (Argv (key_cmd sa_email project)) true ;;
  key_json <- open_json_load key_file ;;
  os_remove key_file ;;
  ret (key_json, sa_email).

(** *** grant_required_roles *)

Definition grant_cmd (project service_account_email role : string) : string :=
  "gcloud projects add-iam-policy-binding " ++ project ++ " " ++
  "--member=serviceAccount:" ++ service_account_email ++ " " ++
  "--role=" ++ role ++ " " ++
  "--condition=None " ++
  "--format='value(bindings.role)' " ++
  "--quiet".

(** One turn of the loop of lines 163-176: the [try] statement. *)
Definition grant_one (project service_account_email role : string) : M W unit :=
  try_except_class CalledProcessError
    (subprocess_run (Shell (grant_cmd project service_account_email role)) true ;;
     print [PStr "Granted "; PStr role])
    (fun e => print [PStr "Failed to grant "; PStr role; PStr ": "; PStr (exn_stderr e)]).

Fixpoint grant_each (project service_account_email : string) (roles : list string) : M W unit :=
  match roles with
  | [] => ret tt
  | role :: rest =>
      grant_one project service_account_email role ;;
      grant_each project service_account_email rest
  end.

Definition granting_banner (project : string) : list pyval :=
  [PStr (LF ++ "Granting roles in project "); PStr project; PStr " to service account..."].

Definition grant_required_roles (project service_account_email : string) : M W unit :=
  print (granting_banner project) ;;
  grant_each project service_account_email required_roles.

(** *** list_gcp_registries *)

Definition parent_of (project location : string) : string :=
  "projects/" ++ project ++ "/locations/" ++ location.

(** The loop of lines 203-211 over the repositories one listing yields. *)
Fixpoint append_found (project location : string) (repos : list string)
    (registries : list registry_info) : M W (list registry_info) :=
  match repos with
  | [] => ret registries
  | repo_name :: rest =>
      let registry_info :=
        mkRegistry repo_name project location (last_item (split "/" repo_name)) in
      print [PStr "Found registry: "; PStr repo_name; PStr " in "; PStr location] ;;
      append_found project location rest (registries ++ [registry_info])%list
  end.

(** The body of the [try] of lines 198-211: [registries] as the body leaves
    it, and the exception that ended the body, if one did. *)
Definition list_location (project location : string) (registries : list registry_info)
    : M W (list registry_info * option exn) :=
  let parent := parent_of project location in
  listed <- attempt (call (EListRepositories parent) (list_repositories C parent)) ;;
  match listed with
  | Raise e => ret (registries, Some e)
  | Ok (repos, later) =>
      registries' <- append_found project location repos registries ;;
      ret (registries', later)
  end.

Inductive loop_control : Type := Continue | Break.

(** The handler of lines 213-221. *)
Definition on_location_error (project location : string) (e : exn) : M W loop_control :=
  if contains "SERVICE_DISABLED" (exn_str e) then
    print [PStr "Note: Artifact Registry API not enabled in project "; PStr project] ;;
    ret Break
  else if contains "PERMISSION_DENIED" (exn_str e) then
    print [PStr "Note: No access to Artifact Registry in project "; PStr project] ;;
    ret Break
  else
    print [PStr "Error checking "; PStr location; PStr " in project "; PStr project;
           PStr ": "; PStr (exn_str e)] ;;
    ret Continue.

(** The loop of lines 197-221 over the locations of one project. *)
Fixpoint scan_locations (project : string) (locs : list string)
    (registries : list registry_info) : M W (list registry_info) :=
  match locs with
  | [] => ret registries
  | location :: rest =>
      step <- list_location project location registries ;;
      match snd step with
      | None => scan_locations project rest (fst step)
      | Some e =>
          control <- on_location_error project location e ;;
          match control with
          | Break => ret (fst step)
          | Continue => scan_locations project rest (fst step)
          end
      end
  end.

(** The loop of lines 190-221 over the projects the search yields. *)
Fixpoint scan_projects (projects : list string) (registries : list registry_info)
    : M W (list registry_info) :=
  match projects with
  | [] => ret registries
  | project :: rest =>
      print [PStr (LF ++ "Checking project: "); PStr project] ;;
      registries' <- scan_locations project locations registries ;;
      scan_projects rest registries'
  end.

Definition list_gcp_registries : M W (list registry_info) :=
  print [PStr (LF ++ "Discovering GCP registries...")] ;;
  projects <- call ESearchProjects (search_projects C) ;;
  registries <- scan_projects (fst projects) [] ;;
  match snd projects with
  | None => ret registries
  | Some e => raise e
  end.

(** *** register_with_falcon *)

Definition result_bind {A B} (r : result A) (f : A -> result B) : result B :=
  match r with
  | Ok a => f a
  | Raise e => Raise e
  end.

(** The dict literal of lines 235-254.  [service_account_key.get] raises
    when the key read from the file is not a JSON object. *)
Definition request_body (registry : registry_info) (service_account_key : pyval)
    : result pyval :=
  result_bind (get service_account_key "private_key_id" PNone) (fun private_key_id =>
  result_bind (get service_account_key "private_key" PNone) (fun private_key =>
  result_bind (get service_account_key "client_email" PNone) (fun client_email =>
  result_bind (get service_account_key "client_id" PNone) (fun client_id =>
  result_bind (get service_account_key "project_id" PNone) (fun key_project_id =>
  Ok (PDict [
    ("type", PStr "gar");
    ("url", PStr ("https://" ++ location registry ++ "-docker.pkg.dev/"));
    ("url_uniqueness_key", PStr (project_id registry ++ "/" ++ repository_id registry));
    ("user_defined_alias",
       PStr ("GAR-" ++ project_id registry ++ "-" ++ repository_id registry));
    ("credential", PDict [
      ("details", PDict [
        ("project_id", PStr (project_id registry));
        ("scope_name", PStr (repository_id registry));
        ("service_account_json", PDict [
          ("type", PStr "service_account");
          ("private_key_id", private_key_id);
          ("private_key", private_key);
          ("client_email", client_email);
          ("client_id", client_id);
          ("project_id", key_project_id)
        ])
      ])
    ])
  ])))))).

(** One turn of the loop of lines 233-268. *)
Definition register_one (falcon : falcon_client) (registry : registry_info)
    (service_account_key : pyval) (results : list registration_result)
    : M W (list registration_result) :=
  body <- lift (request_body registry service_account_key) ;;
  print [PStr (LF ++ "Registering "); PStr (name registry); PStr "..."] ;;
  response <- call (EFalconCreate body) (create_registry_entities C falcon body) ;;
  status <- lift (getitem response "status_code") ;;
  response_body <- lift (get response "body" (PDict [])) ;;
  let results' := (results ++ [mkResult (name registry) status response_body])%list in
  (if eq_int status 200 then
     print [PStr "Successfully registered "; PStr (name registry)]
   else
     failed_body <- lift (getitem response "body") ;;
     errors <- lift (get failed_body "errors" (PList [])) ;;
     print [PStr "Failed to register "; PStr (name registry); PStr ": "; errors]) ;;
  ret results'.

(** The loop of lines 233-268. *)
Fixpoint register_each (falcon : falcon_client) (registries : list registry_info)
    (service_account_key : pyval) (results : list registration_result)
    : M W (list registration_result) :=
  match registries with
  | [] => ret results
  | registry :: rest =>
      results' <- register_one falcon registry service_account_key results ;;
      register_each falcon rest service_account_key results'
  end.

Definition register_with_falcon (registries : list registry_info)
    (service_account_key : pyval) (falcon_client_id falcon_client_secret : string)
    : M W (list registration_result) :=
  let falcon := FalconContainer falcon_client_id falcon_client_secret in
  register_each falcon registries service_account_key [].

(** *** provision_registries *)

(** The loop of lines 287-290; the set [projects_processed] is a list that
    is only ever asked for membership. *)
Fixpoint grant_loop (registries : list registry_info) (service_account_email : string)
    (projects_processed : list string) : M W unit :=
  match registries with
  | [] => ret tt
  | registry :: rest =>
      if negb (mem (project_id registry) projects_processed) then
        grant_required_roles (project_id registry) service_account_email ;;
        grant_loop rest service_account_email (project_id registry :: projects_processed)
      else
        grant_loop rest service_account_email projects_processed
  end.

(** The loop of lines 304-307. *)
Fixpoint print_failures (results : list registration_result) : M W unit :=
  match results with
  | [] => ret tt
  | result :: rest =>
      (if negb (eq_int (res_status result) 200) then
         print [PStr (LF ++ "Registry: "); PStr (res_registry result)] ;;
         errors <- lift (get (res_response result) "errors" (PList [])) ;;
         print [PStr "Error: "; errors]
       else ret tt) ;;
      print_failures rest
  end.

Definition provision_registries (host_project falcon_client_id falcon_client_secret : string)
    : M W unit :=
  registries <- list_gcp_registries ;;
  match registries with
  | [] => print [PStr "No registries found"]
  | _ :: _ =>
      print [PStr (LF ++ "Found "); PInt (Z.of_nat (List.length registries));
             PStr " registries"] ;;
      key_and_email <- get_service_account_key host_project default_sa_name ;;
      let service_account_key := fst key_and_email in
      let service_account_email := snd key_and_email in
      grant_loop registries service_account_email [] ;;
      results <- register_with_falcon registries service_account_key
                   falcon_client_id falcon_client_secret ;;
      print [PStr (LF ++ "=== Registration Summary ===")] ;;
      let success_count :=
        List.length (filter (fun r => eq_int (res_status r) 200) results) in
      let failed := (Z.of_nat (List.length registries) - Z.of_nat success_count)%Z in
      print [PStr "Total registries: "; PInt (Z.of_nat (List.length registries))] ;;
      print [PStr "Successfully registered: "; PInt (Z.of_nat success_count)] ;;
      print [PStr "Failed: "; PInt failed] ;;
      if Z.ltb 0 failed then
        print [PStr (LF ++ "Failed registrations:")] ;;
        print_failures results
      else ret tt
  end.

(** *** main *)

(** [all([...])] over values of [os.environ.get]: set and not empty. *)
Definition env_truthy (v : option string) : bool :=
  match v with
  | Some s => negb (String.eqb s "")
  | None => false
  end.

(** [main] once [parse_args] has returned: [deprovision] is
    [args.deprovision]. *)
Definition main (deprovision : bool) (environ : string -> option string) : M W unit :=
  match environ "GCP_HOST_PROJECT", environ "FALCON_CLIENT_ID",
        environ "FALCON_CLIENT_SECRET" with
  | Some host_project, Some falcon_client_id, Some falcon_client_secret =>
      if negb (andb (env_truthy (Some host_project))
                 (andb (env_truthy (Some falcon_client_id))
                       (env_truthy (Some falcon_client_secret)))) then
        raise (error ValueError "Missing required environment variables: GCP_HOST_PROJECT, FALCON_CLIENT_ID, FALCON_CLIENT_SECRET")
      else if deprovision then
        print [PStr (LF ++ "=== Starting Deprovisioning ===")] ;;
        cleanup_falcon_registries falcon_client_id falcon_client_secret ;;
        cleanup_service_account host_project default_sa_name ;;
        print [PStr (LF ++ "=== Deprovisioning Complete ===")]
      else
        print [PStr (LF ++ "=== Starting Provisioning ===")] ;;
        provision_registries host_project falcon_client_id falcon_client_secret ;;
        print [PStr (LF ++ "=== Provisioning Complete ===")]
  | _, _, _ =>
      raise (error ValueError "Missing required environment variables: GCP_HOST_PROJECT, FALCON_CLIENT_ID, FALCON_CLIENT_SECRET")
  end.

End Script.

(** ** Observations on runs and traces *)

Definition final {W A} (x : state W * list event * result A) : state W := fst (fst x).

Definition trace {W A} (x : state W * list event * result A) : list event := snd (fst x).

Definition outcome {W A} (x : state W * list event * result A) : result A := snd x.

(** The id lists given to [delete_registry_entities]. *)
Definition delete_calls (t : list event) : list pyval :=
  flat_map (fun e => match e with EFalconDelete ids _ => [ids] | _ => [] end) t.

(** The bodies given to [create_registry_entities]. *)
Definition create_calls (t : list event) : list pyval :=
  flat_map (fun e => match e with EFalconCreate body _ => [body] | _ => [] end) t.

(** The commands given to [subprocess.run]. *)
Definition subprocess_calls (t : list event) : list command :=
  flat_map (fun e => match e with ESubprocess cmd _ => [cmd] | _ => [] end) t.

(** The parents given to [list_repositories]. *)
Definition listing_calls (t : list event) : list string :=
  flat_map (fun e => match e with EListRepositories parent _ => [parent] | _ => [] end) t.

(** The projects for which [grant_required_roles] was entered: it starts by
    printing [granting_banner]. *)
Definition grant_pass_of (e : event) : list string :=
  match e with
  | EPrint [head; project; tail] =>
      if andb (eq_str head (LF ++ "Granting roles in project "))
              (eq_str tail " to service account...")
      then match project with PStr p => [p] | _ => [] end
      else []
  | _ => []
  end.

Definition grant_passes (t : list event) : list string := flat_map grant_pass_of t.

(** The counts announced by [removal_banner]. *)
Definition removal_count_of (e : event) : list Z :=
  match e with
  | EPrint [_; count; tail] =>
      if eq_str tail " Google Artifact Registry registrations to remove:"
      then match count with PInt n => [n] | _ => [] end
      else []
  | _ => []
  end.

Definition removal_counts (t : list event) : list Z := flat_map removal_count_of t.

(** The questions put to the operator, with the answers. *)
Definition input_calls (t : list event) : list (string * result string) :=
  flat_map (fun e => match e with EInput prompt answer => [(prompt, answer)] | _ => [] end) t.

(** The kinds of event the theorems tell apart. *)
Inductive kind : Type :=
| KPrint
| KGrantBanner
| KRemovalBanner
| KInput
| KFalconList
| KFalconDetail
| KFalconDelete
| KFalconCreate
| KSearch
| KListing
| KSubprocess
| KFile.

Definition kind_eqb (a b : kind) : bool :=
  match a, b with
  | KPrint, KPrint
  | KGrantBanner, KGrantBanner
  | KRemovalBanner, KRemovalBanner
  | KInput, KInput
  | KFalconList, KFalconList
  | KFalconDetail, KFalconDetail
  | KFalconDelete, KFalconDelete
  | KFalconCreate, KFalconCreate
  | KSearch, KSearch
  | KListing, KListing
  | KSubprocess, KSubprocess
  | KFile, KFile => true
  | _, _ => false
  end.

Definition kind_of (e : event) : kind :=
  match e with
  | EPrint _ =>
      match grant_pass_of e, removal_count_of e with
      | _ :: _, _ => KGrantBanner
      | [], _ :: _ => KRemovalBanner
      | [], [] => KPrint
      end
  | EInput _ _ => KInput
  | EFalconList _ => KFalconList
  | EFalconDetail _ _ => KFalconDetail
  | EFalconDelete _ _ => KFalconDelete
  | EFalconCreate _ _ => KFalconCreate
  | ESearchProjects _ => KSearch
  | EListRepositories _ _ => KListing
  | ESubprocess _ _ => KSubprocess
  | EOpen _ => KFile
  | ERemove _ => KFile
  end.

Definition allowed (kinds : list kind) (e : event) : bool :=
  existsb (kind_eqb (kind_of e)) kinds.

(** A trace whose events are all of the given kinds. *)
Definition only (kinds : list kind) (t : list event) : Prop :=
  Forall (fun e => allowed kinds e = true) t.

(** The record a detail response describes, as line 40 reads it. *)
Definition detail_record (details : pyval) : result pyval :=
  result_bind (getitem details "body") (fun body =>
  result_bind (get body "resources" (PList [PDict []])) index0).

(** The detail response describes an entry of type ["gar"]. *)
Definition has_type_gar (details : pyval) : Prop :=
  exists registry,
    detail_record details = Ok registry /\ get registry "type" PNone = Ok (PStr "gar").

(** The trace [t] holds a detail response for the id of [reg] that
    describes an entry of type ["gar"]. *)
Definition selected_from (t : list event) (reg : gar_entry) : Prop :=
  exists details, In (EFalconDetail (gar_id reg) (Ok details)) t /\ has_type_gar details.

(** The id lists the removal loop passes for a list of entries. *)
Definition delete_ids (gar_registries : list gar_entry) : list pyval :=
  map (fun reg => PList [gar_id reg]) gar_registries.

(** The two kinds of error that end the scan of a project. *)
Definition feature_not_enabled (e : exn) : bool := contains "SERVICE_DISABLED" (exn_str e).

Definition access_denied (e : exn) : bool := contains "PERMISSION_DENIED" (exn_str e).

(** ** A small concrete world

    Two entries are registered in Falcon, ["a"] of type ["gar"] and ["b"] of
    another type; the account has projects ["p1"] and ["p2"].  What the
    operator answers, how [gcloud ... describe] ends, what the key file holds,
    what a registration answers and what a listing yields are left open. *)
Module Demo.

Definition response (status : Z) (body : pyval) : pyval :=
  PDict [("status_code", PInt status); ("body", body)].

Definition gar_record : pyval :=
  PDict [("type", PStr "gar"); ("user_defined_alias", PStr "GAR-p1-r1");
         ("url", PStr "https://us-central1-docker.pkg.dev/")].

Definition other_record : pyval :=
  PDict [("type", PStr "ecr"); ("user_defined_alias", PStr "prod-ecr");
         ("url", PStr "https://example.test/")].

Definition key_json : pyval :=
  PDict [("type", PStr "service_account"); ("project_id", PStr "host");
         ("private_key_id", PStr "kid"); ("private_key", PStr "secret");
         ("client_email", PStr "crowdstrike-registry-scanner@host.iam.gserviceaccount.com");
         ("client_id", PStr "42")].

Definition exit_ok : completed_process := mkCompleted 0 "" "".

Definition is_key_create (cmd : command) : bool :=
  match cmd with
  | Argv (_ :: _ :: _ :: "keys" :: "create" :: _) => true
  | _ => false
  end.

Definition is_describe (cmd : command) : bool :=
  match cmd with
  | Shell line => is_prefix "gcloud iam service-accounts describe " line
  | Argv _ => false
  end.

Definition collaborators (answer : string) (describe : completed_process)
    (key_content : string) (create : pyval -> result pyval)
    (listing : string -> result (pager string)) : Collaborators unit :=
  {| read_registry_entities := fun _ w =>
       (w, Ok (response 200 (PDict [("resources", PList [PStr "a"; PStr "b"])])));
     read_registry_entities_by_uuid := fun _ ids w =>
       (w, Ok (response 200
                 (PDict [("resources",
                          PList [if eq_str ids "a" then gar_record else other_record])])));
     delete_registry_entities := fun _ _ w => (w, Ok (response 200 (PDict [])));
     create_registry_entities := fun _ body w => (w, create body);
     search_projects := fun w => (w, Ok (["p1"; "p2"], None));
     list_repositories := fun parent w => (w, listing parent);
     input := fun _ w => (w, Ok answer);
     run_process := fun cmd w files =>
       if is_describe cmd then (w, files, Ok describe)
       else if is_key_create cmd then (w, fs_write key_file key_content files, Ok exit_ok)
       else (w, files, Ok exit_ok);
     called_process_error_str := fun _ _ => "Command returned non-zero exit status.";
     json_loads := fun content => if String.eqb content "KEY" then Some key_json else None |}.

Definition created (_ : pyval) : result pyval := Ok (response 200 (PDict [])).

(** Project ["p1"] has two repositories in [us-central1] and one in
    [europe-west1]; project ["p2"] has one in [us-east1]. *)
Definition listing (parent : string) : result (pager string) :=
  if String.eqb parent "projects/p1/locations/us-central1" then
    Ok (["projects/p1/locations/us-central1/repositories/r1";
         "projects/p1/locations/us-central1/repositories/r2"], None)
  else if String.eqb parent "projects/p1/locations/europe-west1" then
    Ok (["projects/p1/locations/europe-west1/repositories/r3"], None)
  else if String.eqb parent "projects/p2/locations/us-east1" then
    Ok (["projects/p2/locations/us-east1/repositories/r4"], None)
  else Ok ([], None).

Definition nothing_listed (_ : string) : result (pager string) := Ok ([], None).

(** The world in which everything goes well and the operator answers
    [answer]. *)
Definition happy (answer : string) : Collaborators unit :=
  collaborators answer exit_ok "KEY" created listing.

Definition start : state unit := mkState tt [].

Definition environ (var : string) : option string :=
  if String.eqb var "GCP_HOST_PROJECT" then Some "host"
  else if String.eqb var "FALCON_CLIENT_ID" then Some "id"
  else if String.eqb var "FALCON_CLIENT_SECRET" then Some "secret"
  else None.

End Demo.

(** ** Reading a payload *)

(** The value found in [v] by following the keys of [path]. *)
Fixpoint lookup_path (path : list string) (v : pyval) : option pyval :=
  match path with
  | [] => Some v
  | k :: rest =>
      match v with
      | PDict d =>
          match dict_lookup k d with
          | Some x => lookup_path rest x
          | None => None
          end
      | _ => None
      end
  end.

Definition keys_of (v : pyval) : list string :=
  match v with
  | PDict d => dict_keys d
  | _ => []
  end.

(** The keys of the dict found at [path]. *)
Definition keys_at (path : list string) (v : pyval) : option (list string) :=
  option_map keys_of (lookup_path path v).

(** The field [k] of a key record, [None] when the record lacks it. *)
Definition key_field (fields : list (string * pyval)) (k : string) : pyval :=
  match dict_lookup k fields with
  | Some v => v
  | None => PNone
  end.

(** ** The rest of a discovery

    What [list_gcp_registries] still has to do when the loop over the
    locations of [project] has [locs] left and the loop over the projects
    has [others] left. *)
Definition rest_of_discovery {W : Type} (C : Collaborators W) (project : string)
    (locs others : list string) (registries : list registry_info)
    : M W (list registry_info) :=
  registries' <- scan_locations C project locs registries ;;
  scan_projects C others registries'.

(** The projects of [registries] that are not in [processed], each once, in
    the order in which they first occur. *)
Fixpoint first_occurrences (registries : list registry_info) (processed : list string)
    : list string :=
  match registries with
  | [] => []
  | registry :: rest =>
      if mem (project_id registry) processed
      then first_occurrences rest processed
      else project_id registry
           :: first_occurrences rest (project_id registry :: processed)
  end.

(** The commands of one role-grant pass: one per required role. *)
Definition grant_commands (service_account_email project : string) : list command :=
  map (fun role => Shell (grant_cmd project service_account_email role)) required_roles.

(** ** Further observations *)

(** The ids given to [read_registry_entities_by_uuid]. *)
Definition detail_calls (t : list event) : list pyval :=
  flat_map (fun e => match e with EFalconDetail ids _ => [ids] | _ => [] end) t.

(** The character [c] occurs in [s]. *)
Fixpoint has_char (c : ascii) (s : string) : bool :=
  match s with
  | EmptyString => false
  | String c' s' => orb (Ascii.eqb c' c) (has_char c s')
  end.

(** [s] starts with the bytes of NEL, of LS or of PS. *)
Definition starts_wide_break (s : string) : bool :=
  match s with
  | String c1 (String c2 s2) =>
      orb (is_nel c1 c2)
          match s2 with
          | String c3 _ => is_ls_or_ps c1 c2 c3
          | EmptyString => false
          end
  | _ => false
  end.

(** A line boundary of [str.splitlines] occurs in [s]. *)
Fixpoint has_linebreak (s : string) : bool :=
  match s with
  | EmptyString => false
  | String c s' => orb (orb (is_linebreak c) (starts_wide_break s)) (has_linebreak s')
  end.

(** The text a command prints for a list of lines: each line followed by a
    line feed. *)
Fixpoint join_lines (lines : list string) : string :=
  match lines with
  | [] => ""
  | line :: rest => line ++ LF ++ join_lines rest
  end.

Definition is_dict (v : pyval) : bool :=
  match v with
  | PDict _ => true
  | _ => false
  end.

(** The create calls, each with what it was answered. *)
Definition create_answers (t : list event) : list (pyval * result pyval) :=
  flat_map (fun e => match e with EFalconCreate body answer => [(body, answer)] | _ => [] end) t.

(** A create call answered as the Falcon client answers: by a response
    that has a status code and a body, the body being a dict.  The client
    reports a failure this way too, with another status than 200. *)
Definition answered (answer : result pyval) (status body : pyval) : Prop :=
  exists response,
    answer = Ok response /\
    getitem response "status_code" = Ok status /\
    getitem response "body" = Ok body /\
    is_dict body = true.

(** Lines 117-145 of [get_service_account_key]: what runs before the key
    file is opened. *)
Definition key_file_written {W : Type} (C : Collaborators W) (project sa_name : string)
    : M W completed_process :=
  print [PStr (LF ++ "Managing service account in project "); PStr project; PStr "..."] ;;
  ensure_service_account C project sa_name ;;
  subprocess_run C (Argv (key_cmd (sa_email_of sa_name project) project)) true.

(** A failed registration as the summary counts it. *)
Definition failed_result (r : registration_result) : bool := negb (eq_int (res_status r) 200).

(** The lines [print_failures] starts a failure with. *)
Definition failure_lines (t : list event) : list string :=
  flat_map (fun e =>
              match e with
              | EPrint [head; registry] =>
                  if eq_str head (LF ++ "Registry: ")
                  then match registry with PStr r => [r] | _ => [] end
                  else []
              | _ => []
              end) t.

(** What the discovery loop records for a repository: one of the fixed
    locations, and as repository id the last segment of the resource name. *)
Definition descriptor_ok (r : registry_info) : Prop :=
  In (location r) locations /\
  repository_id r = last_item (split "/" (name r)) /\
  has_char "/" (repository_id r) = false.

(** ** Worlds in which something goes wrong *)
Module Scenario.




(** Nothing is found anywhere. *)
Definition empty_account : Collaborators unit :=
  Demo.collaborators "y" Demo.exit_ok "KEY" Demo.created Demo.nothing_listed.

(** [gcloud ... describe] is refused for lack of permission. *)
Definition describe_denied : completed_process :=
  mkCompleted 1 ""
    "ERROR: (gcloud.iam.service-accounts.describe) PERMISSION_DENIED: Permission iam.serviceAccounts.get is required to perform this operation.".

Definition denied : Collaborators unit :=
  Demo.collaborators "y" describe_denied "KEY" Demo.created Demo.listing.

(** The key file does not hold a JSON document. *)
Definition truncated_key : Collaborators unit :=
  Demo.collaborators "y" Demo.exit_ok "{ type: " Demo.created Demo.listing.

(** The first registration raises; the others succeed. *)
Definition refuse_r1 (body : pyval) : result pyval :=
  if match lookup_path ["url_uniqueness_key"] body with
     | Some key => eq_str key "p1/r1"
     | None => false
     end
  then Raise (mkExn ApiError "Connection reset by peer" "")
  else Demo.created body.

Definition connection_lost : Collaborators unit :=
  Demo.collaborators "y" Demo.exit_ok "KEY" refuse_r1 Demo.listing.

(** The first registration is answered by a failure without a body. *)
Definition bodyless_r1 (body : pyval) : result pyval :=
  if match lookup_path ["url_uniqueness_key"] body with
     | Some key => eq_str key "p1/r1"
     | None => false
     end
  then Ok (PDict [("status_code", PInt 500)])
  else Demo.created body.

Definition no_body : Collaborators unit :=
  Demo.collaborators "y" Demo.exit_ok "KEY" bodyless_r1 Demo.listing.

Definition r1 : registry_info :=
  mkRegistry "projects/p1/locations/us-central1/repositories/r1" "p1" "us-central1" "r1".

Definition r2 : registry_info :=
  mkRegistry "projects/p1/locations/us-central1/repositories/r2" "p1" "us-central1" "r2".

Definition r3 : registry_info :=
  mkRegistry "projects/p1/locations/europe-west1/repositories/r3" "p1" "europe-west1" "r3".

Definition r4 : registry_info :=
  mkRegistry "projects/p2/locations/us-east1/repositories/r4" "p2" "us-east1" "r4".

(** What discovery finds in the world of [Demo.listing]. *)
Definition discovered : list registry_info := [r1; r2; r3; r4].

(** The world of [Demo.happy "y"] with another answer to the listing of
    the registered entries, another answer to the search of the projects,
    and another exit status for the creation of the key. *)
Definition variant (listed : result pyval) (searched : result (pager string))
    (key_status : Z) : Collaborators unit :=
  {| read_registry_entities := fun _ w => (w, listed);
     read_registry_entities_by_uuid := read_registry_entities_by_uuid (Demo.happy "y");
     delete_registry_entities := delete_registry_entities (Demo.happy "y");
     create_registry_entities := create_registry_entities (Demo.happy "y");
     search_projects := fun w => (w, searched);
     list_repositories := list_repositories (Demo.happy "y");
     input := input (Demo.happy "y");
     run_process := fun cmd w files =>
       if Demo.is_key_create cmd
       then (w, fs_write key_file "KEY" files, Ok (mkCompleted key_status "" "quota exceeded"))
       else (w, files, Ok Demo.exit_ok);
     called_process_error_str := called_process_error_str (Demo.happy "y");
     json_loads := json_loads (Demo.happy "y") |}.

Definition projects_found : result (pager string) := Ok (["p1"; "p2"], None).

Definition entries_listed : result pyval :=
  Ok (Demo.response 200 (PDict [("resources", PList [PStr "a"; PStr "b"])])).

(** The Falcon API cannot be reached. *)
Definition falcon_unreachable : Collaborators unit :=
  variant (Raise (mkExn ApiError "Connection refused" "")) projects_found 0.

(** The Falcon API refuses the listing. *)
Definition listing_refused : pyval :=
  Demo.response 403 (PDict [("errors", PList [PStr "access denied"])]).

Definition falcon_refuses : Collaborators unit :=
  variant (Ok listing_refused) projects_found 0.

(** The key cannot be created. *)
Definition no_key : Collaborators unit := variant entries_listed projects_found 1.

(** The projects cannot be searched. *)
Definition search_error : exn := mkExn ApiError "503 The service is currently unavailable." "".

Definition no_search : Collaborators unit := variant entries_listed (Raise search_error) 0.

Definition unset (_ : string) : option string := None.

(** The registration of ["p1/r1"] is rejected as a duplicate. *)
Definition rejection : pyval :=
  Demo.response 409 (PDict [("errors", PList [PStr "registry already exists"])]).

Definition reject_r1 (body : pyval) : result pyval :=
  if match lookup_path ["url_uniqueness_key"] body with
     | Some key => eq_str key "p1/r1"
     | None => false
     end
  then Ok rejection
  else Demo.created body.

Definition duplicate : Collaborators unit :=
  Demo.collaborators "y" Demo.exit_ok "KEY" reject_r1 Demo.listing.

Definition duplicate_results : list registration_result :=
  [mkResult (name r1) (PInt 409) (PDict [("errors", PList [PStr "registry already exists"])]);
   mkResult (name r2) (PInt 200) (PDict [])].

End Scenario.

(** * Properties *)

(** ** Traces of the monad's operations *)

Section Traces.

Context {W : Type}.

Lemma only_nil (kinds : list kind) : only kinds [].
Proof. constructor. Qed.

Lemma only_app (kinds : list kind) (t1 t2 : list event) :
  only kinds t1 -> only kinds t2 -> only kinds (t1 ++ t2).
Proof. intros H1 H2. apply Forall_app. split; assumption. Qed.

Lemma only_app_inv (kinds : list kind) (t1 t2 : list event) :
  only kinds (t1 ++ t2) -> only kinds t1 /\ only kinds t2.
Proof. intros H. apply Forall_app in H. exact H. Qed.

Lemma only_cons (kinds : list kind) (e : event) (t : list event) :
  allowed kinds e = true -> only kinds t -> only kinds (e :: t).
Proof. intros He Ht. constructor; assumption. Qed.

Lemma only_mono (kinds kinds' : list kind) (t : list event) :
  (forall k, existsb (kind_eqb k) kinds = true -> existsb (kind_eqb k) kinds' = true) ->
  only kinds t -> only kinds' t.
Proof.
  intros Hsub Ht. unfold only in *. rewrite Forall_forall in *.
  intros e He. apply Hsub. apply Ht. exact He.
Qed.

Lemma trace_bind {A B} (m : M W A) (f : A -> M W B) (s : state W) :
  trace (bind m f s) =
  (trace (m s) ++ match outcome (m s) with
                  | Ok a => trace (f a (final (m s)))
                  | Raise _ => []
                  end)%list.
Proof.
  unfold bind, trace, outcome, final.
  destruct (m s) as [[s1 t1] [a | e]]; simpl.
  - destruct (f a s1) as [[s2 t2] r]. reflexivity.
  - rewrite app_nil_r. reflexivity.
Qed.

Lemma outcome_bind {A B} (m : M W A) (f : A -> M W B) (s : state W) :
  outcome (bind m f s) =
  match outcome (m s) with
  | Ok a => outcome (f a (final (m s)))
  | Raise e => Raise e
  end.
Proof.
  unfold bind, outcome, final.
  destruct (m s) as [[s1 t1] [a | e]]; simpl.
  - destruct (f a s1) as [[s2 t2] r]. reflexivity.
  - reflexivity.
Qed.

Lemma final_bind {A B} (m : M W A) (f : A -> M W B) (s : state W) :
  final (bind m f s) =
  match outcome (m s) with
  | Ok a => final (f a (final (m s)))
  | Raise e => final (m s)
  end.
Proof.
  unfold bind, outcome, final.
  destruct (m s) as [[s1 t1] [a | e]]; simpl.
  - destruct (f a s1) as [[s2 t2] r]. reflexivity.
  - reflexivity.
Qed.

Lemma trace_try_except {A} (m : M W A) (h : exn -> M W A) (s : state W) :
  trace (try_except m h s) =
  (trace (m s) ++ match outcome (m s) with
                  | Ok _ => []
                  | Raise e => trace (h e (final (m s)))
                  end)%list.
Proof.
  unfold try_except, trace, outcome, final.
  destruct (m s) as [[s1 t1] [a | e]]; simpl.
  - rewrite app_nil_r. reflexivity.
  - destruct (h e s1) as [[s2 t2] r]. reflexivity.
Qed.

Lemma outcome_try_except {A} (m : M W A) (h : exn -> M W A) (s : state W) :
  outcome (try_except m h s) =
  match outcome (m s) with
  | Ok a => Ok a
  | Raise e => outcome (h e (final (m s)))
  end.
Proof.
  unfold try_except, outcome, final.
  destruct (m s) as [[s1 t1] [a | e]]; simpl.
  - reflexivity.
  - destruct (h e s1) as [[s2 t2] r]. reflexivity.
Qed.

Lemma final_try_except {A} (m : M W A) (h : exn -> M W A) (s : state W) :
  final (try_except m h s) =
  match outcome (m s) with
  | Ok a => final (m s)
  | Raise e => final (h e (final (m s)))
  end.
Proof.
  unfold try_except, outcome, final.
  destruct (m s) as [[s1 t1] [a | e]]; simpl.
  - reflexivity.
  - destruct (h e s1) as [[s2 t2] r]. reflexivity.
Qed.

Lemma only_bind {A B} (kinds : list kind) (m : M W A) (f : A -> M W B) (s : state W) :
  only kinds (trace (m s)) ->
  (forall a s', only kinds (trace (f a s'))) ->
  only kinds (trace (bind m f s)).
Proof.
  intros Hm Hf. rewrite trace_bind. apply only_app; [exact Hm |].
  destruct (outcome (m s)); [apply Hf | apply only_nil].
Qed.

Lemma only_try_except {A} (kinds : list kind) (m : M W A) (h : exn -> M W A) (s : state W) :
  only kinds (trace (m s)) ->
  (forall e s', only kinds (trace (h e s'))) ->
  only kinds (trace (try_except m h s)).
Proof.
  intros Hm Hh. rewrite trace_try_except. apply only_app; [exact Hm |].
  destruct (outcome (m s)); [apply only_nil | apply Hh].
Qed.

Lemma only_try_except_class {A} (kinds : list kind) (cls : exn_class)
    (m : M W A) (h : exn -> M W A) (s : state W) :
  only kinds (trace (m s)) ->
  (forall e s', only kinds (trace (h e s'))) ->
  only kinds (trace (try_except_class cls m h s)).
Proof.
  intros Hm Hh. unfold try_except_class. apply only_try_except; [exact Hm |].
  intros e s'. destruct (exn_class_eqb (exn_cls e) cls); [apply Hh | apply only_nil].
Qed.

Lemma only_attempt {A} (kinds : list kind) (m : M W A) (s : state W) :
  only kinds (trace (m s)) -> only kinds (trace (attempt m s)).
Proof.
  unfold attempt, trace. destruct (m s) as [[s1 t1] r]. simpl. trivial.
Qed.

Lemma only_ret {A} (kinds : list kind) (a : A) (s : state W) :
  only kinds (trace (ret a s)).
Proof. apply only_nil. Qed.

Lemma only_raise {A} (kinds : list kind) (e : exn) (s : state W) :
  only kinds (trace (@raise W A e s)).
Proof. apply only_nil. Qed.

Lemma only_lift {A} (kinds : list kind) (r : result A) (s : state W) :
  only kinds (trace (lift r s)).
Proof. apply only_nil. Qed.

Lemma only_print (kinds : list kind) (parts : list pyval) (s : state W) :
  allowed kinds (EPrint parts) = true -> only kinds (trace (print parts s)).
Proof. intros H. apply only_cons; [exact H | apply only_nil]. Qed.

Lemma only_call {A} (kinds : list kind) (e : result A -> event)
    (f : W -> W * result A) (s : state W) :
  (forall r, allowed kinds (e r) = true) -> only kinds (trace (call e f s)).
Proof.
  intros H. unfold call, trace. destruct (f (world s)) as [w' r]. simpl.
  apply only_cons; [apply H | apply only_nil].
Qed.

Lemma trace_call {A} (e : result A -> event) (f : W -> W * result A) (s : state W) :
  trace (call e f s) = [e (snd (f (world s)))].
Proof. unfold call, trace. destruct (f (world s)). reflexivity. Qed.

Lemma outcome_call {A} (e : result A -> event) (f : W -> W * result A) (s : state W) :
  outcome (call e f s) = snd (f (world s)).
Proof. unfold call, outcome. destruct (f (world s)). reflexivity. Qed.

Lemma final_call {A} (e : result A -> event) (f : W -> W * result A) (s : state W) :
  final (call e f s) = mkState (fst (f (world s))) (files s).
Proof. unfold call, final. destruct (f (world s)). reflexivity. Qed.

Lemma only_subprocess_run (C : Collaborators W) (kinds : list kind) (cmd : command)
    (check : bool) (s : state W) :
  existsb (kind_eqb KSubprocess) kinds = true ->
  only kinds (trace (subprocess_run C cmd check s)).
Proof.
  intros H. unfold subprocess_run, trace.
  destruct (run_process C cmd (world s) (files s)) as [[w' files'] r]. simpl.
  apply only_cons; [exact H | apply only_nil].
Qed.

End Traces.

(** Splits a goal [only kinds (trace (m s))] along the structure of [m]. *)
Ltac only_step :=
  match goal with
  | |- only _ (trace (bind _ _ _)) => apply only_bind; [| intros ? ?]
  | |- only _ (trace (try_except _ _ _)) => apply only_try_except; [| intros ? ?]
  | |- only _ (trace (try_except_class _ _ _ _)) => apply only_try_except_class; [| intros ? ?]
  | |- only _ (trace (attempt _ _)) => apply only_attempt
  | |- only _ (trace (ret _ _)) => apply only_ret
  | |- only _ (trace (raise _ _)) => apply only_raise
  | |- only _ (trace (lift _ _)) => apply only_lift
  | |- only _ (trace (print _ _)) => apply only_print; reflexivity
  | |- only _ (trace (call _ _ _)) => apply only_call; intros ?; reflexivity
  | |- only _ (trace (subprocess_run _ _ _ _)) => apply only_subprocess_run; reflexivity
  | |- only _ (trace ((if ?b then _ else _) _)) => destruct b
  | |- only _ (trace (match ?x with _ => _ end _)) => destruct x
  end.

Ltac only_tac := repeat only_step.

(** ** The registration payload *)

Lemma get_key_field (fields : list (string * pyval)) (k : string) :
  get (PDict fields) k PNone = Ok (key_field fields k).
Proof. unfold get, key_field. destruct (dict_lookup k fields); reflexivity. Qed.

(** C7. For every descriptor and every key record, the payload built for
    the registration has exactly the keys [type], [url],
    [url_uniqueness_key], [user_defined_alias] and [credential]; [type] is
    ["gar"], [url] is ["https://<location>-docker.pkg.dev/"],
    [url_uniqueness_key] is ["<project_id>/<repository_id>"],
    [user_defined_alias] is ["GAR-<project_id>-<repository_id>"];
    [credential] holds exactly [details], which holds exactly [project_id],
    [scope_name] (the repository id) and [service_account_json], and the
    latter holds exactly [type] (["service_account"]) and the key's
    [private_key_id], [private_key], [client_email], [client_id] and
    [project_id]. *)
Theorem request_body_shape (registry : registry_info) (fields : list (string * pyval)) :
  exists body,
    request_body registry (PDict fields) = Ok body /\
    keys_at [] body =
      Some ["type"; "url"; "url_uniqueness_key"; "user_defined_alias"; "credential"] /\
    lookup_path ["type"] body = Some (PStr "gar") /\
    lookup_path ["url"] body =
      Some (PStr ("https://" ++ location registry ++ "-docker.pkg.dev/")) /\
    lookup_path ["url_uniqueness_key"] body =
      Some (PStr (project_id registry ++ "/" ++ repository_id registry)) /\
    lookup_path ["user_defined_alias"] body =
      Some (PStr ("GAR-" ++ project_id registry ++ "-" ++ repository_id registry)) /\
    keys_at ["credential"] body = Some ["details"] /\
    keys_at ["credential"; "details"] body =
      Some ["project_id"; "scope_name"; "service_account_json"] /\
    lookup_path ["credential"; "details"; "project_id"] body =
      Some (PStr (project_id registry)) /\
    lookup_path ["credential"; "details"; "scope_name"] body =
      Some (PStr (repository_id registry)) /\
    keys_at ["credential"; "details"; "service_account_json"] body =
      Some ["type"; "private_key_id"; "private_key"; "client_email"; "client_id";
            "project_id"] /\
    lookup_path ["credential"; "details"; "service_account_json"; "type"] body =
      Some (PStr "service_account") /\
    lookup_path ["credential"; "details"; "service_account_json"; "private_key_id"] body =
      Some (key_field fields "private_key_id") /\
    lookup_path ["credential"; "details"; "service_account_json"; "private_key"] body =
      Some (key_field fields "private_key") /\
    lookup_path ["credential"; "details"; "service_account_json"; "client_email"] body =
      Some (key_field fields "client_email") /\
    lookup_path ["credential"; "details"; "service_account_json"; "client_id"] body =
      Some (key_field fields "client_id") /\
    lookup_path ["credential"; "details"; "service_account_json"; "project_id"] body =
      Some (key_field fields "project_id").
Proof.
  unfold request_body. rewrite !get_key_field. cbn [result_bind].
  eexists. split; [reflexivity |].
  repeat split; reflexivity.
Qed.

(** ** What a trace of given kinds cannot contain *)

Lemma flat_map_only {A} (f : event -> list A) (kinds : list kind) (t : list event) :
  (forall e, allowed kinds e = true -> f e = []) ->
  only kinds t -> flat_map f t = [].
Proof.
  intros Hf Ht. induction Ht as [| e t He _ IH]; simpl.
  - reflexivity.
  - rewrite (Hf e He), IH. reflexivity.
Qed.

Lemma only_delete_calls (kinds : list kind) (t : list event) :
  existsb (kind_eqb KFalconDelete) kinds = false -> only kinds t -> delete_calls t = [].
Proof.
  intros Hk. apply flat_map_only. intros e He.
  destruct e; try reflexivity. unfold allowed in He. simpl in He. congruence.
Qed.

Lemma only_create_calls (kinds : list kind) (t : list event) :
  existsb (kind_eqb KFalconCreate) kinds = false -> only kinds t -> create_calls t = [].
Proof.
  intros Hk. apply flat_map_only. intros e He.
  destruct e; try reflexivity. unfold allowed in He. simpl in He. congruence.
Qed.

Lemma only_subprocess_calls (kinds : list kind) (t : list event) :
  existsb (kind_eqb KSubprocess) kinds = false -> only kinds t -> subprocess_calls t = [].
Proof.
  intros Hk. apply flat_map_only. intros e He.
  destruct e; try reflexivity. unfold allowed in He. simpl in He. congruence.
Qed.

Lemma only_listing_calls (kinds : list kind) (t : list event) :
  existsb (kind_eqb KListing) kinds = false -> only kinds t -> listing_calls t = [].
Proof.
  intros Hk. apply flat_map_only. intros e He.
  destruct e; try reflexivity. unfold allowed in He. simpl in He. congruence.
Qed.

Lemma only_input_calls (kinds : list kind) (t : list event) :
  existsb (kind_eqb KInput) kinds = false -> only kinds t -> input_calls t = [].
Proof.
  intros Hk. apply flat_map_only. intros e He.
  destruct e; try reflexivity. unfold allowed in He. simpl in He. congruence.
Qed.

Lemma only_grant_passes (kinds : list kind) (t : list event) :
  existsb (kind_eqb KGrantBanner) kinds = false -> only kinds t -> grant_passes t = [].
Proof.
  intros Hk. apply flat_map_only. intros e He.
  destruct e; try reflexivity. unfold allowed, kind_of in He.
  destruct (grant_pass_of (EPrint parts)); [reflexivity |].
  cbv iota in He. congruence.
Qed.

Lemma banners_exclusive (parts : list pyval) :
  removal_count_of (EPrint parts) <> [] -> grant_pass_of (EPrint parts) = [].
Proof.
  destruct parts as [| a [| b [| c [| d rest]]]]; try reflexivity.
  unfold removal_count_of, grant_pass_of.
  destruct (eq_str c " Google Artifact Registry registrations to remove:") eqn:Hc.
  - intros _. destruct c; try discriminate. simpl in Hc.
    apply String.eqb_eq in Hc. subst s. simpl.
    rewrite andb_false_r. reflexivity.
  - intros H. contradiction H. reflexivity.
Qed.

Lemma only_removal_counts (kinds : list kind) (t : list event) :
  existsb (kind_eqb KRemovalBanner) kinds = false -> only kinds t -> removal_counts t = [].
Proof.
  intros Hk. apply flat_map_only. intros e He.
  destruct e; try reflexivity. unfold allowed, kind_of in He.
  pose proof (banners_exclusive parts) as Hx.
  destruct (removal_count_of (EPrint parts)); [reflexivity |].
  rewrite Hx in He by discriminate. cbv iota in He. congruence.
Qed.

(** ** Deprovisioning: the selection of the entries to remove *)

Section Deprovision.

Context {W : Type} (C : Collaborators W).

Lemma fetch_gar_only (falcon : falcon_client) (registry_id : pyval)
    (acc : list gar_entry) (s : state W) :
  only [KPrint; KFalconDetail] (trace (fetch_gar C falcon registry_id acc s)).
Proof. unfold fetch_gar. only_tac. Qed.

(** A turn of the selection loop leaves the list as it is, or appends the
    id it asked about, and then the answer described an entry of type
    ["gar"]. *)
Lemma fetch_gar_spec (falcon : falcon_client) (registry_id : pyval)
    (acc : list gar_entry) (s : state W) :
  outcome (fetch_gar C falcon registry_id acc s) = Ok acc \/
  exists alias url details,
    outcome (fetch_gar C falcon registry_id acc s) = Ok (acc ++ [mkGar registry_id alias url])%list /\
    In (EFalconDetail registry_id (Ok details)) (trace (fetch_gar C falcon registry_id acc s)) /\
    has_type_gar details.
Proof.
  unfold fetch_gar, try_except, bind, call, print, emit, lift, ret, outcome, trace.
  destruct (read_registry_entities_by_uuid C falcon registry_id (world s))
    as [w' [details | e]]; simpl; [| left; reflexivity].
  destruct (getitem details "status_code") as [status_code | e] eqn:Hstatus; simpl;
    [| left; reflexivity].
  destruct (eq_int status_code 200); simpl; [| left; reflexivity].
  destruct (getitem details "body") as [body | e] eqn:Hbody; simpl; [| left; reflexivity].
  destruct (get body "resources" (PList [PDict []])) as [resources | e] eqn:Hres; simpl;
    [| left; reflexivity].
  destruct (index0 resources) as [registry | e] eqn:Hreg; simpl; [| left; reflexivity].
  destruct (get registry "type" PNone) as [type | e] eqn:Htype; simpl; [| left; reflexivity].
  destruct (eq_str type "gar") eqn:Hgar; simpl; [| left; reflexivity].
  destruct (get registry "user_defined_alias" (PStr "Unknown")) as [alias | e] eqn:Halias;
    simpl; [| left; reflexivity].
  destruct (get registry "url" (PStr "Unknown")) as [url | e] eqn:Hurl; simpl;
    [| left; reflexivity].
  right. exists alias, url, details. split; [reflexivity |]. split; [left; reflexivity |].
  exists registry. split.
  - unfold detail_record. rewrite Hbody. simpl. rewrite Hres. simpl. exact Hreg.
  - destruct type; try discriminate. simpl in Hgar. apply String.eqb_eq in Hgar.
    subst s0. exact Htype.
Qed.

Lemma collect_gar_only (falcon : falcon_client) (registry_ids : list pyval) :
  forall (acc : list gar_entry) (s : state W),
    only [KPrint; KFalconDetail] (trace (collect_gar C falcon registry_ids acc s)).
Proof.
  induction registry_ids as [| registry_id rest IH]; intros acc s; simpl.
  - apply only_ret.
  - apply only_bind; [apply fetch_gar_only | intros; apply IH].
Qed.

(** The selection loop always returns, and every entry it adds to the list
    was described as of type ["gar"]. *)
Lemma collect_gar_spec (falcon : falcon_client) (registry_ids : list pyval) :
  forall (acc : list gar_entry) (s : state W),
    exists added,
      outcome (collect_gar C falcon registry_ids acc s) = Ok (acc ++ added)%list /\
      Forall (selected_from (trace (collect_gar C falcon registry_ids acc s))) added.
Proof.
  induction registry_ids as [| registry_id rest IH]; intros acc s; simpl.
  - exists []. rewrite app_nil_r. split; [reflexivity | constructor].
  - rewrite outcome_bind, trace_bind.
    destruct (fetch_gar_spec falcon registry_id acc s)
      as [Hsame | (alias & url & details & Hout & Hin & Hgar)].
    + rewrite Hsame.
      destruct (IH acc (final (fetch_gar C falcon registry_id acc s))) as (added & Ho & Hall).
      exists added. split; [exact Ho |].
      eapply Forall_impl; [| exact Hall].
      intros reg (d & Hd & Hg). exists d. split; [| exact Hg].
      apply in_or_app. right. exact Hd.
    + rewrite Hout.
      destruct (IH (acc ++ [mkGar registry_id alias url])%list
                   (final (fetch_gar C falcon registry_id acc s))) as (added & Ho & Hall).
      exists (mkGar registry_id alias url :: added). split.
      * rewrite Ho. rewrite <- app_assoc. reflexivity.
      * constructor.
        -- exists details. split; [| exact Hgar]. apply in_or_app. left. exact Hin.
        -- eapply Forall_impl; [| exact Hall].
           intros reg (d & Hd & Hg). exists d. split; [| exact Hg].
           apply in_or_app. right. exact Hd.
Qed.

Lemma delete_calls_app (t1 t2 : list event) :
  delete_calls (t1 ++ t2) = (delete_calls t1 ++ delete_calls t2)%list.
Proof. apply flat_map_app. Qed.

Lemma remove_one_only (falcon : falcon_client) (reg : gar_entry) (s : state W) :
  only [KPrint; KFalconDelete] (trace (remove_one C falcon reg s)).
Proof. unfold remove_one. only_tac. Qed.

(** A turn of the removal loop makes one delete call, for the id of its
    entry alone, and always returns. *)
Lemma remove_one_spec (falcon : falcon_client) (reg : gar_entry) (s : state W) :
  outcome (remove_one C falcon reg s) = Ok tt /\
  delete_calls (trace (remove_one C falcon reg s)) = [PList [gar_id reg]].
Proof.
  unfold remove_one, try_except, bind, call, print, emit, lift, ret, outcome, trace.
  destruct (delete_registry_entities C falcon (PList [gar_id reg]) (world s))
    as [w' [response | e]]; simpl; [| split; reflexivity].
  destruct (getitem response "status_code") as [status_code | e]; simpl;
    [| split; reflexivity].
  destruct (eq_int status_code 200); simpl; [split; reflexivity |].
  destruct (get response "body" (PDict [])) as [body | e]; simpl; [| split; reflexivity].
  destruct (get body "errors" (PList [])) as [errors | e]; simpl; split; reflexivity.
Qed.

Lemma remove_each_only (falcon : falcon_client) (gar_registries : list gar_entry) :
  forall s : state W, only [KPrint; KFalconDelete] (trace (remove_each C falcon gar_registries s)).
Proof.
  induction gar_registries as [| reg rest IH]; intros s; simpl.
  - apply only_ret.
  - apply only_bind; [apply remove_one_only | intros; apply IH].
Qed.

(** The removal loop makes one delete call per entry, in order, whatever
    the calls answer. *)
Lemma remove_each_spec (falcon : falcon_client) (gar_registries : list gar_entry) :
  forall s : state W,
    outcome (remove_each C falcon gar_registries s) = Ok tt /\
    delete_calls (trace (remove_each C falcon gar_registries s)) = delete_ids gar_registries.
Proof.
  induction gar_registries as [| reg rest IH]; intros s; simpl.
  - split; reflexivity.
  - rewrite outcome_bind, trace_bind, delete_calls_app.
    destruct (remove_one_spec falcon reg s) as [Hout Hdel]. rewrite Hout, Hdel.
    destruct (IH (final (remove_one C falcon reg s))) as [Hout' Hdel'].
    rewrite Hout', Hdel'. split; reflexivity.
Qed.

Lemma print_candidates_only (gar_registries : list gar_entry) :
  forall s : state W, only [KPrint] (trace (print_candidates (W := W) gar_registries s)).
Proof.
  induction gar_registries as [| reg rest IH]; intros s; simpl.
  - apply only_ret.
  - apply only_bind; [apply only_print; reflexivity | intros; apply IH].
Qed.

Lemma print_candidates_returns (gar_registries : list gar_entry) :
  forall s : state W, outcome (print_candidates (W := W) gar_registries s) = Ok tt.
Proof.
  induction gar_registries as [| reg rest IH]; intros s; simpl.
  - reflexivity.
  - rewrite outcome_bind. simpl. apply IH.
Qed.

End Deprovision.

Ltac run_step :=
  rewrite ?trace_bind, ?outcome_bind, ?final_bind;
  cbn [print emit lift ret raise trace outcome final fst snd].

Ltac only_list :=
  cbn [app]; repeat (apply only_cons; [reflexivity |]); apply only_nil.

(** ** Deprovisioning: the confirmation *)

Section Confirmation.

Context {W : Type} (C : Collaborators W).

Lemma confirm_and_remove_spec (falcon : falcon_client) (gar_registries : list gar_entry)
    (s : state W) :
  exists shown answer rest,
    trace (confirm_and_remove C falcon gar_registries s) =
      (EPrint (removal_banner (List.length gar_registries)) :: shown ++
       EInput confirm_prompt answer :: rest)%list /\
    only [KPrint] shown /\
    match answer with
    | Raise e =>
        rest = [] /\ outcome (confirm_and_remove C falcon gar_registries s) = Raise e
    | Ok confirm =>
        outcome (confirm_and_remove C falcon gar_registries s) = Ok tt /\
        if String.eqb (lower confirm) "y"
        then only [KPrint; KFalconDelete] rest /\ delete_calls rest = delete_ids gar_registries
        else rest = [EPrint [PStr "Aborted registry removal"]]
    end.
Proof.
  unfold confirm_and_remove.
  rewrite trace_bind, outcome_bind. cbn [print emit trace outcome final fst snd].
  rewrite trace_bind, outcome_bind, print_candidates_returns.
  rewrite trace_bind, outcome_bind, trace_call, outcome_call, final_call.
  set (s1 := final (print_candidates gar_registries s)).
  exists (trace (print_candidates gar_registries s)).
  destruct (input C confirm_prompt (world s1)) as [w' [confirm | e]]; cbn [fst snd].
  - exists (Ok confirm). eexists. split; [reflexivity |].
    split; [apply print_candidates_only |].
    destruct (lower confirm =? "y"); cbn [negb].
    + rewrite outcome_bind, trace_bind. cbn [print emit trace outcome final fst snd].
      rewrite outcome_bind, trace_bind.
      destruct (remove_each_spec C falcon gar_registries {| world := w'; files := files s1 |})
        as [Hout Hdel].
      rewrite Hout. cbn [print emit trace outcome final fst snd]. split; [reflexivity |].
      split.
      * apply only_cons; [reflexivity |]. apply only_app.
        -- apply remove_each_only.
        -- apply only_cons; [reflexivity | apply only_nil].
      * cbn [app]. change (delete_calls (?e :: ?t)) with (delete_calls t).
        rewrite delete_calls_app, Hdel. apply app_nil_r.
    + split; reflexivity.
  - exists (Raise e), []. split; [reflexivity |].
    split; [apply print_candidates_only |]. split; reflexivity.
Qed.

Lemma cleanup_falcon_registries_cases (falcon_client_id falcon_client_secret : string)
    (s : state W) :
  let run := cleanup_falcon_registries C falcon_client_id falcon_client_secret s in
  only [KPrint; KFalconList; KFalconDetail] (trace run) \/
  exists before gar_registries s1,
    gar_registries <> [] /\
    only [KPrint; KFalconList; KFalconDetail] before /\
    Forall (selected_from before) gar_registries /\
    trace run =
      (before ++ trace (confirm_and_remove C
                          (FalconContainer falcon_client_id falcon_client_secret)
                          gar_registries s1))%list /\
    outcome run =
      outcome (confirm_and_remove C
                 (FalconContainer falcon_client_id falcon_client_secret)
                 gar_registries s1).
Proof.
  cbv zeta. unfold cleanup_falcon_registries.
  set (falcon := FalconContainer falcon_client_id falcon_client_secret).
  rewrite trace_bind, outcome_bind. cbn [print emit trace outcome final fst snd].
  rewrite trace_bind, outcome_bind, trace_call, outcome_call, final_call.
  destruct (read_registry_entities C falcon (world s)) as [w1 [response | e]];
    cbn [fst snd]; [| left; only_list].
  run_step.
  destruct (getitem response "status_code") as [status_code | e]; [| left; only_list].
  destruct (eq_int status_code 200); cbn [negb]; run_step; [| left; only_list].
  destruct (getitem response "body") as [body | e]; [| left; only_list].
  run_step.
  destruct (getitem body "resources") as [registry_ids | e]; [| left; only_list].
  destruct (truthy registry_ids); cbn [negb]; run_step; [| left; only_list].
  destruct (len registry_ids) as [total | e]; [| left; only_list].
  run_step.
  destruct (iter registry_ids) as [ids | e]; [| left; only_list].
  run_step.
  set (s1 := {| world := w1; files := files s |}).
  destruct (collect_gar_spec C falcon ids [] s1) as (added & Hout & Hsel).
  rewrite Hout. cbn [app].
  pose proof (collect_gar_only C falcon ids [] s1) as Honly.
  destruct added as [| reg added].
  - left. run_step. cbn [app]. repeat (apply only_cons; [reflexivity |]).
    apply only_app.
    + eapply only_mono; [| exact Honly]. intros k Hk. destruct k; try discriminate; reflexivity.
    + only_list.
  - right. eexists _, (reg :: added), _. split; [discriminate |]. split; [| split; [| split]].
    4: reflexivity.
    3: { cbn [app]. rewrite !app_comm_cons. reflexivity. }
    + repeat (apply only_cons; [reflexivity |]).
      eapply only_mono; [| exact Honly]. intros k Hk. destruct k; try discriminate; reflexivity.
    + eapply Forall_impl; [| exact Hsel].
      intros r (d & Hd & Hg). exists d. split; [| exact Hg]. do 3 right. exact Hd.
Qed.

(** Either the run never asks for a confirmation, and then it only prints
    and reads, or it asks the operator exactly once, after announcing the
    selected entries, and what follows is decided by the answer. *)
Lemma cleanup_falcon_registries_confirmation (falcon_client_id falcon_client_secret : string)
    (s : state W) :
  let run := cleanup_falcon_registries C falcon_client_id falcon_client_secret s in
  only [KPrint; KFalconList; KFalconDetail] (trace run) \/
  exists gar_registries before answer after,
    gar_registries <> [] /\
    trace run = (before ++ EInput confirm_prompt answer :: after)%list /\
    only [KPrint; KFalconList; KFalconDetail; KRemovalBanner] before /\
    removal_counts before = [Z.of_nat (List.length gar_registries)] /\
    Forall (selected_from before) gar_registries /\
    match answer with
    | Raise e => after = [] /\ outcome run = Raise e
    | Ok confirm =>
        outcome run = Ok tt /\
        if String.eqb (lower confirm) "y"
        then only [KPrint; KFalconDelete] after /\ delete_calls after = delete_ids gar_registries
        else after = [EPrint [PStr "Aborted registry removal"]]
    end.
Proof.
  cbv zeta.
  destruct (cleanup_falcon_registries_cases falcon_client_id falcon_client_secret s)
    as [Hquiet | (before & gars & s1 & Hne & Hbefore & Hsel & Htrace & Hout)];
    [left; exact Hquiet | right].
  destruct (confirm_and_remove_spec (FalconContainer falcon_client_id falcon_client_secret)
              gars s1) as (shown & answer & rest & Hasked & Hshown & Hrest).
  exists gars, (before ++ EPrint (removal_banner (List.length gars)) :: shown)%list, answer, rest.
  split; [exact Hne |]. split; [| split; [| split; [| split]]].
  - rewrite Htrace, Hasked, <- app_assoc. reflexivity.
  - apply only_app.
    + eapply only_mono; [| exact Hbefore].
      intros k Hk. destruct k; try discriminate; reflexivity.
    + apply only_cons; [reflexivity |].
      eapply only_mono; [| exact Hshown].
      intros k Hk. destruct k; try discriminate; reflexivity.
  - unfold removal_counts. rewrite flat_map_app. fold (removal_counts before).
    rewrite (only_removal_counts [KPrint; KFalconList; KFalconDetail] before eq_refl Hbefore).
    cbn [flat_map app]. fold (removal_counts shown).
    rewrite (only_removal_counts [KPrint] shown eq_refl Hshown). reflexivity.
  - eapply Forall_impl; [| exact Hsel].
    intros r (d & Hd & Hg). exists d. split; [| exact Hg]. apply in_or_app. left. exact Hd.
  - rewrite Hout. exact Hrest.
Qed.

End Confirmation.

(** Closes a goal [observer t = []] from [H : only kinds t] when the
    observed kind is not among [kinds]. *)
Ltac absent lemma H := eapply lemma; [| exact H]; reflexivity.

(** ** Deprovisioning: the whole run *)

Section DeprovisionRun.

Context {W : Type} (C : Collaborators W).

Lemma trace_subprocess_run (cmd : command) (check : bool) (s : state W) :
  trace (subprocess_run C cmd check s) =
  [ESubprocess cmd (snd (run_process C cmd (world s) (files s)))].
Proof.
  unfold subprocess_run, trace.
  destruct (run_process C cmd (world s) (files s)) as [[w' files'] r]. reflexivity.
Qed.

Lemma outcome_try_except_unit (m : M W unit) (h : exn -> M W unit) (s : state W) :
  (forall e s', outcome (h e s') = Ok tt) -> outcome (try_except m h s) = Ok tt.
Proof.
  intros Hh. rewrite outcome_try_except.
  destruct (outcome (m s)) as [[] | e]; [reflexivity | apply Hh].
Qed.

Lemma cleanup_service_account_only (project sa_name : string) (s : state W) :
  only [KPrint; KSubprocess] (trace (cleanup_service_account C project sa_name s)).
Proof. unfold cleanup_service_account. only_tac. Qed.

(** The credential cleanup always returns, and it starts by listing the
    service accounts of the project. *)
Lemma cleanup_service_account_spec (project sa_name : string) (s : state W) :
  outcome (cleanup_service_account C project sa_name s) = Ok tt /\
  exists listed rest,
    trace (cleanup_service_account C project sa_name s) =
    EPrint [PStr (LF ++ "Checking for service account ");
            PStr (sa_email_of sa_name project); PStr "..."]
    :: ESubprocess (Shell (list_cmd project)) listed :: rest.
Proof.
  unfold cleanup_service_account. split.
  - rewrite outcome_bind. cbn [print emit outcome final fst snd].
    apply outcome_try_except_unit. intros e s'. reflexivity.
  - rewrite trace_bind. cbn [print emit trace outcome final fst snd app].
    rewrite trace_try_except, trace_bind, trace_subprocess_run. cbn [app].
    eexists _, _. reflexivity.
Qed.

Lemma in_input_calls (prompt : string) (answer : result string) (t : list event) :
  In (EInput prompt answer) t -> In (prompt, answer) (input_calls t).
Proof.
  intros H. unfold input_calls. apply in_flat_map.
  exists (EInput prompt answer). split; [exact H | left; reflexivity].
Qed.

Lemma input_calls_app (t1 t2 : list event) :
  input_calls (t1 ++ t2) = (input_calls t1 ++ input_calls t2)%list.
Proof. apply flat_map_app. Qed.

Lemma removal_counts_app (t1 t2 : list event) :
  removal_counts (t1 ++ t2) = (removal_counts t1 ++ removal_counts t2)%list.
Proof. apply flat_map_app. Qed.

(** What the deletion step of a deprovision run amounts to, read off its
    trace: nothing asked, nothing deleted, nothing announced; or one
    question, the selected entries announced, and the deletion decided by
    the answer. *)
Lemma cleanup_falcon_registries_digest (falcon_client_id falcon_client_secret : string)
    (s : state W) :
  let run := cleanup_falcon_registries C falcon_client_id falcon_client_secret s in
  (input_calls (trace run) = [] /\ delete_calls (trace run) = [] /\
   removal_counts (trace run) = []) \/
  exists gar_registries answer,
    gar_registries <> [] /\
    Forall (selected_from (trace run)) gar_registries /\
    input_calls (trace run) = [(confirm_prompt, answer)] /\
    removal_counts (trace run) = [Z.of_nat (List.length gar_registries)] /\
    delete_calls (trace run) =
      match answer with
      | Ok confirm => if String.eqb (lower confirm) "y" then delete_ids gar_registries else []
      | Raise _ => []
      end.
Proof.
  cbv zeta.
  destruct (cleanup_falcon_registries_confirmation C falcon_client_id falcon_client_secret s)
    as [Hquiet | (gars & before & answer & after & Hne & Ht & Hbefore & Hcount & Hsel & Hafter)].
  - left. split; [| split].
    + absent only_input_calls Hquiet.
    + absent only_delete_calls Hquiet.
    + absent only_removal_counts Hquiet.
  - right. exists gars, answer. rewrite Ht.
    rewrite input_calls_app, removal_counts_app, delete_calls_app.
    assert (Hin : input_calls before = []) by absent only_input_calls Hbefore.
    assert (Hdel : delete_calls before = []) by absent only_delete_calls Hbefore.
    rewrite Hin, Hdel, Hcount.
    change (input_calls (EInput confirm_prompt answer :: after))
      with ((confirm_prompt, answer) :: input_calls after).
    change (delete_calls (EInput confirm_prompt answer :: after)) with (delete_calls after).
    change (removal_counts (EInput confirm_prompt answer :: after)) with (removal_counts after).
    cbn [app].
    split; [exact Hne |]. split.
    { eapply Forall_impl; [| exact Hsel].
      intros r (d & Hd & Hg). exists d. split; [| exact Hg]. apply in_or_app. left. exact Hd. }
    destruct answer as [confirm | e].
    + destruct Hafter as [_ Hafter]. destruct (lower confirm =? "y").
      * destruct Hafter as [Honly Hdel'].
        assert (Hin' : input_calls after = []) by absent only_input_calls Honly.
        assert (Hcount' : removal_counts after = []) by absent only_removal_counts Honly.
        rewrite Hin', Hcount', Hdel'. repeat split; reflexivity.
      * subst after. repeat split; reflexivity.
    + destruct Hafter as [Hafter _]. subst after. repeat split; reflexivity.
Qed.

Lemma main_deprovision_trace (environ : string -> option string) (s : state W) :
  trace (main C true environ s) = [] \/
  exists host_project falcon_client_id falcon_client_secret,
    environ "GCP_HOST_PROJECT" = Some host_project /\
    trace (main C true environ s) =
      (EPrint [PStr (LF ++ "=== Starting Deprovisioning ===")]
       :: trace (cleanup_falcon_registries C falcon_client_id falcon_client_secret s) ++
          match outcome (cleanup_falcon_registries C falcon_client_id falcon_client_secret s) with
          | Ok _ =>
              trace (cleanup_service_account C host_project default_sa_name
                       (final (cleanup_falcon_registries C falcon_client_id
                                 falcon_client_secret s))) ++
              [EPrint [PStr (LF ++ "=== Deprovisioning Complete ===")]]
          | Raise _ => []
          end)%list.
Proof.
  unfold main.
  destruct (environ "GCP_HOST_PROJECT") as [host_project |]; [| left; reflexivity].
  destruct (environ "FALCON_CLIENT_ID") as [falcon_client_id |]; [| left; reflexivity].
  destruct (environ "FALCON_CLIENT_SECRET") as [falcon_client_secret |]; [| left; reflexivity].
  destruct (negb _); [left; reflexivity | right].
  exists host_project, falcon_client_id, falcon_client_secret. split; [reflexivity |].
  run_step. cbn [app]. f_equal. f_equal.
  destruct (outcome (cleanup_falcon_registries C falcon_client_id falcon_client_secret s));
    [| reflexivity].
  destruct (cleanup_service_account_spec host_project default_sa_name
              (final (cleanup_falcon_registries C falcon_client_id falcon_client_secret s)))
    as [Hout _].
  rewrite Hout. reflexivity.
Qed.

(** A deprovision run that gets past the configuration check is the
    deletion step followed by a tail that only prints and runs commands;
    when the deletion step returns, the tail starts with the credential
    cleanup listing the service accounts of the host project. *)
Lemma main_deprovision_tail (environ : string -> option string) (s : state W) :
  trace (main C true environ s) = [] \/
  exists host_project falcon_client_id falcon_client_secret tail,
    environ "GCP_HOST_PROJECT" = Some host_project /\
    trace (main C true environ s) =
      (EPrint [PStr (LF ++ "=== Starting Deprovisioning ===")]
       :: trace (cleanup_falcon_registries C falcon_client_id falcon_client_secret s) ++
          tail)%list /\
    only [KPrint; KSubprocess] tail /\
    (outcome (cleanup_falcon_registries C falcon_client_id falcon_client_secret s) = Ok tt ->
     exists banner listed rest,
       tail = banner :: ESubprocess (Shell (list_cmd host_project)) listed :: rest).
Proof.
  destruct (main_deprovision_trace environ s)
    as [Hnil | (host & id & secret & Henv & Ht)]; [left; exact Hnil | right].
  exists host, id, secret. eexists. split; [exact Henv |]. split; [exact Ht |].
  set (falcon_run := cleanup_falcon_registries C id secret s).
  split.
  - destruct (outcome falcon_run); [| apply only_nil].
    apply only_app; [apply cleanup_service_account_only | only_list].
  - intros Hok. rewrite Hok.
    destruct (cleanup_service_account_spec host default_sa_name (final falcon_run))
      as [_ (listed & rest & Hsa)].
    rewrite Hsa. eexists _, listed, _. reflexivity.
Qed.

(** C1. In every deprovision run there is a list of candidates, each with
    a detail response in the trace that describes an entry of type ["gar"],
    such that the delete calls of the run are exactly the calls for these
    candidates, one id per call, or there is none, and the number of
    registrations announced for removal, when one is announced, is the
    number of these candidates. *)
Theorem deletion_candidates_are_gar (environ : string -> option string) (s : state W) :
  exists candidates : list gar_entry,
    Forall (selected_from (trace (main C true environ s))) candidates /\
    (delete_calls (trace (main C true environ s)) = [] \/
     delete_calls (trace (main C true environ s)) = delete_ids candidates) /\
    (removal_counts (trace (main C true environ s)) = [] \/
     removal_counts (trace (main C true environ s)) = [Z.of_nat (List.length candidates)]).
Proof.
  destruct (main_deprovision_tail environ s)
    as [Hnil | (host & id & secret & tail & _ & Hmain & Htail & _)].
  { exists []. rewrite Hnil. split; [constructor | split; left; reflexivity]. }
  set (falcon_run := cleanup_falcon_registries C id secret s) in *.
  rewrite Hmain.
  assert (Hdel : delete_calls tail = []) by absent only_delete_calls Htail.
  assert (Hcount : removal_counts tail = []) by absent only_removal_counts Htail.
  change (delete_calls (?e :: trace falcon_run ++ tail))
    with (delete_calls (trace falcon_run ++ tail)).
  change (removal_counts (?e :: trace falcon_run ++ tail))
    with (removal_counts (trace falcon_run ++ tail)).
  rewrite delete_calls_app, removal_counts_app, Hdel, Hcount, !app_nil_r.
  destruct (cleanup_falcon_registries_digest id secret s)
    as [(_ & Hd & Hc) | (gars & answer & _ & Hsel & _ & Hc & Hd)];
    fold falcon_run in Hd, Hc |- *.
  - exists []. split; [constructor | split; left; assumption].
  - exists gars. split; [| split].
    + eapply Forall_impl; [| exact Hsel].
      intros r (d & Hin & Hg). exists d. split; [| exact Hg].
      right. apply in_or_app. left. exact Hin.
    + rewrite Hd. destruct answer as [confirm | e]; [| left; reflexivity].
      destruct (lower confirm =? "y"); [right | left]; reflexivity.
    + right. exact Hc.
Qed.

(** The operator was asked at most once in a deprovision run: an answer
    found in the trace is the answer to the confirmation prompt. *)
Lemma main_deprovision_answer (environ : string -> option string) (s : state W)
    (prompt : string) (answer : string) :
  In (EInput prompt (Ok answer)) (trace (main C true environ s)) ->
  exists host_project gar_registries before after tail,
    environ "GCP_HOST_PROJECT" = Some host_project /\
    gar_registries <> [] /\
    prompt = confirm_prompt /\
    trace (main C true environ s) =
      (EPrint [PStr (LF ++ "=== Starting Deprovisioning ===")]
       :: (before ++ EInput prompt (Ok answer) :: after) ++ tail)%list /\
    only [KPrint; KFalconList; KFalconDetail; KRemovalBanner] before /\
    only [KPrint; KSubprocess] tail /\
    (exists banner listed rest,
       tail = banner :: ESubprocess (Shell (list_cmd host_project)) listed :: rest) /\
    if String.eqb (lower answer) "y"
    then only [KPrint; KFalconDelete] after /\ delete_calls after = delete_ids gar_registries
    else after = [EPrint [PStr "Aborted registry removal"]].
Proof.
  intros Hin.
  destruct (main_deprovision_tail environ s)
    as [Hnil | (host & id & secret & tail & Henv & Hmain & Htail & Hsa)].
  { rewrite Hnil in Hin. contradiction. }
  set (falcon_run := cleanup_falcon_registries C id secret s) in *.
  assert (Hnone : input_calls tail = []) by absent only_input_calls Htail.
  apply in_input_calls in Hin. rewrite Hmain in Hin.
  change (input_calls (?e :: trace falcon_run ++ tail))
    with (input_calls (trace falcon_run ++ tail)) in Hin.
  rewrite input_calls_app, Hnone, app_nil_r in Hin.
  destruct (cleanup_falcon_registries_confirmation C id secret s)
    as [Hquiet | (gars & before & answer0 & after & Hne & Ht & Hbefore & _ & _ & Hafter)];
    fold falcon_run in Hquiet || fold falcon_run in Ht, Hafter.
  { assert (Hno : input_calls (trace falcon_run) = []) by absent only_input_calls Hquiet.
    rewrite Hno in Hin. contradiction. }
  assert (Hb : input_calls before = []) by absent only_input_calls Hbefore.
  assert (Ha : input_calls after = []).
  { destruct answer0 as [confirm | e].
    - destruct Hafter as [_ Hafter]. destruct (lower confirm =? "y").
      + destruct Hafter as [Honly _]. absent only_input_calls Honly.
      + subst after. reflexivity.
    - destruct Hafter as [Hafter _]. subst after. reflexivity. }
  rewrite Ht, input_calls_app, Hb in Hin.
  change (input_calls (EInput confirm_prompt answer0 :: after))
    with ((confirm_prompt, answer0) :: input_calls after) in Hin.
  rewrite Ha in Hin. destruct Hin as [Heq | []].
  inversion Heq; subst prompt answer0. destruct Hafter as [Hok Hafter].
  exists host, gars, before, after, tail.
  split; [exact Henv |]. split; [exact Hne |]. split; [reflexivity |].
  split; [rewrite Hmain, Ht; reflexivity |]. split; [exact Hbefore |].
  split; [exact Htail |]. split; [exact (Hsa Hok) | exact Hafter].
Qed.

(** C4. In a deprovision run in which the operator was asked and gave an
    answer that does not lower to ["y"], no delete call is made, and after
    the answer the credential cleanup is entered: the service accounts of
    the host project are listed. *)
Theorem decline_deletes_nothing_and_cleans_credential
    (environ : string -> option string) (s : state W) (prompt answer : string) :
  In (EInput prompt (Ok answer)) (trace (main C true environ s)) ->
  lower answer <> "y" ->
  delete_calls (trace (main C true environ s)) = [] /\
  exists host_project before after listed,
    environ "GCP_HOST_PROJECT" = Some host_project /\
    trace (main C true environ s) = (before ++ EInput prompt (Ok answer) :: after)%list /\
    In (ESubprocess (Shell (list_cmd host_project)) listed) after.
Proof.
  intros Hin Hdecline.
  destruct (main_deprovision_answer environ s prompt answer Hin)
    as (host & gars & before & after & tail & Henv & _ & _ & Hmain &
        Hbefore & Htail & (banner & listed & rest & Hsa) & Hafter).
  apply String.eqb_neq in Hdecline. rewrite Hdecline in Hafter. subst after.
  split.
  - rewrite Hmain.
    assert (Hb : delete_calls before = []) by absent only_delete_calls Hbefore.
    assert (Hd : delete_calls tail = []) by absent only_delete_calls Htail.
    change (delete_calls (?e :: ?t)) with (delete_calls t).
    rewrite !delete_calls_app, Hb, Hd. reflexivity.
  - exists host, (EPrint [PStr (LF ++ "=== Starting Deprovisioning ===")] :: before),
      (EPrint [PStr "Aborted registry removal"] :: tail), listed.
    split; [exact Henv |]. split.
    + rewrite Hmain, <- app_assoc. reflexivity.
    + rewrite Hsa. right. right. left. reflexivity.
Qed.

(** C10. In a deprovision run in which the operator was asked and answered
    [answer], delete calls are made if and only if [answer] lowers to
    exactly ["y"]; the answers ["yes"], ["Y "] and [""] lead to no delete
    call. *)
Theorem removal_proceeds_iff_answer_lowers_to_y
    (environ : string -> option string) (s : state W) (prompt answer : string) :
  In (EInput prompt (Ok answer)) (trace (main C true environ s)) ->
  (delete_calls (trace (main C true environ s)) <> [] <-> lower answer = "y") /\
  (In answer ["yes"; "Y "; ""] -> delete_calls (trace (main C true environ s)) = []).
Proof.
  intros Hin.
  destruct (main_deprovision_answer environ s prompt answer Hin)
    as (host & gars & before & after & tail & _ & Hne & _ & Hmain &
        Hbefore & Htail & _ & Hafter).
  assert (Hb : delete_calls before = []) by absent only_delete_calls Hbefore.
  assert (Hd : delete_calls tail = []) by absent only_delete_calls Htail.
  assert (Hcalls : delete_calls (trace (main C true environ s)) = delete_calls after).
  { rewrite Hmain. change (delete_calls (?e :: ?t)) with (delete_calls t).
    rewrite !delete_calls_app, Hb, Hd, app_nil_r. reflexivity. }
  rewrite Hcalls.
  assert (Hiff : delete_calls after <> [] <-> lower answer = "y").
  { destruct (lower answer =? "y") eqn:Hy.
    - destruct Hafter as [_ Hdel]. rewrite Hdel. apply String.eqb_eq in Hy. split.
      + intros _. exact Hy.
      + intros _. destruct gars; [contradiction | discriminate].
    - subst after. apply String.eqb_neq in Hy. split.
      + intros H. contradiction H. reflexivity.
      + intros H. contradiction. }
  split; [exact Hiff |].
  intros Hcase.
  destruct (delete_calls after) as [| ids others]; [reflexivity |].
  assert (Hy : lower answer = "y") by (apply Hiff; discriminate).
  destruct Hcase as [<- | [<- | [<- | []]]]; discriminate Hy.
Qed.

End DeprovisionRun.

Lemma decline_deletes_nothing_and_cleans_credential_witness :
  In (EInput confirm_prompt (Ok "no"))
     (trace (main (Demo.happy "no") true Demo.environ Demo.start)) /\
  lower "no" <> "y" /\
  delete_calls (trace (main (Demo.happy "no") true Demo.environ Demo.start)) = [] /\
  exists host_project before after listed,
    Demo.environ "GCP_HOST_PROJECT" = Some host_project /\
    trace (main (Demo.happy "no") true Demo.environ Demo.start) =
      (before ++ EInput confirm_prompt (Ok "no") :: after)%list /\
    In (ESubprocess (Shell (list_cmd host_project)) listed) after.
Proof.
  assert (Hin : In (EInput confirm_prompt (Ok "no"))
                   (trace (main (Demo.happy "no") true Demo.environ Demo.start))).
  { vm_compute. repeat first [left; reflexivity | right]. }
  assert (Hno : lower "no" <> "y") by discriminate.
  split; [exact Hin |]. split; [exact Hno |].
  exact (decline_deletes_nothing_and_cleans_credential (Demo.happy "no") Demo.environ
           Demo.start confirm_prompt "no" Hin Hno).
Defined.

Lemma removal_proceeds_iff_answer_lowers_to_y_witness :
  In (EInput confirm_prompt (Ok "Y"))
     (trace (main (Demo.happy "Y") true Demo.environ Demo.start)) /\
  (delete_calls (trace (main (Demo.happy "Y") true Demo.environ Demo.start)) <> [] <->
   lower "Y" = "y") /\
  (In "Y" ["yes"; "Y "; ""] ->
   delete_calls (trace (main (Demo.happy "Y") true Demo.environ Demo.start)) = []).
Proof.
  assert (Hin : In (EInput confirm_prompt (Ok "Y"))
                   (trace (main (Demo.happy "Y") true Demo.environ Demo.start))).
  { vm_compute. repeat first [left; reflexivity | right]. }
  split; [exact Hin |].
  exact (removal_proceeds_iff_answer_lowers_to_y (Demo.happy "Y") Demo.environ
           Demo.start confirm_prompt "Y" Hin).
Defined.

(** ** Discovery *)

Section Discovery.

Context {W : Type} (C : Collaborators W).

Lemma append_found_spec (project location : string) (repos : list string) :
  forall (registries : list registry_info) (s : state W),
    exists found,
      outcome (append_found (W := W) project location repos registries s) =
        Ok (registries ++ found)%list /\
      final (append_found (W := W) project location repos registries s) = s /\
      only [KPrint] (trace (append_found (W := W) project location repos registries s)).
Proof.
  induction repos as [| repo_name rest IH]; intros registries s; simpl.
  - exists []. rewrite app_nil_r. repeat split. apply only_nil.
  - run_step.
    destruct (IH (registries ++ [mkRegistry repo_name project location
                                   (last_item (split "/" repo_name))])%list s)
      as (found & Hout & Hfin & Honly).
    eexists. split; [rewrite Hout, <- app_assoc; reflexivity |].
    split; [exact Hfin |]. apply only_cons; [reflexivity | exact Honly].
Qed.

Lemma trace_attempt {A} (m : M W A) (s : state W) : trace (attempt m s) = trace (m s).
Proof. unfold attempt, trace. destruct (m s) as [[s1 t1] r]. reflexivity. Qed.

Lemma outcome_attempt {A} (m : M W A) (s : state W) :
  outcome (attempt m s) = Ok (outcome (m s)).
Proof. unfold attempt, outcome. destruct (m s) as [[s1 t1] r]. reflexivity. Qed.

Lemma final_attempt {A} (m : M W A) (s : state W) : final (attempt m s) = final (m s).
Proof. unfold attempt, final. destruct (m s) as [[s1 t1] r]. reflexivity. Qed.

Lemma listing_calls_app (t1 t2 : list event) :
  listing_calls (t1 ++ t2) = (listing_calls t1 ++ listing_calls t2)%list.
Proof. apply flat_map_app. Qed.

(** One listing is one call, whatever it yields, and its outcome is handed
    over as a value. *)
Lemma list_location_spec (project location : string) (registries : list registry_info)
    (s : state W) :
  (exists step, outcome (list_location C project location registries s) = Ok step) /\
  listing_calls (trace (list_location C project location registries s)) =
    [parent_of project location] /\
  only [KPrint; KListing] (trace (list_location C project location registries s)).
Proof.
  unfold list_location.
  rewrite outcome_bind, trace_bind, trace_attempt, outcome_attempt, final_attempt.
  rewrite trace_call, outcome_call, final_call.
  destruct (list_repositories C (parent_of project location) (world s))
    as [w1 [[repos later] | e]]; cbn [fst snd].
  - rewrite outcome_bind, trace_bind.
    destruct (append_found_spec project location repos registries (mkState w1 (files s)))
      as (found & Hout & _ & Honly).
    rewrite Hout. cbn [ret trace outcome fst snd]. rewrite app_nil_r.
    split; [eexists; reflexivity |]. split.
    + cbn [app listing_calls flat_map].
      assert (Hnone : listing_calls
                        (trace (append_found (W := W) project location repos registries
                                  (mkState w1 (files s)))) = [])
        by absent only_listing_calls Honly.
      unfold listing_calls in Hnone. rewrite Hnone. reflexivity.
    + apply only_cons; [reflexivity |].
      eapply only_mono; [| exact Honly]. intros k Hk. destruct k; try discriminate; reflexivity.
  - split; [eexists; reflexivity |]. split; [reflexivity | only_list].
Qed.

Lemma on_location_error_spec (project location : string) (e : exn) (s : state W) :
  outcome (on_location_error (W := W) project location e s) =
    Ok (if orb (feature_not_enabled e) (access_denied e) then Break else Continue) /\
  final (on_location_error (W := W) project location e s) = s /\
  exists note, trace (on_location_error (W := W) project location e s) = [EPrint note] /\
               allowed [KPrint] (EPrint note) = true.
Proof.
  unfold on_location_error, feature_not_enabled, access_denied.
  destruct (contains "SERVICE_DISABLED" (exn_str e)); cbn [orb].
  - repeat split. eexists. split; reflexivity.
  - destruct (contains "PERMISSION_DENIED" (exn_str e)).
    + repeat split. eexists. split; reflexivity.
    + repeat split. eexists. split; reflexivity.
Qed.

Lemma scan_locations_only (project : string) (locs : list string) :
  forall (registries : list registry_info) (s : state W),
    only [KPrint; KListing] (trace (scan_locations C project locs registries s)).
Proof.
  induction locs as [| location rest IH]; intros registries s; simpl.
  - apply only_ret.
  - apply only_bind; [apply list_location_spec | intros step s'].
    destruct (snd step) as [e |]; [| apply IH].
    apply only_bind.
    + destruct (on_location_error_spec project location e s') as (_ & _ & note & Ht & Hk).
      rewrite Ht. apply only_cons; [| apply only_nil].
      unfold allowed in *. simpl in *. rewrite orb_false_r in Hk. rewrite Hk. reflexivity.
    + intros control s''. destruct control; [apply IH | apply only_ret].
Qed.


Lemma scan_projects_only (projects : list string) :
  forall (registries : list registry_info) (s : state W),
    only [KPrint; KListing] (trace (scan_projects C projects registries s)).
Proof.
  induction projects as [| project rest IH]; intros registries s; cbn [scan_projects].
  - apply only_ret.
  - apply only_bind; [apply only_print; reflexivity | intros _ s1].
    apply only_bind; [apply scan_locations_only | intros registries' s2; apply IH].
Qed.



(** The loop over the projects is, for its first project, the rest of a
    discovery that has all the locations left. *)
Lemma scan_projects_unfold (project : string) (others : list string)
    (registries : list registry_info) (s : state W) :
  scan_projects C (project :: others) registries s =
  (print [PStr (LF ++ "Checking project: "); PStr project] ;;
   rest_of_discovery C project locations others registries) s.
Proof. reflexivity. Qed.


End Discovery.


(** ** Provisioning *)

Section Provision.

Context {W : Type} (C : Collaborators W).

Lemma list_gcp_registries_only (s : state W) :
  only [KPrint; KSearch; KListing] (trace (list_gcp_registries C s)).
Proof.
  unfold list_gcp_registries.
  apply only_bind; [apply only_print; reflexivity | intros _ s1].
  apply only_bind; [apply only_call; intros r; reflexivity | intros projects s2].
  apply only_bind.
  - eapply only_mono; [| apply scan_projects_only].
    intros k Hk. destruct k; try discriminate; reflexivity.
  - intros registries s3. destruct (snd projects); [apply only_raise | apply only_ret].
Qed.

(** C5. When discovery returns no descriptor, the provision run returns
    after printing that nothing was found: its trace is the trace of
    discovery followed by that line, and it holds no command (no service
    account is checked or created, no key is minted, no role is granted), no
    role-grant pass and no registration call. *)
Theorem empty_discovery_short_circuits
    (host_project falcon_client_id falcon_client_secret : string) (s : state W) :
  outcome (list_gcp_registries C s) = Ok [] ->
  outcome (provision_registries C host_project falcon_client_id falcon_client_secret s) =
    Ok tt /\
  trace (provision_registries C host_project falcon_client_id falcon_client_secret s) =
    (trace (list_gcp_registries C s) ++ [EPrint [PStr "No registries found"]])%list /\
  subprocess_calls
    (trace (provision_registries C host_project falcon_client_id falcon_client_secret s)) = [] /\
  grant_passes
    (trace (provision_registries C host_project falcon_client_id falcon_client_secret s)) = [] /\
  create_calls
    (trace (provision_registries C host_project falcon_client_id falcon_client_secret s)) = [].
Proof.
  intros Hempty.
  assert (Htrace :
    trace (provision_registries C host_project falcon_client_id falcon_client_secret s) =
    (trace (list_gcp_registries C s) ++ [EPrint [PStr "No registries found"]])%list).
  { unfold provision_registries. rewrite trace_bind, Hempty. reflexivity. }
  assert (Honly : only [KPrint; KSearch; KListing]
                    (trace (provision_registries C host_project falcon_client_id
                              falcon_client_secret s))).
  { rewrite Htrace. apply only_app; [apply list_gcp_registries_only | only_list]. }
  split; [| split; [exact Htrace |]].
  - unfold provision_registries. rewrite outcome_bind, Hempty. reflexivity.
  - split; [| split].
    + absent only_subprocess_calls Honly.
    + absent only_grant_passes Honly.
    + absent only_create_calls Honly.
Qed.

End Provision.

Lemma empty_discovery_short_circuits_witness :
  outcome (list_gcp_registries Scenario.empty_account Demo.start) = Ok [] /\
  outcome (provision_registries Scenario.empty_account "host" "id" "secret" Demo.start) =
    Ok tt /\
  trace (provision_registries Scenario.empty_account "host" "id" "secret" Demo.start) =
    (trace (list_gcp_registries Scenario.empty_account Demo.start) ++
     [EPrint [PStr "No registries found"]])%list /\
  subprocess_calls
    (trace (provision_registries Scenario.empty_account "host" "id" "secret" Demo.start)) = [] /\
  grant_passes
    (trace (provision_registries Scenario.empty_account "host" "id" "secret" Demo.start)) = [] /\
  create_calls
    (trace (provision_registries Scenario.empty_account "host" "id" "secret" Demo.start)) = [].
Proof.
  split; [reflexivity |].
  exact (empty_discovery_short_circuits Scenario.empty_account "host" "id" "secret"
           Demo.start eq_refl).
Defined.

(** ** The credential *)

Section Credential.

Context {W : Type} (C : Collaborators W).

Lemma outcome_subprocess_run (cmd : command) (check : bool) (s : state W) :
  outcome (subprocess_run C cmd check s) =
  match snd (run_process C cmd (world s) (files s)) with
  | Ok p =>
      if andb check (negb (Z.eqb (returncode p) 0))
      then Raise (mkExn CalledProcessError
                        (called_process_error_str C cmd (returncode p)) (stderr p))
      else Ok p
  | Raise e => Raise e
  end.
Proof.
  unfold subprocess_run, outcome.
  destruct (run_process C cmd (world s) (files s)) as [[w' files'] r]. reflexivity.
Qed.

Lemma final_subprocess_run (cmd : command) (check : bool) (s : state W) :
  final (subprocess_run C cmd check s) =
  mkState (fst (fst (run_process C cmd (world s) (files s))))
          (snd (fst (run_process C cmd (world s) (files s)))).
Proof.
  unfold subprocess_run, final.
  destruct (run_process C cmd (world s) (files s)) as [[w' files'] r]. reflexivity.
Qed.

Lemma subprocess_calls_app (t1 t2 : list event) :
  subprocess_calls (t1 ++ t2) = (subprocess_calls t1 ++ subprocess_calls t2)%list.
Proof. apply flat_map_app. Qed.

Lemma ensure_service_account_only (project sa_name : string) (s : state W) :
  only [KPrint; KSubprocess] (trace (ensure_service_account C project sa_name s)).
Proof. unfold ensure_service_account. only_tac. Qed.

Lemma ensure_service_account_cases (project sa_name : string) (s : state W) :
  let describe := Shell (describe_cmd (sa_email_of sa_name project) project) in
  let create := Argv (create_cmd sa_name project) in
  let run := ensure_service_account C project sa_name s in
  let created := subprocess_run C create true (final (subprocess_run C describe true s)) in
  match outcome (subprocess_run C describe true s) with
  | Ok _ => subprocess_calls (trace run) = [describe] /\ outcome run = Ok tt
  | Raise e =>
      if exn_class_eqb (exn_cls e) CalledProcessError
      then subprocess_calls (trace run) = [describe; create] /\
           outcome run = match outcome created with
                         | Ok _ => Ok tt
                         | Raise e' => Raise e'
                         end
      else subprocess_calls (trace run) = [describe] /\ outcome run = Raise e
  end.
Proof.
  cbv zeta. unfold ensure_service_account, try_except_class.
  rewrite trace_try_except, outcome_try_except, trace_bind, outcome_bind.
  rewrite trace_subprocess_run.
  destruct (outcome (subprocess_run C (Shell (describe_cmd (sa_email_of sa_name project) project)) true s))
    as [p | e] eqn:Hdescribe; cbn [print emit trace outcome final fst snd app].
  - split; reflexivity.
  - rewrite final_bind, Hdescribe.
    destruct (exn_class_eqb (exn_cls e) CalledProcessError).
    + rewrite trace_bind, outcome_bind. cbn [print emit trace outcome final fst snd app].
      rewrite trace_bind, outcome_bind, trace_subprocess_run.
      split.
      * destruct (outcome (subprocess_run C (Argv (create_cmd sa_name project)) true _));
          reflexivity.
      * destruct (outcome (subprocess_run C (Argv (create_cmd sa_name project)) true _));
          reflexivity.
    + split; reflexivity.
Qed.

(** C3, as the code has it.  The existence check is one [describe]
    command.  When it exits with status zero, nothing is created.  When it
    exits with any other status, whatever it wrote about the reason, the
    creation command is run next, and the outcome is that of the creation:
    a creation that fails is raised to the caller.  When the command cannot
    be run, the exception is raised to the caller without a creation
    attempt, unless it is itself a [CalledProcessError]. *)
Theorem existence_check_failure_leads_to_creation (project sa_name : string) (s : state W) :
  let describe := Shell (describe_cmd (sa_email_of sa_name project) project) in
  let create := Argv (create_cmd sa_name project) in
  let run := ensure_service_account C project sa_name s in
  let created := subprocess_run C create true (final (subprocess_run C describe true s)) in
  match snd (run_process C describe (world s) (files s)) with
  | Ok checked =>
      if Z.eqb (returncode checked) 0
      then subprocess_calls (trace run) = [describe] /\ outcome run = Ok tt
      else subprocess_calls (trace run) = [describe; create] /\
           outcome run = match outcome created with
                         | Ok _ => Ok tt
                         | Raise e => Raise e
                         end
  | Raise e =>
      if exn_class_eqb (exn_cls e) CalledProcessError
      then subprocess_calls (trace run) = [describe; create] /\
           outcome run = match outcome created with
                         | Ok _ => Ok tt
                         | Raise e' => Raise e'
                         end
      else subprocess_calls (trace run) = [describe] /\ outcome run = Raise e
  end.
Proof.
  cbv zeta. pose proof (ensure_service_account_cases project sa_name s) as Hcases.
  cbv zeta in Hcases. rewrite outcome_subprocess_run in Hcases.
  destruct (snd (run_process C (Shell (describe_cmd (sa_email_of sa_name project) project))
                   (world s) (files s))) as [checked | e].
  - cbn [andb] in Hcases. destruct (Z.eqb (returncode checked) 0); exact Hcases.
  - exact Hcases.
Qed.

Lemma get_service_account_key_prefix_only (project sa_name : string) (s : state W) :
  only [KPrint; KSubprocess]
    (trace ((print [PStr (LF ++ "Managing service account in project "); PStr project;
                    PStr "..."] ;;
             ensure_service_account C project sa_name ;;
             subprocess_run C (Argv (key_cmd (sa_email_of sa_name project) project)) true) s)).
Proof.
  apply only_bind; [apply only_print; reflexivity | intros _ s1].
  apply only_bind; [apply ensure_service_account_only | intros _ s2].
  apply only_subprocess_run. reflexivity.
Qed.

Lemma trace_open_json_load (path : string) (s : state W) :
  trace (open_json_load C path s) = [EOpen path].
Proof.
  unfold open_json_load, trace. destruct (fs_read path (files s)); [| reflexivity].
  destruct (json_loads C s0); reflexivity.
Qed.

Lemma trace_os_remove (path : string) (s : state W) :
  trace (os_remove (W := W) path s) = [ERemove path].
Proof. unfold os_remove, trace. destruct (fs_exists path (files s)); reflexivity. Qed.

Lemma get_service_account_key_only (project sa_name : string) (s : state W) :
  only [KPrint; KSubprocess; KFile] (trace (get_service_account_key C project sa_name s)).
Proof.
  unfold get_service_account_key.
  apply only_bind; [apply only_print; reflexivity | intros _ s1].
  apply only_bind.
  { eapply only_mono; [| apply ensure_service_account_only].
    intros k Hk. destruct k; try discriminate; reflexivity. }
  intros _ s2.
  apply only_bind; [apply only_subprocess_run; reflexivity | intros _ s3].
  apply only_bind; [rewrite trace_open_json_load; only_list | intros key_json s4].
  apply only_bind; [rewrite trace_os_remove; only_list | intros _ s5].
  apply only_ret.
Qed.

Lemma fs_exists_remove (path : string) (files : fs) :
  fs_exists path (fs_remove path files) = false.
Proof.
  unfold fs_exists. induction files as [| [p c] rest IH]; simpl; [reflexivity |].
  destruct (String.eqb path p) eqn:Hp; simpl; [exact IH |].
  rewrite Hp. exact IH.
Qed.

Lemma only_In (kinds : list kind) (t : list event) (e : event) :
  only kinds t -> In e t -> allowed kinds e = true.
Proof. intros Ht Hin. unfold only in Ht. rewrite Forall_forall in Ht. apply Ht. exact Hin. Qed.

(** On the path on which the key is returned, the key file is gone. *)
Lemma get_service_account_key_success_removes_key_file (project sa_name : string)
    (s : state W) (key : pyval * string) :
  outcome (get_service_account_key C project sa_name s) = Ok key ->
  fs_exists key_file (files (final (get_service_account_key C project sa_name s))) = false.
Proof.
  unfold get_service_account_key.
  rewrite !outcome_bind, !final_bind. cbn [print emit outcome final fst snd].
  destruct (outcome (ensure_service_account C project sa_name s));
    [| intros Hx; discriminate Hx].
  destruct (outcome (subprocess_run C _ true _)); [| intros Hx; discriminate Hx].
  set (s3 := final (subprocess_run C _ true _)).
  unfold open_json_load.
  destruct (fs_read key_file (files s3)) as [content |]; cbn [outcome final fst snd];
    [| intros Hx; discriminate Hx].
  destruct (json_loads C content) as [v |]; cbn [outcome final fst snd];
    [| intros Hx; discriminate Hx].
  rewrite outcome_bind, final_bind.
  unfold os_remove. destruct (fs_exists key_file (files s3)); cbn [ret outcome final fst snd files];
    [| intros Hx; discriminate Hx].
  intros _. apply fs_exists_remove.
Qed.

(** C2, where the code departs from it.  When the key file was opened and
    the run ends with the exception of a failed parse, the key file is
    still in the directory when the function is left. *)
Theorem key_file_outlives_failed_parse (project sa_name : string) (s : state W) (e : exn) :
  In (EOpen key_file) (trace (get_service_account_key C project sa_name s)) ->
  outcome (get_service_account_key C project sa_name s) = Raise e ->
  exn_cls e = JSONDecodeError ->
  fs_exists key_file (files (final (get_service_account_key C project sa_name s))) = true.
Proof.
  pose proof (get_service_account_key_prefix_only project sa_name s) as Hprefix.
  rewrite !trace_bind in Hprefix. cbn [print emit trace outcome final fst snd] in Hprefix.
  unfold get_service_account_key.
  rewrite !trace_bind, !outcome_bind, !final_bind. cbn [print emit trace outcome final fst snd].
  destruct (outcome (ensure_service_account C project sa_name s)).
  2: { intros Hin _ _. try rewrite app_nil_r in Hin. try rewrite app_nil_r in Hprefix.
       apply (only_In _ _ _ Hprefix) in Hin. discriminate Hin. }
  destruct (outcome (subprocess_run C _ true _)).
  2: { intros Hin _ _. try rewrite app_nil_r in Hin. try rewrite app_nil_r in Hprefix.
       apply (only_In _ _ _ Hprefix) in Hin. discriminate Hin. }
  set (s3 := final (subprocess_run C _ true _)).
  unfold open_json_load.
  destruct (fs_read key_file (files s3)) as [content |] eqn:Hread;
    cbn [trace outcome final fst snd].
  2: { intros _ Hout Hcls. inversion Hout; subst e. discriminate Hcls. }
  destruct (json_loads C content) as [v |]; cbn [trace outcome final fst snd].
  - rewrite outcome_bind, final_bind.
    unfold os_remove, fs_exists. rewrite Hread. cbn [ret outcome final fst snd].
    intros _ Hout. discriminate Hout.
  - intros _ _ _. unfold fs_exists. rewrite Hread. reflexivity.
Qed.

End Credential.

(** C3, as the spec has it, fails: the check is refused for lack of
    permission, which is not a "not found" answer, and yet the creation
    command is run and the key is returned. *)
Lemma permission_denied_check_still_creates :
  snd (run_process Scenario.denied
         (Shell (describe_cmd (sa_email_of default_sa_name "host") "host")) tt []) =
    Ok Scenario.describe_denied /\
  returncode Scenario.describe_denied = 1%Z /\
  contains "PERMISSION_DENIED" (stderr Scenario.describe_denied) = true /\
  contains "NOT_FOUND" (stderr Scenario.describe_denied) = false /\
  In (Argv (create_cmd default_sa_name "host"))
     (subprocess_calls
        (trace (get_service_account_key Scenario.denied "host" default_sa_name Demo.start))) /\
  outcome (get_service_account_key Scenario.denied "host" default_sa_name Demo.start) =
    Ok (Demo.key_json, sa_email_of default_sa_name "host").
Proof.
  repeat split; try reflexivity.
  vm_compute. right. left. reflexivity.
Qed.

Lemma key_file_outlives_failed_parse_witness :
  In (EOpen key_file)
     (trace (get_service_account_key Scenario.truncated_key "host" default_sa_name Demo.start)) /\
  outcome (get_service_account_key Scenario.truncated_key "host" default_sa_name Demo.start) =
    Raise (error JSONDecodeError "invalid JSON document") /\
  exn_cls (error JSONDecodeError "invalid JSON document") = JSONDecodeError /\
  fs_exists key_file
    (files (final (get_service_account_key Scenario.truncated_key "host" default_sa_name
                     Demo.start))) = true.
Proof.
  assert (Hin : In (EOpen key_file)
                   (trace (get_service_account_key Scenario.truncated_key "host"
                             default_sa_name Demo.start))).
  { vm_compute. repeat first [left; reflexivity | right]. }
  split; [exact Hin |]. split; [reflexivity |]. split; [reflexivity |].
  exact (key_file_outlives_failed_parse Scenario.truncated_key "host" default_sa_name
           Demo.start (error JSONDecodeError "invalid JSON document") Hin eq_refl eq_refl).
Defined.

(** ** Role grants and registrations *)

Section Registration.

Context {W : Type} (C : Collaborators W).

Lemma grant_passes_app (t1 t2 : list event) :
  grant_passes (t1 ++ t2) = (grant_passes t1 ++ grant_passes t2)%list.
Proof. apply flat_map_app. Qed.

Lemma create_calls_app (t1 t2 : list event) :
  create_calls (t1 ++ t2) = (create_calls t1 ++ create_calls t2)%list.
Proof. apply flat_map_app. Qed.

Lemma grant_each_only (project service_account_email : string) (roles : list string) :
  forall s : state W,
    only [KPrint; KSubprocess] (trace (grant_each C project service_account_email roles s)).
Proof.
  induction roles as [| role rest IH]; intros s; cbn [grant_each].
  - apply only_ret.
  - apply only_bind; [unfold grant_one; only_tac | intros; apply IH].
Qed.

(** A pass over a project starts with its banner and then only prints and
    runs commands. *)
Lemma grant_required_roles_spec (project service_account_email : string) (s : state W) :
  grant_passes (trace (grant_required_roles C project service_account_email s)) = [project] /\
  only [KPrint; KGrantBanner; KSubprocess]
    (trace (grant_required_roles C project service_account_email s)).
Proof.
  unfold grant_required_roles. rewrite trace_bind.
  cbn [print emit trace outcome final fst snd].
  pose proof (grant_each_only project service_account_email required_roles s) as Honly.
  split.
  - rewrite grant_passes_app.
    assert (Hnone : grant_passes
                      (trace (grant_each C project service_account_email required_roles s)) = [])
      by absent only_grant_passes Honly.
    rewrite Hnone. reflexivity.
  - apply only_app; [only_list |].
    eapply only_mono; [| exact Honly]. intros k Hk. destruct k; try discriminate; reflexivity.
Qed.

Lemma grant_loop_only (registries : list registry_info) (service_account_email : string) :
  forall (processed : list string) (s : state W),
    only [KPrint; KGrantBanner; KSubprocess]
      (trace (grant_loop C registries service_account_email processed s)).
Proof.
  induction registries as [| registry rest IH]; intros processed s; cbn [grant_loop].
  - apply only_ret.
  - destruct (negb (mem (project_id registry) processed)); [| apply IH].
    apply only_bind; [apply grant_required_roles_spec | intros; apply IH].
Qed.

(** When the loop over the descriptors returns, it made one pass for each
    project it had not processed, at the first descriptor of that project. *)
Lemma grant_loop_passes (registries : list registry_info) (service_account_email : string) :
  forall (processed : list string) (s : state W),
    outcome (grant_loop C registries service_account_email processed s) = Ok tt ->
    grant_passes (trace (grant_loop C registries service_account_email processed s)) =
      first_occurrences registries processed.
Proof.
  induction registries as [| registry rest IH]; intros processed s; cbn [grant_loop first_occurrences].
  - reflexivity.
  - destruct (mem (project_id registry) processed); cbn [negb]; [apply IH |].
    rewrite outcome_bind, trace_bind, grant_passes_app.
    destruct (grant_required_roles_spec (project_id registry) service_account_email s)
      as [Hpass _].
    rewrite Hpass.
    destruct (outcome (grant_required_roles C (project_id registry) service_account_email s));
      [| intros Hx; discriminate Hx].
    intros Hok. cbn [app]. f_equal. apply IH. exact Hok.
Qed.

(** A turn of the loop over the roles runs the command of its role and
    nothing else. *)
Lemma grant_one_commands (project service_account_email role : string) (s : state W) :
  subprocess_calls (trace (grant_one C project service_account_email role s)) =
    [Shell (grant_cmd project service_account_email role)].
Proof.
  unfold grant_one, try_except_class, try_except, bind, subprocess_run, print, emit, raise,
    trace.
  destruct (run_process C (Shell (grant_cmd project service_account_email role))
              (world s) (files s)) as [[w' files'] [p | e]]; cbn [andb fst snd].
  - destruct (negb (returncode p =? 0)%Z); reflexivity.
  - destruct (exn_class_eqb (exn_cls e) CalledProcessError); reflexivity.
Qed.

Lemma grant_each_commands (project service_account_email : string) (roles : list string) :
  forall s : state W,
    outcome (grant_each C project service_account_email roles s) = Ok tt ->
    subprocess_calls (trace (grant_each C project service_account_email roles s)) =
      map (fun role => Shell (grant_cmd project service_account_email role)) roles.
Proof.
  induction roles as [| role rest IH]; intros s; cbn [grant_each map].
  - reflexivity.
  - rewrite outcome_bind, trace_bind, subprocess_calls_app, grant_one_commands.
    destruct (outcome (grant_one C project service_account_email role s));
      [| intros Hx; discriminate Hx].
    intros Hok. cbn [app]. f_equal. apply IH. exact Hok.
Qed.

Lemma grant_required_roles_commands (project service_account_email : string) (s : state W) :
  outcome (grant_required_roles C project service_account_email s) = Ok tt ->
  subprocess_calls (trace (grant_required_roles C project service_account_email s)) =
    grant_commands service_account_email project.
Proof.
  unfold grant_required_roles. rewrite outcome_bind, trace_bind.
  cbn [print emit trace outcome final fst snd app].
  intros Hok. change (subprocess_calls (?e :: ?t)) with (subprocess_calls t).
  apply grant_each_commands. exact Hok.
Qed.

(** When the loop over the descriptors returns, the commands it ran are the
    commands of its passes: for each pass, one command per required role. *)
Lemma grant_loop_commands (registries : list registry_info) (service_account_email : string) :
  forall (processed : list string) (s : state W),
    outcome (grant_loop C registries service_account_email processed s) = Ok tt ->
    subprocess_calls (trace (grant_loop C registries service_account_email processed s)) =
      flat_map (grant_commands service_account_email)
        (grant_passes (trace (grant_loop C registries service_account_email processed s))).
Proof.
  induction registries as [| registry rest IH]; intros processed s; cbn [grant_loop].
  - reflexivity.
  - destruct (mem (project_id registry) processed); cbn [negb]; [apply IH |].
    rewrite outcome_bind, trace_bind, grant_passes_app, subprocess_calls_app, flat_map_app.
    destruct (grant_required_roles_spec (project_id registry) service_account_email s)
      as [Hpass _].
    rewrite Hpass.
    destruct (outcome (grant_required_roles C (project_id registry) service_account_email s))
      as [[] |] eqn:Hone; [| intros Hx; discriminate Hx].
    intros Hok. rewrite (grant_required_roles_commands _ _ _ Hone).
    cbn [flat_map]. rewrite app_nil_r. f_equal. apply IH. exact Hok.
Qed.

Lemma mem_cons (x y : string) (l : list string) :
  mem x (y :: l) = orb (String.eqb x y) (mem x l).
Proof. reflexivity. Qed.

(** [first_occurrences] holds a project once when a descriptor has it and
    it was not processed, and not at all otherwise. *)
Lemma count_first_occurrences (registries : list registry_info) (p : string) :
  forall processed : list string,
    count_occ string_dec (first_occurrences registries processed) p =
    if mem p processed then 0
    else if mem p (map project_id registries) then 1 else 0.
Proof.
  induction registries as [| registry rest IH]; intros processed;
    cbn [first_occurrences map].
  - cbn [count_occ mem existsb]. destruct (mem p processed); reflexivity.
  - rewrite mem_cons.
    destruct (mem (project_id registry) processed) eqn:Hseen.
    + rewrite IH. destruct (mem p processed) eqn:Hp; [reflexivity |].
      destruct (String.eqb p (project_id registry)) eqn:Heq; [| reflexivity].
      apply String.eqb_eq in Heq. subst p. congruence.
    + cbn [count_occ]. rewrite IH, mem_cons.
      destruct (string_dec (project_id registry) p) as [Heq | Hneq].
      * subst p. rewrite String.eqb_refl, Hseen. reflexivity.
      * assert (Hne : String.eqb p (project_id registry) = false).
        { apply String.eqb_neq. congruence. }
        rewrite Hne. reflexivity.
Qed.

Lemma register_one_only (falcon : falcon_client) (registry : registry_info)
    (key : pyval) (results : list registration_result) (s : state W) :
  only [KPrint; KFalconCreate] (trace (register_one C falcon registry key results s)).
Proof. unfold register_one. only_tac. Qed.

(** A turn of the registration loop that returns has made one create call,
    with the payload built for its descriptor. *)
Lemma register_one_spec (falcon : falcon_client) (registry : registry_info)
    (key : pyval) (results results' : list registration_result) (s : state W) :
  outcome (register_one C falcon registry key results s) = Ok results' ->
  exists body,
    request_body registry key = Ok body /\
    create_calls (trace (register_one C falcon registry key results s)) = [body].
Proof.
  unfold register_one. rewrite outcome_bind, trace_bind.
  cbn [lift trace outcome final fst snd].
  destruct (request_body registry key) as [body | e]; [| intros Hx; discriminate Hx].
  intros Hout. exists body. split; [reflexivity |].
  rewrite trace_bind. cbn [print emit trace outcome final fst snd app].
  rewrite trace_bind, trace_call, outcome_call, final_call.
  rewrite outcome_bind in Hout. cbn [print emit trace outcome final fst snd app] in Hout.
  rewrite outcome_bind, outcome_call, final_call in Hout.
  destruct (create_registry_entities C falcon body (world s)) as [w1 [response | e]];
    cbn [fst snd] in *; [| discriminate Hout].
  change (create_calls (?e :: ?t)) with (create_calls t).
  change (create_calls (([EFalconCreate body (Ok response)] ++ ?t)%list))
    with (body :: create_calls t).
  f_equal.
  eapply only_create_calls with (kinds := [KPrint]); [reflexivity |].
  only_tac.
Qed.

Lemma register_each_only (falcon : falcon_client) (registries : list registry_info)
    (key : pyval) :
  forall (results : list registration_result) (s : state W),
    only [KPrint; KFalconCreate] (trace (register_each C falcon registries key results s)).
Proof.
  induction registries as [| registry rest IH]; intros results s; cbn [register_each].
  - apply only_ret.
  - apply only_bind; [apply register_one_only | intros; apply IH].
Qed.

(** When the registration loop returns, it made one create call per
    descriptor, in order, each with the payload of its descriptor. *)
Lemma register_each_calls (falcon : falcon_client) (registries : list registry_info)
    (key : pyval) :
  forall (results results' : list registration_result) (s : state W),
    outcome (register_each C falcon registries key results s) = Ok results' ->
    Forall2 (fun registry body => request_body registry key = Ok body) registries
      (create_calls (trace (register_each C falcon registries key results s))).
Proof.
  induction registries as [| registry rest IH]; intros results results' s;
    cbn [register_each].
  - intros _. constructor.
  - rewrite outcome_bind, trace_bind, create_calls_app.
    destruct (outcome (register_one C falcon registry key results s)) as [results1 |] eqn:Hone;
      [| intros Hx; discriminate Hx].
    destruct (register_one_spec falcon registry key results results1 s Hone)
      as (body & Hbody & Hcall).
    rewrite Hcall. intros Hrest. cbn [app]. constructor; [exact Hbody |].
    eapply IH. exact Hrest.
Qed.

(** A registration answered by a failure that has a status and a body is
    recorded with both, and the loop goes on. *)
Lemma register_one_records_answer (falcon : falcon_client) (registry : registry_info)
    (key body response status : pyval) (answer : list (string * pyval))
    (results : list registration_result) (s : state W) (w1 : W) :
  request_body registry key = Ok body ->
  create_registry_entities C falcon body (world s) = (w1, Ok response) ->
  getitem response "status_code" = Ok status ->
  getitem response "body" = Ok (PDict answer) ->
  outcome (register_one C falcon registry key results s) =
    Ok (results ++ [mkResult (name registry) status (PDict answer)])%list.
Proof.
  intros Hbody Hcreate Hstatus Hanswer.
  assert (Hget : get response "body" (PDict []) = Ok (PDict answer)).
  { unfold getitem in Hanswer. unfold get. destruct response; try discriminate.
    destruct (dict_lookup "body" d); [exact Hanswer | discriminate]. }
  unfold register_one.
  rewrite outcome_bind, Hbody. cbn [lift outcome final fst snd].
  rewrite outcome_bind. cbn [print emit outcome final fst snd].
  rewrite outcome_bind, outcome_call, final_call, Hcreate. cbn [fst snd].
  rewrite outcome_bind, Hstatus. cbn [lift outcome final fst snd].
  rewrite outcome_bind, Hget. cbn [lift outcome final fst snd].
  rewrite outcome_bind.
  destruct (eq_int status 200); cbn [print emit outcome final fst snd]; [reflexivity |].
  rewrite outcome_bind, Hanswer. cbn [lift outcome final fst snd].
  rewrite outcome_bind. unfold get.
  destruct (dict_lookup "errors" answer); reflexivity.
Qed.

(** A create call that raises ends the loop: the exception leaves it and
    the descriptors that follow are not registered. *)
Lemma register_each_stops_at_exception (falcon : falcon_client) (registry : registry_info)
    (rest : list registry_info) (key body : pyval) (results : list registration_result)
    (s : state W) (w1 : W) (e : exn) :
  request_body registry key = Ok body ->
  create_registry_entities C falcon body (world s) = (w1, Raise e) ->
  outcome (register_each C falcon (registry :: rest) key results s) = Raise e /\
  create_calls (trace (register_each C falcon (registry :: rest) key results s)) = [body].
Proof.
  intros Hbody Hcreate. cbn [register_each].
  unfold register_one, bind, lift, print, emit, call, outcome, trace.
  rewrite Hbody. cbn [world files]. rewrite Hcreate. split; reflexivity.
Qed.

Lemma print_failures_only (results : list registration_result) :
  forall s : state W, only [KPrint] (trace (print_failures (W := W) results s)).
Proof.
  induction results as [| result rest IH]; intros s; cbn [print_failures].
  - apply only_ret.
  - apply only_bind; [only_tac | intros; apply IH].
Qed.

End Registration.

Section ProvisionRun.

Context {W : Type} (C : Collaborators W).

(** C9. In a provision run that discovered a non-empty list of descriptors
    and returned, every project that occurs in the list got exactly one
    role-grant pass, however many descriptors it has, and no other project
    got one; the commands run after those of the credential are the
    commands of these passes, one per required role and pass; and the
    create calls are one per descriptor, in the order of the list, each
    with the payload built for its descriptor. *)
Theorem one_grant_pass_per_project
    (host_project falcon_client_id falcon_client_secret : string) (s : state W)
    (registries : list registry_info) :
  outcome (list_gcp_registries C s) = Ok registries ->
  registries <> [] ->
  outcome (provision_registries C host_project falcon_client_id falcon_client_secret s) =
    Ok tt ->
  (forall p,
     count_occ string_dec
       (grant_passes
          (trace (provision_registries C host_project falcon_client_id
                    falcon_client_secret s))) p =
     if mem p (map project_id registries) then 1 else 0) /\
  (exists service_account_email credential_commands,
     subprocess_calls
       (trace (provision_registries C host_project falcon_client_id
                 falcon_client_secret s)) =
     (credential_commands ++
      flat_map (grant_commands service_account_email)
        (grant_passes
           (trace (provision_registries C host_project falcon_client_id
                     falcon_client_secret s))))%list /\
     grant_passes
       (trace (get_service_account_key C host_project default_sa_name
                 (final (list_gcp_registries C s)))) = [] /\
     credential_commands =
       subprocess_calls
         (trace (get_service_account_key C host_project default_sa_name
                   (final (list_gcp_registries C s))))) /\
  exists key,
    Forall2 (fun registry body => request_body registry key = Ok body) registries
      (create_calls
         (trace (provision_registries C host_project falcon_client_id
                   falcon_client_secret s))).
Proof.
  intros Hfound Hne.
  pose proof (list_gcp_registries_only C s) as Hdisc.
  unfold provision_registries. rewrite trace_bind, outcome_bind, Hfound.
  destruct registries as [| r0 rs]; [contradiction |].
  set (regs := r0 :: rs) in *. set (s1 := final (list_gcp_registries C s)).
  cbv iota.
  rewrite trace_bind, outcome_bind. cbn [print emit trace outcome final fst snd].
  rewrite trace_bind, outcome_bind.
  pose proof (get_service_account_key_only C host_project default_sa_name s1) as Hkey.
  destruct (outcome (get_service_account_key C host_project default_sa_name s1))
    as [[key email] |]; [| intros Hx; discriminate Hx].
  set (s2 := final (get_service_account_key C host_project default_sa_name s1)).
  cbn [fst snd].
  rewrite trace_bind, outcome_bind.
  pose proof (grant_loop_only C regs email [] s2) as Hgrant.
  pose proof (grant_loop_passes C regs email [] s2) as Hpasses.
  pose proof (grant_loop_commands C regs email [] s2) as Hcommands.
  destruct (outcome (grant_loop C regs email [] s2)) as [[] |]; [| intros Hx; discriminate Hx].
  specialize (Hpasses eq_refl). specialize (Hcommands eq_refl).
  set (s3 := final (grant_loop C regs email [] s2)).
  rewrite trace_bind, outcome_bind.
  unfold register_with_falcon.
  set (falcon := FalconContainer falcon_client_id falcon_client_secret).
  pose proof (register_each_only C falcon regs key [] s3) as Hreg.
  destruct (outcome (register_each C falcon regs key [] s3)) as [results |] eqn:Hregout;
    [| intros Hx; discriminate Hx].
  pose proof (register_each_calls C falcon regs key [] results s3 Hregout) as Hcalls.
  intros _.
  match goal with
  | |- context [(trace (register_each C falcon regs key [] s3) ++ ?summary)%list] =>
      assert (Hsummary : only [KPrint] summary); [| set (t_summary := summary) in *]
  end.
  { only_tac. apply print_failures_only. }
  assert (Hd1 : grant_passes (trace (list_gcp_registries C s)) = [])
    by absent only_grant_passes Hdisc.
  assert (Hd2 : create_calls (trace (list_gcp_registries C s)) = [])
    by absent only_create_calls Hdisc.
  assert (Hk1 : grant_passes (trace (get_service_account_key C host_project default_sa_name s1)) = [])
    by absent only_grant_passes Hkey.
  assert (Hk2 : create_calls (trace (get_service_account_key C host_project default_sa_name s1)) = [])
    by absent only_create_calls Hkey.
  assert (Hg2 : create_calls (trace (grant_loop C regs email [] s2)) = [])
    by absent only_create_calls Hgrant.
  assert (Hr1 : grant_passes (trace (register_each C falcon regs key [] s3)) = [])
    by absent only_grant_passes Hreg.
  assert (Hs1 : grant_passes t_summary = []) by absent only_grant_passes Hsummary.
  assert (Hs2 : create_calls t_summary = []) by absent only_create_calls Hsummary.
  assert (Hd3 : subprocess_calls (trace (list_gcp_registries C s)) = [])
    by absent only_subprocess_calls Hdisc.
  assert (Hr3 : subprocess_calls (trace (register_each C falcon regs key [] s3)) = [])
    by absent only_subprocess_calls Hreg.
  assert (Hs3 : subprocess_calls t_summary = []) by absent only_subprocess_calls Hsummary.
  assert (Hall :
    grant_passes
      (trace (list_gcp_registries C s) ++
       [EPrint [PStr (LF ++ "Found "); PInt (Z.of_nat (List.length regs)); PStr " registries"]] ++
       trace (get_service_account_key C host_project default_sa_name s1) ++
       trace (grant_loop C regs email [] s2) ++
       trace (register_each C falcon regs key [] s3) ++ t_summary) =
    grant_passes (trace (grant_loop C regs email [] s2))).
  { rewrite !grant_passes_app, Hd1, Hk1, Hr1, Hs1.
    change (grant_passes [EPrint [PStr (LF ++ "Found "); ?n; PStr " registries"]])
      with (@nil string).
    cbn [app]. apply app_nil_r. }
  split; [| split].
  - intros p. rewrite Hall, Hpasses. rewrite count_first_occurrences. reflexivity.
  - exists email, (subprocess_calls (trace (get_service_account_key C host_project
                                              default_sa_name s1))).
    split; [| split; [exact Hk1 | reflexivity]].
    rewrite Hall, <- Hcommands.
    rewrite !subprocess_calls_app, Hd3, Hr3, Hs3.
    cbn [app subprocess_calls flat_map]. rewrite app_nil_r. reflexivity.
  - exists key. rewrite !create_calls_app, Hd2, Hk2, Hg2, Hs2.
    cbn [app create_calls flat_map]. rewrite app_nil_r. exact Hcalls.
Qed.
End ProvisionRun.

Lemma one_grant_pass_per_project_witness :
  outcome (list_gcp_registries (Demo.happy "y") Demo.start) = Ok Scenario.discovered /\
  Scenario.discovered <> [] /\
  outcome (provision_registries (Demo.happy "y") "host" "id" "secret" Demo.start) = Ok tt /\
  (forall p,
     count_occ string_dec
       (grant_passes
          (trace (provision_registries (Demo.happy "y") "host" "id" "secret" Demo.start))) p =
     if mem p (map project_id Scenario.discovered) then 1 else 0) /\
  (exists service_account_email credential_commands,
     subprocess_calls
       (trace (provision_registries (Demo.happy "y") "host" "id" "secret" Demo.start)) =
     (credential_commands ++
      flat_map (grant_commands service_account_email)
        (grant_passes
           (trace (provision_registries (Demo.happy "y") "host" "id" "secret"
                     Demo.start))))%list /\
     grant_passes
       (trace (get_service_account_key (Demo.happy "y") "host" default_sa_name
                 (final (list_gcp_registries (Demo.happy "y") Demo.start)))) = [] /\
     credential_commands =
       subprocess_calls
         (trace (get_service_account_key (Demo.happy "y") "host" default_sa_name
                   (final (list_gcp_registries (Demo.happy "y") Demo.start))))) /\
  exists key,
    Forall2 (fun registry body => request_body registry key = Ok body) Scenario.discovered
      (create_calls
         (trace (provision_registries (Demo.happy "y") "host" "id" "secret" Demo.start))).
Proof.
  assert (Hfound : outcome (list_gcp_registries (Demo.happy "y") Demo.start) =
                   Ok Scenario.discovered) by (vm_compute; reflexivity).
  assert (Hne : Scenario.discovered <> []) by discriminate.
  assert (Hok : outcome (provision_registries (Demo.happy "y") "host" "id" "secret"
                           Demo.start) = Ok tt) by (vm_compute; reflexivity).
  split; [exact Hfound |]. split; [exact Hne |]. split; [exact Hok |].
  exact (one_grant_pass_per_project (Demo.happy "y") "host" "id" "secret" Demo.start
           Scenario.discovered Hfound Hne Hok).
Defined.

(** ** The registration batch *)

Section RegistrationBatch.

Context {W : Type} (C : Collaborators W).

Lemma create_answers_app (t1 t2 : list event) :
  create_answers (t1 ++ t2) = (create_answers t1 ++ create_answers t2)%list.
Proof. unfold create_answers. apply flat_map_app. Qed.

Lemma request_body_of_key_object (registry : registry_info) (fields : list (string * pyval)) :
  exists body, request_body registry (PDict fields) = Ok body.
Proof.
  unfold request_body. rewrite !get_key_field. cbn [result_bind]. eexists. reflexivity.
Qed.

(** A turn of the registration loop whose create call is answered records
    the status and the body of the answer, and returns. *)
Lemma register_one_answered (falcon : falcon_client) (registry : registry_info)
    (key body : pyval) (results : list registration_result) (s : state W) (w1 : W)
    (answer : result pyval) (status response_body : pyval) :
  request_body registry key = Ok body ->
  create_registry_entities C falcon body (world s) = (w1, answer) ->
  answered answer status response_body ->
  outcome (register_one C falcon registry key results s) =
    Ok (results ++ [mkResult (name registry) status response_body])%list /\
  create_answers (trace (register_one C falcon registry key results s)) = [(body, answer)].
Proof.
  intros Hbody Hcreate (response & -> & Hstatus & Hanswer & Hdict).
  destruct response_body as [| | | | | fields]; try discriminate Hdict.
  assert (Hget : get response "body" (PDict []) = Ok (PDict fields)).
  { unfold getitem in Hanswer. unfold get. destruct response; try discriminate.
    destruct (dict_lookup "body" d); [exact Hanswer | discriminate]. }
  unfold register_one, bind, lift, print, emit, call, ret, outcome, trace.
  rewrite Hbody. cbn [world files fst snd]. rewrite Hcreate. cbn [fst snd].
  rewrite Hstatus, Hget. cbn [fst snd].
  destruct (eq_int status 200); cbn [fst snd].
  - split; reflexivity.
  - rewrite Hanswer. unfold get. destruct (dict_lookup "errors" fields); split; reflexivity.
Qed.

(** C6. The Falcon client answers every create call by a response with
    a status code and a body, whether the registration succeeded or failed.
    Then [register_with_falcon] returns for every list of descriptors and
    every key record: it made exactly one create call per descriptor, in
    the order of the list and with the payload of the descriptor, and it
    returned one result per descriptor, under the name of the descriptor,
    that holds the status and the body of the answer to its call.  A
    failed registration is so recorded in the result of its descriptor, and
    the descriptors after it are registered all the same. *)
Theorem every_descriptor_is_registered_and_recorded (registries : list registry_info)
    (fields : list (string * pyval)) (falcon_client_id falcon_client_secret : string)
    (s : state W) :
  (forall body w, exists status response_body,
      answered
        (snd (create_registry_entities C
                (FalconContainer falcon_client_id falcon_client_secret) body w))
        status response_body) ->
  let run := register_with_falcon C registries (PDict fields)
               falcon_client_id falcon_client_secret s in
  exists results,
    outcome run = Ok results /\
    Forall2 (fun registry call => request_body registry (PDict fields) = Ok (fst call))
      registries (create_answers (trace run)) /\
    Forall2 (fun registry r => res_registry r = name registry) registries results /\
    Forall2 (fun call r => answered (snd call) (res_status r) (res_response r))
      (create_answers (trace run)) results.
Proof.
  intros Hcontract. unfold register_with_falcon. cbv zeta.
  set (falcon := FalconContainer falcon_client_id falcon_client_secret) in *.
  revert s.
  assert (Hloop : forall (results : list registration_result) (s : state W),
    exists added,
      outcome (register_each C falcon registries (PDict fields) results s) =
        Ok (results ++ added)%list /\
      Forall2 (fun registry call => request_body registry (PDict fields) = Ok (fst call))
        registries
        (create_answers (trace (register_each C falcon registries (PDict fields) results s))) /\
      Forall2 (fun registry r => res_registry r = name registry) registries added /\
      Forall2 (fun call r => answered (snd call) (res_status r) (res_response r))
        (create_answers (trace (register_each C falcon registries (PDict fields) results s)))
        added).
  { induction registries as [| registry rest IH]; intros results s; cbn [register_each].
    - exists []. rewrite app_nil_r. repeat split; constructor.
    - destruct (request_body_of_key_object registry fields) as [body Hbody].
      destruct (Hcontract body (world s)) as (status & response_body & Hanswered).
      destruct (create_registry_entities C falcon body (world s)) as [w1 answer] eqn:Hcreate.
      cbn [snd] in Hanswered.
      destruct (register_one_answered falcon registry (PDict fields) body results s w1 answer
                  status response_body Hbody Hcreate Hanswered) as [Hone Hcalls].
      rewrite outcome_bind, trace_bind, create_answers_app, Hone, Hcalls.
      destruct (IH (results ++ [mkResult (name registry) status response_body])%list
                  (final (register_one C falcon registry (PDict fields) results s)))
        as (added & Hout & Hbodies & Hnames & Hrecorded).
      exists (mkResult (name registry) status response_body :: added).
      split; [rewrite Hout, <- app_assoc; reflexivity |].
      cbn [app]. split; [| split].
      + constructor; [exact Hbody | exact Hbodies].
      + constructor; [reflexivity | exact Hnames].
      + constructor; [exact Hanswered | exact Hrecorded]. }
  intros s. destruct (Hloop [] s) as (added & Hout & Hbodies & Hnames & Hrecorded).
  exists added. cbn [app] in Hout. repeat split; assumption.
Qed.

End RegistrationBatch.

(** The client of [Scenario.duplicate] answers every create call: the
    rejected one with status 409 and its errors. *)
Lemma duplicate_answers_every_create_call (falcon : falcon_client) :
  forall body (w : unit), exists status response_body,
    answered (snd (create_registry_entities Scenario.duplicate falcon body w))
      status response_body.
Proof.
  intros body w. unfold Scenario.duplicate, Demo.collaborators, Scenario.reject_r1.
  cbn [create_registry_entities snd].
  destruct (match lookup_path ["url_uniqueness_key"] body with
            | Some key => eq_str key "p1/r1"
            | None => false
            end).
  - exists (PInt 409), (PDict [("errors", PList [PStr "registry already exists"])]).
    eexists. repeat split.
  - exists (PInt 200), (PDict []). eexists. repeat split.
Defined.

Lemma every_descriptor_is_registered_and_recorded_witness :
  (forall body (w : unit), exists status response_body,
      answered
        (snd (create_registry_entities Scenario.duplicate (FalconContainer "id" "secret")
                body w))
        status response_body) /\
  exists results,
    outcome (register_with_falcon Scenario.duplicate [Scenario.r1; Scenario.r2]
               Demo.key_json "id" "secret" Demo.start) = Ok results /\
    Forall2 (fun registry call => request_body registry Demo.key_json = Ok (fst call))
      [Scenario.r1; Scenario.r2]
      (create_answers
         (trace (register_with_falcon Scenario.duplicate [Scenario.r1; Scenario.r2]
                   Demo.key_json "id" "secret" Demo.start))) /\
    Forall2 (fun registry r => res_registry r = name registry)
      [Scenario.r1; Scenario.r2] results /\
    Forall2 (fun call r => answered (snd call) (res_status r) (res_response r))
      (create_answers
         (trace (register_with_falcon Scenario.duplicate [Scenario.r1; Scenario.r2]
                   Demo.key_json "id" "secret" Demo.start)))
      results.
Proof.
  split; [exact (duplicate_answers_every_create_call (FalconContainer "id" "secret")) |].
  exact (every_descriptor_is_registered_and_recorded Scenario.duplicate
           [Scenario.r1; Scenario.r2]
           [("type", PStr "service_account"); ("project_id", PStr "host");
            ("private_key_id", PStr "kid"); ("private_key", PStr "secret");
            ("client_email", PStr "crowdstrike-registry-scanner@host.iam.gserviceaccount.com");
            ("client_id", PStr "42")]
           "id" "secret" Demo.start
           (duplicate_answers_every_create_call (FalconContainer "id" "secret"))).
Defined.

(** The loop itself has no handler, so the hypothesis on the client is
    needed.  Two descriptors are to be registered: were the create call for
    the first to raise, the exception would leave [register_with_falcon]
    and the second descriptor would not be registered; the same with a
    [KeyError], were the first call answered without a body. *)
Lemma unanswered_create_call_ends_batch :
  (outcome (register_with_falcon Scenario.connection_lost [Scenario.r1; Scenario.r2]
              Demo.key_json "id" "secret" Demo.start) =
     Raise (mkExn ApiError "Connection reset by peer" "") /\
   List.length
     (create_calls
        (trace (register_with_falcon Scenario.connection_lost [Scenario.r1; Scenario.r2]
                  Demo.key_json "id" "secret" Demo.start))) = 1) /\
  (outcome (register_with_falcon Scenario.no_body [Scenario.r1; Scenario.r2]
              Demo.key_json "id" "secret" Demo.start) =
     Raise (error KeyError "'body'") /\
   List.length
     (create_calls
        (trace (register_with_falcon Scenario.no_body [Scenario.r1; Scenario.r2]
                  Demo.key_json "id" "secret" Demo.start))) = 1).
Proof. repeat split; vm_compute; reflexivity. Qed.

(** * Further properties *)

(** ** The string operations of the script *)

Lemma lower_ascii_y (c : ascii) :
  lower_ascii c = "y"%char -> c = "y"%char \/ c = "Y"%char.
Proof.
  destruct c as [[] [] [] [] [] [] [] []]; vm_compute; intros H;
    first [discriminate H | left; reflexivity | right; reflexivity].
Qed.

(** X1. The answers that lower to ["y"] are ["y"] and ["Y"], and no
    other string. *)
Theorem lower_is_y_iff (s : string) : lower s = "y" <-> s = "y" \/ s = "Y".
Proof.
  split.
  - destruct s as [| c [| c' s']]; simpl; intros H; try discriminate H.
    inversion H as [Hc]. destruct (lower_ascii_y c Hc) as [-> | ->]; [left | right]; reflexivity.
  - intros [-> | ->]; reflexivity.
Qed.

Lemma string_app_nil_r (s : string) : s ++ "" = s.
Proof. induction s as [| c s IH]; simpl; [reflexivity | rewrite IH; reflexivity]. Qed.

Lemma string_app_assoc (a b c : string) : (a ++ b) ++ c = a ++ (b ++ c).
Proof. induction a as [| x a IH]; simpl; [reflexivity | rewrite IH; reflexivity]. Qed.

Lemma has_char_app (c : ascii) (a b : string) :
  has_char c (a ++ b) = orb (has_char c a) (has_char c b).
Proof.
  induction a as [| x a IH]; simpl; [reflexivity |].
  rewrite IH, orb_assoc. reflexivity.
Qed.

Lemma split_aux_not_nil (sep : ascii) (s : string) :
  forall cur, split_aux sep s cur <> [].
Proof.
  induction s as [| c s IH]; intros cur; simpl; [discriminate |].
  destruct (Ascii.eqb c sep); [discriminate | apply IH].
Qed.

Lemma last_cons_not_nil {A} (x d : A) (l : list A) :
  l <> [] -> List.last (x :: l) d = List.last l d.
Proof. destruct l; [contradiction | reflexivity]. Qed.

Lemma split_aux_last_clean (sep : ascii) (s : string) :
  forall cur,
    has_char sep cur = false ->
    has_char sep (last_item (split_aux sep s cur)) = false.
Proof.
  induction s as [| c s IH]; intros cur Hcur; simpl.
  - exact Hcur.
  - destruct (Ascii.eqb c sep) eqn:Hc.
    + unfold last_item. rewrite last_cons_not_nil by apply split_aux_not_nil.
      apply IH. reflexivity.
    + apply IH. rewrite has_char_app, Hcur. simpl. rewrite Hc. reflexivity.
Qed.

Lemma split_aux_clean (sep : ascii) (s : string) :
  forall cur, has_char sep s = false -> split_aux sep s cur = [cur ++ s].
Proof.
  induction s as [| c s IH]; intros cur Hs; simpl in *.
  - rewrite string_app_nil_r. reflexivity.
  - apply orb_false_elim in Hs. destruct Hs as [Hc Hs]. rewrite Hc.
    rewrite IH by exact Hs. rewrite string_app_assoc. reflexivity.
Qed.

Lemma split_aux_last_tail (sep : ascii) (prefix tail : string) :
  forall cur,
    last_item (split_aux sep (prefix ++ String sep tail) cur) =
    last_item (split_aux sep tail "").
Proof.
  induction prefix as [| c prefix IH]; intros cur; simpl.
  - rewrite Ascii.eqb_refl. unfold last_item.
    apply last_cons_not_nil. apply split_aux_not_nil.
  - destruct (Ascii.eqb c sep).
    + unfold last_item. rewrite last_cons_not_nil by apply split_aux_not_nil. apply IH.
    + apply IH.
Qed.

(** X2. The repository id taken from a resource name,
    [name.split('/')[-1]], never contains a slash, and it is what follows
    the last slash of the name: for a name [prefix/tail] whose [tail] has no
    slash it is [tail]. *)
Theorem last_segment_of_name (prefix tail name : string) :
  has_char "/" (last_item (split "/" name)) = false /\
  (has_char "/" tail = false ->
   last_item (split "/" (prefix ++ String "/" tail)) = tail).
Proof.
  split.
  - apply split_aux_last_clean. reflexivity.
  - intros Htail. unfold split. rewrite split_aux_last_tail.
    rewrite split_aux_clean by exact Htail. reflexivity.
Qed.

Lemma last_segment_of_name_witness :
  has_char "/" "r1" = false /\
  has_char "/"
    (last_item (split "/" "projects/p1/locations/us-central1/repositories/r1")) = false /\
  (has_char "/" "r1" = false ->
   last_item (split "/" ("projects/p1/locations/us-central1/repositories" ++ String "/" "r1")) =
   "r1").
Proof.
  split; [reflexivity |].
  exact (last_segment_of_name "projects/p1/locations/us-central1/repositories" "r1"
           "projects/p1/locations/us-central1/repositories/r1").
Defined.

(** One step of [splitlines_aux] at a byte that starts no line boundary. *)
Lemma splitlines_aux_step (c : ascii) (s' cur : string) :
  is_linebreak c = false ->
  starts_wide_break (String c s') = false ->
  splitlines_aux (String c s') cur false = splitlines_aux s' (cur ++ String c "") false.
Proof.
  intros Hc Hwide. cbn [splitlines_aux andb]. rewrite Hc.
  destruct s' as [| c2 [| c3 s3]]; cbn [starts_wide_break] in Hwide.
  - reflexivity.
  - rewrite orb_false_r in Hwide. rewrite Hwide. reflexivity.
  - apply orb_false_elim in Hwide. destruct Hwide as [Hnel Hls].
    rewrite Hnel, Hls. reflexivity.
Qed.

(** A line that holds no boundary starts none with the line feed that
    follows it either: the line feed is no byte of a wide boundary. *)
Lemma starts_wide_break_line (c : ascii) (line rest : string) :
  starts_wide_break (String c line) = false ->
  starts_wide_break (String c (line ++ LF ++ rest)) = false.
Proof.
  intros Hhere.
  destruct line as [| c2 [| c3 line3]].
  - change (String c ("" ++ LF ++ rest)) with (String c (String "010" rest)).
    cbn [starts_wide_break].
    assert (Hnel : is_nel c "010" = false).
    { unfold is_nel. change (is_byte 133 "010") with false. apply andb_false_r. }
    rewrite Hnel. destruct rest as [| c3 rest']; [reflexivity |].
    unfold is_ls_or_ps. change (is_byte 128 "010") with false.
    rewrite andb_false_r. reflexivity.
  - change (String c (String c2 "" ++ LF ++ rest))
      with (String c (String c2 (String "010" rest))).
    cbn [starts_wide_break] in *. rewrite orb_false_r in Hhere. rewrite Hhere.
    unfold is_ls_or_ps. change (is_byte 168 "010") with false.
    change (is_byte 169 "010") with false. rewrite !andb_false_r. reflexivity.
  - change (String c (String c2 (String c3 line3) ++ LF ++ rest))
      with (String c (String c2 (String c3 (line3 ++ LF ++ rest)))).
    cbn [starts_wide_break] in *. exact Hhere.
Qed.

Lemma has_linebreak_head (c : ascii) (line : string) :
  has_linebreak (String c line) = false ->
  is_linebreak c = false /\ starts_wide_break (String c line) = false /\
  has_linebreak line = false.
Proof.
  cbn [has_linebreak]. intros H.
  apply orb_false_elim in H. destruct H as [H Hline].
  apply orb_false_elim in H. destruct H as [Hc Hwide]. auto.
Qed.

Lemma splitlines_aux_line (line : string) :
  forall cur rest,
    has_linebreak line = false ->
    splitlines_aux (line ++ LF ++ rest) cur false =
    (cur ++ line) :: splitlines_aux rest "" false.
Proof.
  induction line as [| c line IH]; intros cur rest Hline.
  - rewrite string_app_nil_r. reflexivity.
  - apply has_linebreak_head in Hline. destruct Hline as (Hc & Hwide & Hline).
    change (String c line ++ LF ++ rest) with (String c (line ++ LF ++ rest)).
    rewrite splitlines_aux_step;
      [| exact Hc | apply starts_wide_break_line; exact Hwide].
    rewrite IH by exact Hline.
    rewrite string_app_assoc. reflexivity.
Qed.

(** The boundaries outside ASCII split a text as the others do, and a
    carriage return with its line feed is one boundary. *)
Example splitlines_wide_boundaries :
  let byte := fun n => String (ascii_of_nat n) "" in
  splitlines ("a" ++ byte 194 ++ byte 133 ++ "b" ++ byte 226 ++ byte 128 ++ byte 168 ++
              "c" ++ byte 226 ++ byte 128 ++ byte 169 ++ "d" ++ byte 13 ++ byte 10 ++
              "e" ++ byte 226 ++ byte 128 ++ byte 170 ++ "f") =
  ["a"; "b"; "c"; "d"; "e" ++ byte 226 ++ byte 128 ++ byte 170 ++ "f"].
Proof. reflexivity. Qed.

(** X3. [str.splitlines] gives back the lines of a text in which every
    line is followed by a line feed, when no line holds a line boundary of
    its own; so an address is found in the output of the listing command
    exactly when it is one of its lines. *)
Theorem splitlines_join_lines (lines : list string) (x : string) :
  Forall (fun line => has_linebreak line = false) lines ->
  splitlines (join_lines lines) = lines /\
  mem x (splitlines (join_lines lines)) = mem x lines.
Proof.
  intros Hlines.
  assert (Hsplit : splitlines (join_lines lines) = lines).
  { unfold splitlines. induction Hlines as [| line rest Hline _ IH]; cbn [join_lines].
    - reflexivity.
    - rewrite splitlines_aux_line by exact Hline. cbn [append]. rewrite IH. reflexivity. }
  rewrite Hsplit. split; reflexivity.
Qed.

Lemma splitlines_join_lines_witness :
  Forall (fun line => has_linebreak line = false)
    ["a@host.iam.gserviceaccount.com"; ""; "b@host.iam.gserviceaccount.com"] /\
  splitlines (join_lines ["a@host.iam.gserviceaccount.com"; "";
                          "b@host.iam.gserviceaccount.com"]) =
    ["a@host.iam.gserviceaccount.com"; ""; "b@host.iam.gserviceaccount.com"] /\
  mem "b@host.iam.gserviceaccount.com"
    (splitlines (join_lines ["a@host.iam.gserviceaccount.com"; "";
                             "b@host.iam.gserviceaccount.com"])) =
  mem "b@host.iam.gserviceaccount.com"
    ["a@host.iam.gserviceaccount.com"; ""; "b@host.iam.gserviceaccount.com"].
Proof.
  assert (H : Forall (fun line => has_linebreak line = false)
                ["a@host.iam.gserviceaccount.com"; ""; "b@host.iam.gserviceaccount.com"]).
  { repeat constructor. }
  split; [exact H |].
  exact (splitlines_join_lines
           ["a@host.iam.gserviceaccount.com"; ""; "b@host.iam.gserviceaccount.com"]
           "b@host.iam.gserviceaccount.com" H).
Defined.

(** ** The entry point *)

Section EntryPoint.

Context {W : Type} (C : Collaborators W).

(** X4. When one of the three environment variables is unset or empty,
    [main] raises a [ValueError] before it prints or calls anything,
    whichever mode was asked for. *)
Theorem main_rejects_missing_configuration (deprovision : bool)
    (environ : string -> option string) (s : state W) :
  andb (env_truthy (environ "GCP_HOST_PROJECT"))
       (andb (env_truthy (environ "FALCON_CLIENT_ID"))
             (env_truthy (environ "FALCON_CLIENT_SECRET"))) = false ->
  exists e,
    main C deprovision environ s = (s, [], Raise e) /\ exn_cls e = ValueError.
Proof.
  intros Hmissing. unfold main.
  destruct (environ "GCP_HOST_PROJECT") as [host |];
    [| eexists; split; reflexivity].
  destruct (environ "FALCON_CLIENT_ID") as [id |];
    [| eexists; split; reflexivity].
  destruct (environ "FALCON_CLIENT_SECRET") as [secret |];
    [| eexists; split; reflexivity].
  rewrite Hmissing. cbn [negb]. eexists; split; reflexivity.
Qed.

End EntryPoint.

Lemma main_rejects_missing_configuration_witness :
  andb (env_truthy (Scenario.unset "GCP_HOST_PROJECT"))
       (andb (env_truthy (Scenario.unset "FALCON_CLIENT_ID"))
             (env_truthy (Scenario.unset "FALCON_CLIENT_SECRET"))) = false /\
  exists e,
    main (Demo.happy "y") true Scenario.unset Demo.start = (Demo.start, [], Raise e) /\
    exn_cls e = ValueError.
Proof.
  split; [reflexivity |].
  exact (main_rejects_missing_configuration (Demo.happy "y") true Scenario.unset
           Demo.start eq_refl).
Defined.

(** ** The credential cleanup *)

Section CredentialCleanup.

Context {W : Type} (C : Collaborators W).

(** X6. The credential cleanup never raises.  It runs the listing
    command, and it runs the delete command after it exactly when the
    listing exited with status zero and the address of the service account
    is one of the lines it printed; a deletion that fails is only
    reported. *)
Theorem cleanup_service_account_commands (project sa_name : string) (s : state W) :
  outcome (cleanup_service_account C project sa_name s) = Ok tt /\
  subprocess_calls (trace (cleanup_service_account C project sa_name s)) =
    match snd (run_process C (Shell (list_cmd project)) (world s) (files s)) with
    | Ok listed =>
        if andb (Z.eqb (returncode listed) 0)
                (mem (sa_email_of sa_name project) (splitlines (stdout listed)))
        then [Shell (list_cmd project);
              Shell (delete_cmd (sa_email_of sa_name project) project)]
        else [Shell (list_cmd project)]
    | Raise _ => [Shell (list_cmd project)]
    end.
Proof.
  split; [apply cleanup_service_account_spec |].
  unfold cleanup_service_account, try_except, bind, subprocess_run, print, emit, trace.
  destruct (run_process C (Shell (list_cmd project)) (world s) (files s))
    as [[w1 files1] [listed | e]]; cbn [andb fst snd world files negb]; [| reflexivity].
  destruct (Z.eqb (returncode listed) 0); cbn [negb andb]; [| reflexivity].
  destruct (mem (sa_email_of sa_name project) (splitlines (stdout listed)));
    cbn [negb world files fst snd]; [| reflexivity].
  destruct (run_process C (Shell (delete_cmd (sa_email_of sa_name project) project)) w1 files1)
    as [[w2 files2] [deleted | e]]; cbn [fst snd]; [| reflexivity].
  destruct (Z.eqb (returncode deleted) 0); reflexivity.
Qed.

End CredentialCleanup.

(** ** The removal of the registrations *)

Section Removal.

Context {W : Type} (C : Collaborators W).

(** X7. When the listing of the registered entries raises, a deprovision
    run ends with that exception at once: the credential cleanup that
    follows the removal in [main] is not reached and no command is run. *)
Theorem listing_exception_skips_credential_cleanup
    (environ : string -> option string) (s : state W)
    (host_project falcon_client_id falcon_client_secret : string) (w1 : W) (e : exn) :
  environ "GCP_HOST_PROJECT" = Some host_project ->
  environ "FALCON_CLIENT_ID" = Some falcon_client_id ->
  environ "FALCON_CLIENT_SECRET" = Some falcon_client_secret ->
  andb (env_truthy (Some host_project))
       (andb (env_truthy (Some falcon_client_id))
             (env_truthy (Some falcon_client_secret))) = true ->
  read_registry_entities C (FalconContainer falcon_client_id falcon_client_secret) (world s) =
    (w1, Raise e) ->
  outcome (main C true environ s) = Raise e /\
  subprocess_calls (trace (main C true environ s)) = [].
Proof.
  intros Hhost Hid Hsecret Hset Hread.
  unfold main. rewrite Hhost, Hid, Hsecret, Hset. cbn [negb].
  unfold cleanup_falcon_registries, bind, print, emit, call, outcome, trace.
  cbn [world files]. rewrite Hread. split; reflexivity.
Qed.

(** X8. When the listing of the registered entries is answered with a
    status other than 200, or with status 200 and no id, the removal
    returns after one printed note: no detail is fetched, the operator is
    not asked and nothing is deleted. *)
Theorem refused_or_empty_listing_removes_nothing
    (falcon_client_id falcon_client_secret : string) (s : state W) (w1 : W)
    (response status : pyval) :
  read_registry_entities C (FalconContainer falcon_client_id falcon_client_secret) (world s) =
    (w1, Ok response) ->
  getitem response "status_code" = Ok status ->
  (eq_int status 200 = false \/
   exists body ids,
     getitem response "body" = Ok body /\ getitem body "resources" = Ok ids /\
     truthy ids = false) ->
  exists note,
    cleanup_falcon_registries C falcon_client_id falcon_client_secret s =
    (mkState w1 (files s),
     [EPrint [PStr (LF ++ "Listing existing registry registrations in Falcon...")];
      EFalconList (Ok response);
      EPrint [PStr note]],
     Ok tt).
Proof.
  intros Hread Hstatus Hcase.
  unfold cleanup_falcon_registries, bind, print, emit, call, lift.
  cbn [world files]. rewrite Hread, Hstatus.
  destruct (eq_int status 200) eqn:Hok; cbn [negb].
  - destruct Hcase as [Hx | (body & ids & Hbody & Hids & Hempty)]; [discriminate Hx |].
    rewrite Hbody, Hids, Hempty. cbn [negb]. eexists. reflexivity.
  - eexists. reflexivity.
Qed.

Lemma detail_calls_app (t1 t2 : list event) :
  detail_calls (t1 ++ t2) = (detail_calls t1 ++ detail_calls t2)%list.
Proof. apply flat_map_app. Qed.

Lemma fetch_gar_detail_calls (falcon : falcon_client) (registry_id : pyval)
    (acc : list gar_entry) (s : state W) :
  detail_calls (trace (fetch_gar C falcon registry_id acc s)) = [registry_id] /\
  exists acc', outcome (fetch_gar C falcon registry_id acc s) = Ok acc'.
Proof.
  unfold fetch_gar, try_except, bind, call, print, emit, lift, ret, outcome, trace.
  destruct (read_registry_entities_by_uuid C falcon registry_id (world s))
    as [w' [details | e]]; cbn [fst snd app]; [| split; [reflexivity | eexists; reflexivity]].
  destruct (getitem details "status_code") as [status_code | e]; cbn [fst snd app];
    [| split; [reflexivity | eexists; reflexivity]].
  destruct (eq_int status_code 200); cbn [fst snd app];
    [| split; [reflexivity | eexists; reflexivity]].
  destruct (getitem details "body") as [body | e]; cbn [fst snd app];
    [| split; [reflexivity | eexists; reflexivity]].
  destruct (get body "resources" (PList [PDict []])) as [resources | e]; cbn [fst snd app];
    [| split; [reflexivity | eexists; reflexivity]].
  destruct (index0 resources) as [registry | e]; cbn [fst snd app];
    [| split; [reflexivity | eexists; reflexivity]].
  destruct (get registry "type" PNone) as [type | e]; cbn [fst snd app];
    [| split; [reflexivity | eexists; reflexivity]].
  destruct (eq_str type "gar"); cbn [fst snd app];
    [| split; [reflexivity | eexists; reflexivity]].
  destruct (get registry "user_defined_alias" (PStr "Unknown")) as [alias | e];
    cbn [fst snd app]; [| split; [reflexivity | eexists; reflexivity]].
  destruct (get registry "url" (PStr "Unknown")) as [url | e]; cbn [fst snd app];
    split; first [reflexivity | eexists; reflexivity].
Qed.

(** X9. The selection loop asks for the detail of every listed id exactly
    once, in the order of the listing, and always returns: a detail call
    that raises, or an answer that cannot be read, only makes the loop skip
    that id. *)
Theorem selection_fetches_every_id (falcon : falcon_client) (registry_ids : list pyval)
    (acc : list gar_entry) (s : state W) :
  detail_calls (trace (collect_gar C falcon registry_ids acc s)) = registry_ids /\
  exists selected, outcome (collect_gar C falcon registry_ids acc s) = Ok selected.
Proof.
  revert acc s. induction registry_ids as [| registry_id rest IH]; intros acc s;
    cbn [collect_gar].
  - split; [reflexivity | eexists; reflexivity].
  - rewrite trace_bind, outcome_bind, detail_calls_app.
    destruct (fetch_gar_detail_calls falcon registry_id acc s) as [Hcall (acc' & Hout)].
    rewrite Hcall, Hout.
    destruct (IH acc' (final (fetch_gar C falcon registry_id acc s))) as [Hcalls Hret].
    rewrite Hcalls. split; [reflexivity | exact Hret].
Qed.

(** X10. When the operator confirmed, the removal returns normally and
    makes exactly as many delete calls as it announced registrations to
    remove, one per announced registration, whatever the delete calls
    answer or raise. *)
Theorem confirmed_removal_deletes_every_candidate
    (falcon_client_id falcon_client_secret : string) (s : state W)
    (prompt answer : string) :
  In (EInput prompt (Ok answer))
     (trace (cleanup_falcon_registries C falcon_client_id falcon_client_secret s)) ->
  lower answer = "y" ->
  outcome (cleanup_falcon_registries C falcon_client_id falcon_client_secret s) = Ok tt /\
  exists candidates,
    candidates <> [] /\
    removal_counts
      (trace (cleanup_falcon_registries C falcon_client_id falcon_client_secret s)) =
      [Z.of_nat (List.length candidates)] /\
    delete_calls
      (trace (cleanup_falcon_registries C falcon_client_id falcon_client_secret s)) =
      delete_ids candidates /\
    List.length
      (delete_calls
         (trace (cleanup_falcon_registries C falcon_client_id falcon_client_secret s))) =
      List.length candidates.
Proof.
  intros Hin Hyes.
  destruct (cleanup_falcon_registries_confirmation C falcon_client_id falcon_client_secret s)
    as [Hquiet | (gars & before & answer0 & after & Hne & Ht & Hbefore & Hcount & _ & Hafter)].
  { apply in_input_calls in Hin.
    assert (Hno : input_calls
                    (trace (cleanup_falcon_registries C falcon_client_id
                              falcon_client_secret s)) = [])
      by absent only_input_calls Hquiet.
    rewrite Hno in Hin. contradiction. }
  assert (Hb : input_calls before = []) by absent only_input_calls Hbefore.
  assert (Ha : input_calls after = []).
  { destruct answer0 as [confirm | e].
    - destruct Hafter as [_ Hafter]. destruct (lower confirm =? "y").
      + destruct Hafter as [Honly _]. absent only_input_calls Honly.
      + subst after. reflexivity.
    - destruct Hafter as [Hafter _]. subst after. reflexivity. }
  apply in_input_calls in Hin. rewrite Ht, input_calls_app, Hb in Hin.
  change (input_calls (EInput confirm_prompt answer0 :: after))
    with ((confirm_prompt, answer0) :: input_calls after) in Hin.
  rewrite Ha in Hin. destruct Hin as [Heq | []].
  inversion Heq; subst prompt answer0. destruct Hafter as [Hok Hafter].
  apply String.eqb_eq in Hyes. rewrite Hyes in Hafter. destruct Hafter as [Honly Hdel].
  split; [exact Hok |]. exists gars.
  assert (Hd : delete_calls before = []) by absent only_delete_calls Hbefore.
  assert (Hc : removal_counts after = []) by absent only_removal_counts Honly.
  assert (Hdelete :
    delete_calls (trace (cleanup_falcon_registries C falcon_client_id falcon_client_secret s)) =
    delete_ids gars).
  { rewrite Ht, delete_calls_app, Hd.
    change (delete_calls (EInput confirm_prompt (Ok answer) :: after)) with (delete_calls after).
    exact Hdel. }
  split; [exact Hne |]. split; [| split].
  - rewrite Ht, removal_counts_app, Hcount.
    change (removal_counts (EInput confirm_prompt (Ok answer) :: after))
      with (removal_counts after).
    rewrite Hc. reflexivity.
  - exact Hdelete.
  - rewrite Hdelete. unfold delete_ids. apply length_map.
Qed.

End Removal.

Lemma listing_exception_skips_credential_cleanup_witness :
  Demo.environ "GCP_HOST_PROJECT" = Some "host" /\
  Demo.environ "FALCON_CLIENT_ID" = Some "id" /\
  Demo.environ "FALCON_CLIENT_SECRET" = Some "secret" /\
  andb (env_truthy (Some "host")) (andb (env_truthy (Some "id")) (env_truthy (Some "secret"))) =
    true /\
  read_registry_entities Scenario.falcon_unreachable (FalconContainer "id" "secret")
    (world Demo.start) = (tt, Raise (mkExn ApiError "Connection refused" "")) /\
  outcome (main Scenario.falcon_unreachable true Demo.environ Demo.start) =
    Raise (mkExn ApiError "Connection refused" "") /\
  subprocess_calls (trace (main Scenario.falcon_unreachable true Demo.environ Demo.start)) = [].
Proof.
  do 5 (split; [reflexivity |]).
  exact (listing_exception_skips_credential_cleanup Scenario.falcon_unreachable Demo.environ
           Demo.start "host" "id" "secret" tt (mkExn ApiError "Connection refused" "")
           eq_refl eq_refl eq_refl eq_refl eq_refl).
Defined.

Lemma refused_or_empty_listing_removes_nothing_witness :
  read_registry_entities Scenario.falcon_refuses (FalconContainer "id" "secret")
    (world Demo.start) = (tt, Ok Scenario.listing_refused) /\
  getitem Scenario.listing_refused "status_code" = Ok (PInt 403) /\
  (eq_int (PInt 403) 200 = false \/
   exists body ids,
     getitem Scenario.listing_refused "body" = Ok body /\
     getitem body "resources" = Ok ids /\ truthy ids = false) /\
  exists note,
    cleanup_falcon_registries Scenario.falcon_refuses "id" "secret" Demo.start =
    (mkState tt (files Demo.start),
     [EPrint [PStr (LF ++ "Listing existing registry registrations in Falcon...")];
      EFalconList (Ok Scenario.listing_refused);
      EPrint [PStr note]],
     Ok tt).
Proof.
  split; [reflexivity |]. split; [reflexivity |]. split; [left; reflexivity |].
  exact (refused_or_empty_listing_removes_nothing Scenario.falcon_refuses "id" "secret"
           Demo.start tt Scenario.listing_refused (PInt 403) eq_refl eq_refl
           (or_introl eq_refl)).
Defined.

Lemma confirmed_removal_deletes_every_candidate_witness :
  In (EInput confirm_prompt (Ok "Y"))
     (trace (cleanup_falcon_registries (Demo.happy "Y") "id" "secret" Demo.start)) /\
  lower "Y" = "y" /\
  outcome (cleanup_falcon_registries (Demo.happy "Y") "id" "secret" Demo.start) = Ok tt /\
  exists candidates,
    candidates <> [] /\
    removal_counts
      (trace (cleanup_falcon_registries (Demo.happy "Y") "id" "secret" Demo.start)) =
      [Z.of_nat (List.length candidates)] /\
    delete_calls
      (trace (cleanup_falcon_registries (Demo.happy "Y") "id" "secret" Demo.start)) =
      delete_ids candidates /\
    List.length
      (delete_calls
         (trace (cleanup_falcon_registries (Demo.happy "Y") "id" "secret" Demo.start))) =
      List.length candidates.
Proof.
  assert (Hin : In (EInput confirm_prompt (Ok "Y"))
                   (trace (cleanup_falcon_registries (Demo.happy "Y") "id" "secret"
                             Demo.start))).
  { vm_compute. repeat first [left; reflexivity | right]. }
  split; [exact Hin |]. split; [reflexivity |].
  exact (confirmed_removal_deletes_every_candidate (Demo.happy "Y") "id" "secret" Demo.start
           confirm_prompt "Y" Hin eq_refl).
Defined.

(** ** The key and the roles *)

Section KeyAndRoles.

Context {W : Type} (C : Collaborators W).

Lemma open_json_load_reads (path : string) (s : state W) (v : pyval) :
  outcome (open_json_load C path s) = Ok v ->
  final (open_json_load C path s) = s /\
  exists content, fs_read path (files s) = Some content /\ json_loads C content = Some v.
Proof.
  unfold open_json_load, outcome, final.
  destruct (fs_read path (files s)) as [content |]; cbn [fst snd];
    [| intros Hx; discriminate Hx].
  destruct (json_loads C content) as [v' |] eqn:Hparse; cbn [fst snd];
    [| intros Hx; discriminate Hx].
  intros Hx. inversion Hx; subst v'. split; [reflexivity |]. exists content.
  split; [reflexivity | exact Hparse].
Qed.

(** X11. When the key is returned, it is the JSON document parsed from
    the content that the key file held once the key command had run, the
    address returned with it is [<sa_name>@<project>.iam.gserviceaccount.com],
    the run ended by opening the key file and removing it, and the file is
    gone. *)
Theorem returned_key_was_read_and_removed (project sa_name : string) (s : state W)
    (key : pyval) (email : string) :
  outcome (get_service_account_key C project sa_name s) = Ok (key, email) ->
  email = sa_name ++ "@" ++ project ++ ".iam.gserviceaccount.com" /\
  fs_exists key_file (files (final (get_service_account_key C project sa_name s))) = false /\
  trace (get_service_account_key C project sa_name s) =
    (trace (key_file_written C project sa_name s) ++ [EOpen key_file; ERemove key_file])%list /\
  exists content,
    fs_read key_file (files (final (key_file_written C project sa_name s))) = Some content /\
    json_loads C content = Some key.
Proof.
  intros Hok. split; [| split].
  - revert Hok. unfold get_service_account_key.
    rewrite !outcome_bind. cbn [print emit outcome final fst snd].
    destruct (outcome (ensure_service_account C project sa_name s));
      [| intros Hx; discriminate Hx].
    destruct (outcome (subprocess_run C _ true _)); [| intros Hx; discriminate Hx].
    destruct (outcome (open_json_load C key_file _)); [| intros Hx; discriminate Hx].
    rewrite outcome_bind.
    destruct (outcome (os_remove key_file _)); [| intros Hx; discriminate Hx].
    cbn [ret outcome snd]. intros Hx. inversion Hx. reflexivity.
  - eapply get_service_account_key_success_removes_key_file. exact Hok.
  - revert Hok. unfold get_service_account_key, key_file_written.
    rewrite !outcome_bind, !trace_bind, !final_bind.
    cbn [print emit trace outcome final fst snd].
    destruct (outcome (ensure_service_account C project sa_name s)) eqn:Hens;
      [| intros Hx; discriminate Hx].
    destruct (outcome (subprocess_run C _ true _)) eqn:Hrun; [| intros Hx; discriminate Hx].
    rewrite trace_open_json_load.
    set (s3 := final (subprocess_run C _ true _)).
    destruct (outcome (open_json_load C key_file s3)) as [v |] eqn:Hopen;
      [| intros Hx; discriminate Hx].
    destruct (open_json_load_reads key_file s3 v Hopen) as [Hfinal (content & Hread & Hparse)].
    rewrite Hfinal, outcome_bind, trace_bind, trace_os_remove.
    destruct (outcome (os_remove key_file s3)); [| intros Hx; discriminate Hx].
    cbn [ret trace outcome fst snd]. intros Hx. inversion Hx; subst v.
    rewrite app_nil_r. split.
    + rewrite <- !app_assoc. reflexivity.
    + exists content. split; [exact Hread | exact Hparse].
Qed.
Lemma grant_one_returns (project service_account_email role : string) (s : state W) :
  (forall cmd w f, exists p, snd (run_process C cmd w f) = Ok p) ->
  outcome (grant_one C project service_account_email role s) = Ok tt.
Proof.
  intros Hlaunch.
  unfold grant_one, try_except_class, try_except, bind, subprocess_run, print, emit, raise,
    outcome.
  destruct (Hlaunch (Shell (grant_cmd project service_account_email role)) (world s) (files s))
    as [p Hp].
  destruct (run_process C (Shell (grant_cmd project service_account_email role))
              (world s) (files s)) as [[w' files'] r]; cbn [snd] in Hp; subst r.
  cbn [andb fst snd]. destruct (negb (returncode p =? 0)%Z); reflexivity.
Qed.

Lemma grant_each_returns (project service_account_email : string) (roles : list string) :
  (forall cmd w f, exists p, snd (run_process C cmd w f) = Ok p) ->
  forall s : state W, outcome (grant_each C project service_account_email roles s) = Ok tt.
Proof.
  intros Hlaunch. induction roles as [| role rest IH]; intros s; cbn [grant_each].
  - reflexivity.
  - rewrite outcome_bind, grant_one_returns by exact Hlaunch. apply IH.
Qed.

(** X12. As long as the commands can be launched, a pass over a project
    runs the grant command of every required role, in order, and returns:
    a grant that exits with an error is reported and does not keep the
    next role from being tried. *)
Theorem grant_pass_tries_every_role (project service_account_email : string) (s : state W) :
  (forall cmd w f, exists p, snd (run_process C cmd w f) = Ok p) ->
  outcome (grant_required_roles C project service_account_email s) = Ok tt /\
  subprocess_calls (trace (grant_required_roles C project service_account_email s)) =
    [Shell (grant_cmd project service_account_email "roles/artifactregistry.reader");
     Shell (grant_cmd project service_account_email "roles/storage.objectViewer")].
Proof.
  intros Hlaunch.
  assert (Hok : outcome (grant_required_roles C project service_account_email s) = Ok tt).
  { unfold grant_required_roles. rewrite outcome_bind. cbn [print emit outcome final fst snd].
    apply grant_each_returns. exact Hlaunch. }
  split; [exact Hok |].
  rewrite (grant_required_roles_commands C _ _ _ Hok). reflexivity.
Qed.

End KeyAndRoles.

Lemma returned_key_was_read_and_removed_witness :
  outcome (get_service_account_key (Demo.happy "y") "host" default_sa_name Demo.start) =
    Ok (Demo.key_json, "crowdstrike-registry-scanner@host.iam.gserviceaccount.com") /\
  "crowdstrike-registry-scanner@host.iam.gserviceaccount.com" =
    default_sa_name ++ "@" ++ "host" ++ ".iam.gserviceaccount.com" /\
  fs_exists key_file
    (files (final (get_service_account_key (Demo.happy "y") "host" default_sa_name
                     Demo.start))) = false /\
  trace (get_service_account_key (Demo.happy "y") "host" default_sa_name Demo.start) =
    (trace (key_file_written (Demo.happy "y") "host" default_sa_name Demo.start) ++
     [EOpen key_file; ERemove key_file])%list /\
  exists content,
    fs_read key_file
      (files (final (key_file_written (Demo.happy "y") "host" default_sa_name Demo.start))) =
      Some content /\
    json_loads (Demo.happy "y") content = Some Demo.key_json.
Proof.
  split; [reflexivity |].
  exact (returned_key_was_read_and_removed (Demo.happy "y") "host" default_sa_name Demo.start
           Demo.key_json "crowdstrike-registry-scanner@host.iam.gserviceaccount.com" eq_refl).
Defined.

Lemma demo_commands_launch (answer : string) :
  forall cmd (w : unit) f, exists p, snd (run_process (Demo.happy answer) cmd w f) = Ok p.
Proof.
  intros cmd w f. unfold Demo.happy, Demo.collaborators. cbn [run_process].
  destruct (Demo.is_describe cmd); [eexists; reflexivity |].
  destruct (Demo.is_key_create cmd); eexists; reflexivity.
Defined.

Lemma grant_pass_tries_every_role_witness :
  (forall cmd (w : unit) f, exists p, snd (run_process (Demo.happy "y") cmd w f) = Ok p) /\
  outcome (grant_required_roles (Demo.happy "y") "p1" "sa@host" Demo.start) = Ok tt /\
  subprocess_calls (trace (grant_required_roles (Demo.happy "y") "p1" "sa@host" Demo.start)) =
    [Shell (grant_cmd "p1" "sa@host" "roles/artifactregistry.reader");
     Shell (grant_cmd "p1" "sa@host" "roles/storage.objectViewer")].
Proof.
  split; [exact (demo_commands_launch "y") |].
  exact (grant_pass_tries_every_role (Demo.happy "y") "p1" "sa@host" Demo.start
           (demo_commands_launch "y")).
Defined.

(** ** What discovery returns *)

Section Descriptors.

Context {W : Type} (C : Collaborators W).

Lemma append_found_descriptors (project loc : string) (repos : list string) :
  In loc locations ->
  forall (registries : list registry_info) (s : state W),
    Forall descriptor_ok registries ->
    exists registries',
      outcome (append_found (W := W) project loc repos registries s) = Ok registries' /\
      Forall descriptor_ok registries'.
Proof.
  intros Hloc. induction repos as [| repo_name rest IH]; intros registries s Hall;
    cbn [append_found].
  - exists registries. split; [reflexivity | exact Hall].
  - rewrite outcome_bind. cbn [print emit outcome final fst snd].
    apply IH. apply Forall_app. split; [exact Hall |].
    constructor; [| constructor].
    unfold descriptor_ok. cbn [location repository_id name].
    split; [exact Hloc |]. split; [reflexivity |].
    apply split_aux_last_clean. reflexivity.
Qed.

Lemma list_location_descriptors (project location : string)
    (registries : list registry_info) (s : state W) :
  In location locations ->
  Forall descriptor_ok registries ->
  exists step,
    outcome (list_location C project location registries s) = Ok step /\
    Forall descriptor_ok (fst step).
Proof.
  intros Hloc Hall. unfold list_location.
  rewrite outcome_bind, outcome_attempt, final_attempt, outcome_call, final_call.
  destruct (list_repositories C (parent_of project location) (world s))
    as [w1 [[repos later] | e]]; cbn [fst snd].
  - rewrite outcome_bind.
    destruct (append_found_descriptors project location repos Hloc registries
                (mkState w1 (files s)) Hall) as (registries' & Hout & Hall').
    rewrite Hout. eexists. split; [reflexivity | exact Hall'].
  - eexists. split; [reflexivity | exact Hall].
Qed.

Lemma scan_locations_descriptors (project : string) (locs : list string) :
  incl locs locations ->
  forall (registries : list registry_info) (s : state W),
    Forall descriptor_ok registries ->
    exists found,
      outcome (scan_locations C project locs registries s) = Ok found /\
      Forall descriptor_ok found.
Proof.
  induction locs as [| location rest IH]; intros Hincl registries s Hall;
    cbn [scan_locations].
  - exists registries. split; [reflexivity | exact Hall].
  - assert (Hloc : In location locations) by (apply Hincl; left; reflexivity).
    assert (Hrest : incl rest locations) by (intros x Hx; apply Hincl; right; exact Hx).
    rewrite outcome_bind.
    destruct (list_location_descriptors project location registries s Hloc Hall)
      as (step & Hstep & Hall').
    rewrite Hstep. destruct (snd step) as [e |]; [| apply IH; assumption].
    rewrite outcome_bind.
    destruct (on_location_error_spec project location e
                (final (list_location C project location registries s))) as (Hout & _).
    rewrite Hout. destruct (orb _ _).
    + exists (fst step). split; [reflexivity | exact Hall'].
    + apply IH; assumption.
Qed.

Lemma scan_projects_descriptors (projects : list string) :
  forall (registries : list registry_info) (s : state W),
    Forall descriptor_ok registries ->
    exists found,
      outcome (scan_projects C projects registries s) = Ok found /\
      Forall descriptor_ok found.
Proof.
  induction projects as [| project rest IH]; intros registries s Hall;
    cbn [scan_projects].
  - exists registries. split; [reflexivity | exact Hall].
  - rewrite outcome_bind. cbn [print emit outcome final fst snd].
    rewrite outcome_bind.
    destruct (scan_locations_descriptors project locations (incl_refl _) registries s Hall)
      as (found & Hout & Hall').
    rewrite Hout. apply IH. exact Hall'.
Qed.

(** X13. Every descriptor that discovery returns lies in one of the five
    fixed locations, and its repository id is the last segment of its
    resource name and holds no slash. *)
Theorem discovered_descriptors_are_well_formed (s : state W)
    (registries : list registry_info) :
  outcome (list_gcp_registries C s) = Ok registries ->
  Forall descriptor_ok registries.
Proof.
  unfold list_gcp_registries.
  rewrite outcome_bind. cbn [print emit outcome final fst snd].
  rewrite outcome_bind, outcome_call, final_call.
  destruct (search_projects C (world s)) as [w1 [[projects later] | e]]; cbn [fst snd];
    [| intros Hx; discriminate Hx].
  rewrite outcome_bind.
  destruct (scan_projects_descriptors projects [] (mkState w1 (files s)) (Forall_nil _))
    as (found & Hout & Hall).
  rewrite Hout. destruct later as [e |]; cbn [raise ret outcome snd];
    [intros Hx; discriminate Hx |].
  intros Hx. inversion Hx; subst found. exact Hall.
Qed.

(** X14. The scan of a project lists its locations in the order of the
    list and stops early at most: the parents it asked about are those of
    the first [n] locations, for some [n]. *)
Theorem scan_lists_a_prefix_of_the_locations (project : string) (locs : list string)
    (registries : list registry_info) (s : state W) :
  exists n,
    listing_calls (trace (scan_locations C project locs registries s)) =
    map (parent_of project) (firstn n locs).
Proof.
  revert registries s. induction locs as [| location rest IH]; intros registries s;
    cbn [scan_locations].
  - exists 0. reflexivity.
  - rewrite trace_bind, listing_calls_app.
    destruct (list_location_spec C project location registries s)
      as ((step & Hstep) & Hcall & _).
    rewrite Hcall, Hstep.
    destruct (snd step) as [e |].
    + rewrite trace_bind, listing_calls_app.
      destruct (on_location_error_spec project location e
                  (final (list_location C project location registries s)))
        as (Hout & _ & note & Hnote & _).
      rewrite Hout, Hnote. destruct (orb _ _).
      * exists 1. reflexivity.
      * destruct (IH (fst step)
                     (final (on_location_error (W := W) project location e
                               (final (list_location C project location registries s)))))
          as (n & Hn).
        exists (S n). rewrite Hn. reflexivity.
    + destruct (IH (fst step) (final (list_location C project location registries s)))
        as (n & Hn).
      exists (S n). rewrite Hn. reflexivity.
Qed.

(** X15. When the search of the projects raises, the provision run ends
    with that exception right after it: nothing is listed, no command is
    run and nothing is registered. *)
Theorem search_failure_is_fatal
    (host_project falcon_client_id falcon_client_secret : string) (s : state W)
    (w1 : W) (e : exn) :
  search_projects C (world s) = (w1, Raise e) ->
  provision_registries C host_project falcon_client_id falcon_client_secret s =
    (mkState w1 (files s),
     [EPrint [PStr (LF ++ "Discovering GCP registries...")]; ESearchProjects (Raise e)],
     Raise e).
Proof.
  intros Hsearch.
  unfold provision_registries, list_gcp_registries, bind, print, emit, call.
  cbn [world files]. rewrite Hsearch. reflexivity.
Qed.

End Descriptors.

Lemma discovered_descriptors_are_well_formed_witness :
  outcome (list_gcp_registries (Demo.happy "y") Demo.start) = Ok Scenario.discovered /\
  Forall descriptor_ok Scenario.discovered.
Proof.
  split; [vm_compute; reflexivity |].
  exact (discovered_descriptors_are_well_formed (Demo.happy "y") Demo.start
           Scenario.discovered eq_refl).
Defined.

Lemma search_failure_is_fatal_witness :
  search_projects Scenario.no_search (world Demo.start) = (tt, Raise Scenario.search_error) /\
  provision_registries Scenario.no_search "host" "id" "secret" Demo.start =
    (mkState tt (files Demo.start),
     [EPrint [PStr (LF ++ "Discovering GCP registries...")];
      ESearchProjects (Raise Scenario.search_error)],
     Raise Scenario.search_error).
Proof.
  split; [reflexivity |].
  exact (search_failure_is_fatal Scenario.no_search "host" "id" "secret" Demo.start tt
           Scenario.search_error eq_refl).
Defined.

(** ** The results of the registration *)

Section Results.

Context {W : Type} (C : Collaborators W).

(** X16. A key that is not a JSON object cannot be registered: with at
    least one descriptor, [register_with_falcon] raises an
    [AttributeError] before it prints or calls anything. *)
Theorem registration_needs_a_key_object (registry : registry_info)
    (rest : list registry_info) (key : pyval)
    (falcon_client_id falcon_client_secret : string) (s : state W) :
  is_dict key = false ->
  exists e,
    register_with_falcon C (registry :: rest) key falcon_client_id falcon_client_secret s =
      (s, [], Raise e) /\
    exn_cls e = AttributeError.
Proof.
  intros Hkey. unfold register_with_falcon. cbn [register_each].
  unfold register_one, bind, lift, request_body.
  destruct key; try discriminate Hkey; cbn [get result_bind];
    eexists; split; reflexivity.
Qed.

(** A turn of the registration loop that returns has appended one result:
    the name of its descriptor, and an answer that is a dict when the
    status is not 200. *)
Lemma register_one_result (falcon : falcon_client) (registry : registry_info)
    (key : pyval) (results results' : list registration_result) (s : state W) :
  outcome (register_one C falcon registry key results s) = Ok results' ->
  exists r,
    results' = (results ++ [r])%list /\
    res_registry r = name registry /\
    (failed_result r = true -> is_dict (res_response r) = true).
Proof.
  unfold register_one, bind, lift, print, emit, call, ret, outcome.
  destruct (request_body registry key) as [body | e]; cbn [fst snd];
    [| intros Hx; discriminate Hx].
  destruct (create_registry_entities C falcon body (world s)) as [w1 [response | e]];
    cbn [fst snd]; [| intros Hx; discriminate Hx].
  destruct (getitem response "status_code") as [status | e] eqn:Hstatus; cbn [fst snd];
    [| intros Hx; discriminate Hx].
  destruct (get response "body" (PDict [])) as [answer | e] eqn:Hget; cbn [fst snd];
    [| intros Hx; discriminate Hx].
  destruct (eq_int status 200) eqn:Hok; cbn [fst snd].
  - intros Hx. inversion Hx. eexists. split; [reflexivity |]. split; [reflexivity |].
    unfold failed_result. cbn [res_status]. rewrite Hok. intros Hf. discriminate Hf.
  - destruct (getitem response "body") as [failed_body | e] eqn:Hbody; cbn [fst snd];
      [| intros Hx; discriminate Hx].
    destruct (get failed_body "errors" (PList [])) as [errors | e] eqn:Herrors;
      cbn [fst snd]; [| intros Hx; discriminate Hx].
    intros Hx. inversion Hx. eexists. split; [reflexivity |]. split; [reflexivity |].
    intros _. cbn [res_response].
    assert (Hsame : answer = failed_body).
    { unfold getitem in Hbody. unfold get in Hget. destruct response; try discriminate.
      destruct (dict_lookup "body" d); [congruence | discriminate]. }
    subst answer. unfold get in Herrors. destruct failed_body; try discriminate. reflexivity.
Qed.

Lemma register_each_results (falcon : falcon_client) (registries : list registry_info)
    (key : pyval) :
  forall (results results' : list registration_result) (s : state W),
    outcome (register_each C falcon registries key results s) = Ok results' ->
    exists added,
      results' = (results ++ added)%list /\
      map res_registry added = map name registries /\
      Forall (fun r => failed_result r = true -> is_dict (res_response r) = true) added.
Proof.
  induction registries as [| registry rest IH]; intros results results' s;
    cbn [register_each].
  - intros Hx. inversion Hx. exists []. rewrite app_nil_r. repeat split. constructor.
  - rewrite outcome_bind.
    destruct (outcome (register_one C falcon registry key results s)) as [results1 |] eqn:Hone;
      [| intros Hx; discriminate Hx].
    destruct (register_one_result falcon registry key results results1 s Hone)
      as (r & Hr & Hname & Hdict).
    intros Hrest. destruct (IH _ _ _ Hrest) as (added & Hadded & Hnames & Hall).
    exists (r :: added). split; [| split].
    + rewrite Hadded, Hr, <- app_assoc. reflexivity.
    + cbn [map]. rewrite Hname, Hnames. reflexivity.
    + constructor; assumption.
Qed.

(** X17. When [register_with_falcon] returns, its results are one per
    descriptor, in the order of the descriptors, each under the name of its
    descriptor. *)
Theorem results_follow_the_descriptors (registries : list registry_info) (key : pyval)
    (falcon_client_id falcon_client_secret : string) (s : state W)
    (results : list registration_result) :
  outcome (register_with_falcon C registries key falcon_client_id falcon_client_secret s) =
    Ok results ->
  map res_registry results = map name registries /\
  List.length results = List.length registries.
Proof.
  unfold register_with_falcon. intros Hok.
  destruct (register_each_results _ registries key [] results s Hok)
    as (added & Hadded & Hnames & _).
  cbn [app] in Hadded. subst added. split; [exact Hnames |].
  rewrite <- (length_map res_registry), Hnames. apply length_map.
Qed.

Lemma failure_lines_app (t1 t2 : list event) :
  failure_lines (t1 ++ t2) = (failure_lines t1 ++ failure_lines t2)%list.
Proof. apply flat_map_app. Qed.

Lemma print_failure_one (r : registration_result) (s : state W) :
  (failed_result r = true -> is_dict (res_response r) = true) ->
  let step :=
    (if negb (eq_int (res_status r) 200) then
       print [PStr (LF ++ "Registry: "); PStr (res_registry r)] ;;
       errors <- lift (get (res_response r) "errors" (PList [])) ;;
       print [PStr "Error: "; errors]
     else ret tt) : M W unit in
  outcome (step s) = Ok tt /\ final (step s) = s /\
  failure_lines (trace (step s)) = if failed_result r then [res_registry r] else [].
Proof.
  unfold failed_result. intros Hr. cbv zeta.
  destruct (negb (eq_int (res_status r) 200)).
  - assert (Hdict : is_dict (res_response r) = true) by (apply Hr; reflexivity).
    destruct (res_response r) as [| | | | | d]; try discriminate Hdict.
    unfold bind, print, emit, lift, get, outcome, final, trace.
    destruct (dict_lookup "errors" d); repeat split; reflexivity.
  - repeat split; reflexivity.
Qed.

Lemma print_failures_lists (results : list registration_result) :
  Forall (fun r => failed_result r = true -> is_dict (res_response r) = true) results ->
  forall s : state W,
    outcome (print_failures (W := W) results s) = Ok tt /\
    failure_lines (trace (print_failures (W := W) results s)) =
      map res_registry (filter failed_result results).
Proof.
  intros Hall. induction Hall as [| r rest Hr _ IH]; intros s; cbn [print_failures filter].
  - split; reflexivity.
  - rewrite outcome_bind, trace_bind, failure_lines_app.
    destruct (print_failure_one r s Hr) as (Hout & Hfinal & Hlines).
    cbv zeta in Hout, Hfinal, Hlines. rewrite Hout, Hfinal, Hlines.
    destruct (IH s) as [Hout' Hlines']. rewrite Hout', Hlines'.
    destruct (failed_result r); split; reflexivity.
Qed.

(** X18. The list of failures printed by the summary cannot fail on the
    results that [register_with_falcon] returned, and it names exactly the
    results whose status is not 200, in order. *)
Theorem summary_lists_the_failed_registrations (registries : list registry_info)
    (key : pyval) (falcon_client_id falcon_client_secret : string) (s s' : state W)
    (results : list registration_result) :
  outcome (register_with_falcon C registries key falcon_client_id falcon_client_secret s) =
    Ok results ->
  outcome (print_failures (W := W) results s') = Ok tt /\
  failure_lines (trace (print_failures (W := W) results s')) =
    map res_registry (filter failed_result results).
Proof.
  unfold register_with_falcon. intros Hok.
  destruct (register_each_results _ registries key [] results s Hok)
    as (added & Hadded & _ & Hall).
  cbn [app] in Hadded. subst added. apply print_failures_lists. exact Hall.
Qed.

End Results.

Lemma registration_needs_a_key_object_witness :
  is_dict PNone = false /\
  exists e,
    register_with_falcon (Demo.happy "y") (Scenario.r1 :: [Scenario.r2]) PNone "id" "secret"
      Demo.start = (Demo.start, [], Raise e) /\
    exn_cls e = AttributeError.
Proof.
  split; [reflexivity |].
  exact (registration_needs_a_key_object (Demo.happy "y") Scenario.r1 [Scenario.r2] PNone
           "id" "secret" Demo.start eq_refl).
Defined.

Lemma results_follow_the_descriptors_witness :
  outcome (register_with_falcon Scenario.duplicate [Scenario.r1; Scenario.r2] Demo.key_json
             "id" "secret" Demo.start) = Ok Scenario.duplicate_results /\
  map res_registry Scenario.duplicate_results = map name [Scenario.r1; Scenario.r2] /\
  List.length Scenario.duplicate_results = List.length [Scenario.r1; Scenario.r2].
Proof.
  assert (Hok : outcome (register_with_falcon Scenario.duplicate [Scenario.r1; Scenario.r2]
                           Demo.key_json "id" "secret" Demo.start) =
                Ok Scenario.duplicate_results) by (vm_compute; reflexivity).
  split; [exact Hok |].
  exact (results_follow_the_descriptors Scenario.duplicate [Scenario.r1; Scenario.r2]
           Demo.key_json "id" "secret" Demo.start Scenario.duplicate_results Hok).
Defined.

Lemma summary_lists_the_failed_registrations_witness :
  outcome (register_with_falcon Scenario.duplicate [Scenario.r1; Scenario.r2] Demo.key_json
             "id" "secret" Demo.start) = Ok Scenario.duplicate_results /\
  outcome (print_failures (W := unit) Scenario.duplicate_results Demo.start) = Ok tt /\
  failure_lines (trace (print_failures (W := unit) Scenario.duplicate_results Demo.start)) =
    map res_registry (filter failed_result Scenario.duplicate_results).
Proof.
  assert (Hok : outcome (register_with_falcon Scenario.duplicate [Scenario.r1; Scenario.r2]
                           Demo.key_json "id" "secret" Demo.start) =
                Ok Scenario.duplicate_results) by (vm_compute; reflexivity).
  split; [exact Hok |].
  exact (summary_lists_the_failed_registrations Scenario.duplicate
           [Scenario.r1; Scenario.r2] Demo.key_json "id" "secret" Demo.start Demo.start
           Scenario.duplicate_results Hok).
Defined.

(** ** The two modes *)

Section Modes.

Context {W : Type} (C : Collaborators W).

(** X19. When the credential cannot be obtained, the provision run ends
    with the exception of that step: no role is granted and nothing is
    registered. *)
Theorem credential_failure_is_fatal
    (host_project falcon_client_id falcon_client_secret : string) (s : state W)
    (registries : list registry_info) (e : exn) :
  outcome (list_gcp_registries C s) = Ok registries ->
  registries <> [] ->
  outcome (get_service_account_key C host_project default_sa_name
             (final (list_gcp_registries C s))) = Raise e ->
  outcome (provision_registries C host_project falcon_client_id falcon_client_secret s) =
    Raise e /\
  grant_passes
    (trace (provision_registries C host_project falcon_client_id falcon_client_secret s)) = [] /\
  create_calls
    (trace (provision_registries C host_project falcon_client_id falcon_client_secret s)) = [].
Proof.
  intros Hfound Hne Hkey.
  pose proof (list_gcp_registries_only C s) as Hdisc.
  pose proof (get_service_account_key_only C host_project default_sa_name
                (final (list_gcp_registries C s))) as Honly.
  unfold provision_registries. rewrite trace_bind, outcome_bind, Hfound.
  destruct registries as [| r0 rs]; [contradiction |]. cbv iota.
  rewrite trace_bind, outcome_bind. cbn [print emit trace outcome final fst snd].
  rewrite trace_bind, outcome_bind, Hkey.
  assert (Hall : only [KPrint; KSearch; KListing; KSubprocess; KFile]
                   (trace (list_gcp_registries C s) ++
                    [EPrint [PStr (LF ++ "Found "); PInt (Z.of_nat (List.length (r0 :: rs)));
                             PStr " registries"]] ++
                    trace (get_service_account_key C host_project default_sa_name
                             (final (list_gcp_registries C s))) ++ [])).
  { apply only_app.
    - eapply only_mono; [| exact Hdisc].
      intros k Hk. destruct k; try discriminate; reflexivity.
    - apply only_app; [only_list |]. rewrite app_nil_r.
      eapply only_mono; [| exact Honly].
      intros k Hk. destruct k; try discriminate; reflexivity. }
  split; [reflexivity |]. split.
  - absent only_grant_passes Hall.
  - absent only_create_calls Hall.
Qed.

Lemma only_detail_calls (kinds : list kind) (t : list event) :
  existsb (kind_eqb KFalconDetail) kinds = false -> only kinds t -> detail_calls t = [].
Proof.
  intros Hk. apply flat_map_only. intros e He.
  destruct e; try reflexivity. unfold allowed in He. simpl in He. congruence.
Qed.

Lemma cleanup_falcon_registries_only (falcon_client_id falcon_client_secret : string)
    (s : state W) :
  only [KPrint; KRemovalBanner; KInput; KFalconList; KFalconDetail; KFalconDelete]
    (trace (cleanup_falcon_registries C falcon_client_id falcon_client_secret s)).
Proof.
  destruct (cleanup_falcon_registries_confirmation C falcon_client_id falcon_client_secret s)
    as [Hquiet | (gars & before & answer & after & _ & Ht & Hbefore & _ & _ & Hafter)].
  - eapply only_mono; [| exact Hquiet].
    intros k Hk. destruct k; try discriminate; reflexivity.
  - rewrite Ht. apply only_app.
    + eapply only_mono; [| exact Hbefore].
      intros k Hk. destruct k; try discriminate; reflexivity.
    + apply only_cons; [reflexivity |].
      destruct answer as [confirm | e].
      * destruct Hafter as [_ Hafter]. destruct (lower confirm =? "y").
        -- destruct Hafter as [Honly _]. eapply only_mono; [| exact Honly].
           intros k Hk. destruct k; try discriminate; reflexivity.
        -- subst after. only_list.
      * destruct Hafter as [Hafter _]. subst after. apply only_nil.
Qed.

Lemma provision_registries_only
    (host_project falcon_client_id falcon_client_secret : string) (s : state W) :
  only [KPrint; KGrantBanner; KSearch; KListing; KSubprocess; KFile; KFalconCreate]
    (trace (provision_registries C host_project falcon_client_id falcon_client_secret s)).
Proof.
  unfold provision_registries.
  apply only_bind.
  { eapply only_mono; [| apply list_gcp_registries_only].
    intros k Hk. destruct k; try discriminate; reflexivity. }
  intros registries s1. destruct registries as [| r0 rs]; [apply only_print; reflexivity |].
  apply only_bind; [apply only_print; reflexivity | intros _ s2].
  apply only_bind.
  { eapply only_mono; [| apply get_service_account_key_only].
    intros k Hk. destruct k; try discriminate; reflexivity. }
  intros key_and_email s3. cbv zeta.
  apply only_bind.
  { eapply only_mono; [| apply grant_loop_only].
    intros k Hk. destruct k; try discriminate; reflexivity. }
  intros _ s4.
  apply only_bind.
  { unfold register_with_falcon. eapply only_mono; [| apply register_each_only].
    intros k Hk. destruct k; try discriminate; reflexivity. }
  intros results s5.
  repeat (apply only_bind; [apply only_print; reflexivity | intros _ ?]).
  destruct (Z.ltb _ _); [| apply only_ret].
  apply only_bind; [apply only_print; reflexivity | intros _ ?].
  eapply only_mono; [| apply print_failures_only].
  intros k Hk. destruct k; try discriminate; reflexivity.
Qed.

(** X20. The two modes do not mix.  A provision run never lists, reads or
    deletes a Falcon entry and never asks the operator; a deprovision run
    never searches projects, lists repositories, grants a role or creates a
    Falcon entry. *)
Theorem modes_do_not_mix (environ : string -> option string) (s : state W) :
  (delete_calls (trace (main C false environ s)) = [] /\
   detail_calls (trace (main C false environ s)) = [] /\
   input_calls (trace (main C false environ s)) = []) /\
  (create_calls (trace (main C true environ s)) = [] /\
   listing_calls (trace (main C true environ s)) = [] /\
   grant_passes (trace (main C true environ s)) = []).
Proof.
  assert (Hprovision :
    only [KPrint; KGrantBanner; KSearch; KListing; KSubprocess; KFile; KFalconCreate]
      (trace (main C false environ s))).
  { unfold main.
    destruct (environ "GCP_HOST_PROJECT") as [host |]; [| apply only_nil].
    destruct (environ "FALCON_CLIENT_ID") as [id |]; [| apply only_nil].
    destruct (environ "FALCON_CLIENT_SECRET") as [secret |]; [| apply only_nil].
    destruct (negb _); [apply only_nil |].
    apply only_bind; [apply only_print; reflexivity | intros _ s1].
    apply only_bind; [apply provision_registries_only | intros _ s2].
    apply only_print; reflexivity. }
  assert (Hdeprovision :
    only [KPrint; KRemovalBanner; KInput; KFalconList; KFalconDetail; KFalconDelete;
          KSubprocess]
      (trace (main C true environ s))).
  { unfold main.
    destruct (environ "GCP_HOST_PROJECT") as [host |]; [| apply only_nil].
    destruct (environ "FALCON_CLIENT_ID") as [id |]; [| apply only_nil].
    destruct (environ "FALCON_CLIENT_SECRET") as [secret |]; [| apply only_nil].
    destruct (negb _); [apply only_nil |].
    apply only_bind; [apply only_print; reflexivity | intros _ s1].
    apply only_bind.
    { eapply only_mono; [| apply cleanup_falcon_registries_only].
      intros k Hk. destruct k; try discriminate; reflexivity. }
    intros _ s2.
    apply only_bind.
    { eapply only_mono; [| apply cleanup_service_account_only].
      intros k Hk. destruct k; try discriminate; reflexivity. }
    intros _ s3. apply only_print; reflexivity. }
  split; split; [| split | | split].
  - absent only_delete_calls Hprovision.
  - absent only_detail_calls Hprovision.
  - absent only_input_calls Hprovision.
  - absent only_create_calls Hdeprovision.
  - absent only_listing_calls Hdeprovision.
  - absent only_grant_passes Hdeprovision.
Qed.

End Modes.

Lemma credential_failure_is_fatal_witness :
  outcome (list_gcp_registries Scenario.no_key Demo.start) = Ok Scenario.discovered /\
  Scenario.discovered <> [] /\
  outcome (get_service_account_key Scenario.no_key "host" default_sa_name
             (final (list_gcp_registries Scenario.no_key Demo.start))) =
    Raise (mkExn CalledProcessError "Command returned non-zero exit status." "quota exceeded") /\
  outcome (provision_registries Scenario.no_key "host" "id" "secret" Demo.start) =
    Raise (mkExn CalledProcessError "Command returned non-zero exit status." "quota exceeded") /\
  grant_passes (trace (provision_registries Scenario.no_key "host" "id" "secret" Demo.start)) =
    [] /\
  create_calls (trace (provision_registries Scenario.no_key "host" "id" "secret" Demo.start)) =
    [].
Proof.
  assert (Hfound : outcome (list_gcp_registries Scenario.no_key Demo.start) =
                   Ok Scenario.discovered) by (vm_compute; reflexivity).
  assert (Hne : Scenario.discovered <> []) by discriminate.
  assert (Hkey : outcome (get_service_account_key Scenario.no_key "host" default_sa_name
                            (final (list_gcp_registries Scenario.no_key Demo.start))) =
                 Raise (mkExn CalledProcessError "Command returned non-zero exit status."
                              "quota exceeded")) by (vm_compute; reflexivity).
  split; [exact Hfound |]. split; [exact Hne |]. split; [exact Hkey |].
  exact (credential_failure_is_fatal Scenario.no_key "host" "id" "secret" Demo.start
           Scenario.discovered _ Hfound Hne Hkey).
Defined.

Section DeprovisionEnd.

Context {W : Type} (C : Collaborators W).

(** X21. Whenever the removal of the registrations returns, whether it
    removed anything or not, the deprovision run goes on to the credential
    cleanup and returns: the first command of the run is the listing of the
    service accounts of the host project. *)
Theorem returned_removal_is_followed_by_credential_cleanup
    (environ : string -> option string) (s : state W)
    (host_project falcon_client_id falcon_client_secret : string) :
  environ "GCP_HOST_PROJECT" = Some host_project ->
  environ "FALCON_CLIENT_ID" = Some falcon_client_id ->
  environ "FALCON_CLIENT_SECRET" = Some falcon_client_secret ->
  andb (env_truthy (Some host_project))
       (andb (env_truthy (Some falcon_client_id))
             (env_truthy (Some falcon_client_secret))) = true ->
  outcome (cleanup_falcon_registries C falcon_client_id falcon_client_secret s) = Ok tt ->
  outcome (main C true environ s) = Ok tt /\
  exists later,
    subprocess_calls (trace (main C true environ s)) = Shell (list_cmd host_project) :: later.
Proof.
  intros Hhost Hid Hsecret Hset Hremoved.
  pose proof (cleanup_falcon_registries_only C falcon_client_id falcon_client_secret s)
    as Honly.
  assert (Hnone : subprocess_calls
                    (trace (cleanup_falcon_registries C falcon_client_id
                              falcon_client_secret s)) = [])
    by absent only_subprocess_calls Honly.
  unfold main. rewrite Hhost, Hid, Hsecret, Hset. cbn [negb].
  rewrite outcome_bind, trace_bind. cbn [print emit trace outcome final fst snd].
  rewrite outcome_bind, trace_bind, Hremoved.
  rewrite outcome_bind, trace_bind.
  destruct (cleanup_service_account_spec C host_project default_sa_name
              (final (cleanup_falcon_registries C falcon_client_id falcon_client_secret s)))
    as [Hout (listed & rest & Hsa)].
  rewrite Hout, Hsa. cbn [print emit trace outcome final fst snd].
  split; [reflexivity |].
  cbn [app]. change (subprocess_calls (?e :: ?t)) with (subprocess_calls t).
  rewrite subprocess_calls_app, Hnone. cbn [app].
  eexists. reflexivity.
Qed.

End DeprovisionEnd.

Lemma returned_removal_is_followed_by_credential_cleanup_witness :
  Demo.environ "GCP_HOST_PROJECT" = Some "host" /\
  Demo.environ "FALCON_CLIENT_ID" = Some "id" /\
  Demo.environ "FALCON_CLIENT_SECRET" = Some "secret" /\
  andb (env_truthy (Some "host")) (andb (env_truthy (Some "id")) (env_truthy (Some "secret"))) =
    true /\
  outcome (cleanup_falcon_registries Scenario.falcon_refuses "id" "secret" Demo.start) = Ok tt /\
  outcome (main Scenario.falcon_refuses true Demo.environ Demo.start) = Ok tt /\
  exists later,
    subprocess_calls (trace (main Scenario.falcon_refuses true Demo.environ Demo.start)) =
    Shell (list_cmd "host") :: later.
Proof.
  do 5 (split; [reflexivity |]).
  exact (returned_removal_is_followed_by_credential_cleanup Scenario.falcon_refuses
           Demo.environ Demo.start "host" "id" "secret" eq_refl eq_refl eq_refl eq_refl eq_refl).
Defined.
